(** * Folder management and status tracking: a shallow embedding

  The development follows the layers of the repository:

  - [Folder], [AppFolder], [App] and [Database]: the two tables of the
    folder migration and the part of the [apps] table the service reads;
  - [Sql]: the relational operators the query builder chains are made of
    (where, left and inner join, group by, count, order by, limit);
  - [FolderService]: the methods of [FolderService.ts], written in a small
    state-and-exception monad over the database;
  - [FolderController] and [FolderDialog]: request validation on the
    server and in the dialog;
  - [StatusTracker]: the bounded activity log of the status hook.

  Text is [string]: a sequence of 8-bit code units, [String.length] being
  the [length] property and the order of the codes the binary collation.
  Numbers that the code only uses as integers ([order], timestamps,
  counts) are [Z] or [nat]. *)

From Stdlib Require Import String Ascii List ZArith Bool Lia Arith.
From Stdlib Require Import Permutation Sorted DecimalString.
Import ListNotations.

Local Open Scope string_scope.
Local Open Scope list_scope.

(** ** Rows *)

Module Folder.
(** A row of [folders]. [description], [color], [icon] and the two
    timestamps are nullable columns. *)
Record t := mk {
  id : string;
  userId : string;
  name : string;
  description : option string;
  color : option string;
  icon : option string;
  order : Z;
  createdAt : option Z;
  updatedAt : option Z
}.
End Folder.

Module AppFolder.
(** A row of [app_folders]. *)
Record t := mk {
  id : string;
  appId : string;
  folderId : string;
  addedAt : option Z
}.
End AppFolder.

Module App.
(** The columns of [apps] that the folder service reads. *)
Record t := mk {
  id : string;
  userId : string;
  title : string;
  description : option string;
  framework : option string;
  status : string;
  visibility : string;
  createdAt : option Z;
  updatedAt : option Z
}.
End App.

(** [FolderWithAppCount extends Folder { appCount: number }] *)
Record FolderWithAppCount := mkFolderWithAppCount {
  folder : Folder.t;
  appCount : nat
}.

(** The projection selected by [getAppsInFolder]. *)
Record AppInFolder := mkAppInFolder {
  aif_id : string;
  aif_title : string;
  aif_description : option string;
  aif_framework : option string;
  aif_status : string;
  aif_visibility : string;
  aif_createdAt : option Z;
  aif_updatedAt : option Z
}.

Record Database := mkDatabase {
  folders : list Folder.t;
  appFolders : list AppFolder.t;
  apps : list App.t
}.

(** ** Relational operators *)

Module Sql.
Section Operators.
Context {A B : Type}.

(** [.where(p)] *)
Definition where_ (p : A -> bool) (rows : list A) : list A := filter p rows.

(** [.limit(n)] *)
Definition limit (n : nat) (rows : list A) : list A := firstn n rows.

(** The rows a left join yields for one left row: its matches, or the
    row paired with NULL when it has none. *)
Definition joinedRows (r : list B) (on : A -> B -> bool) (a : A)
  : list (A * option B) :=
  match filter (on a) r with
  | [] => [(a, None)]
  | m => map (fun b => (a, Some b)) m
  end.

(** [a.leftJoin(b, on)] *)
Definition leftJoin (l : list A) (r : list B) (on : A -> B -> bool)
  : list (A * option B) :=
  flat_map (joinedRows r on) l.

(** [a.innerJoin(b, on)] *)
Definition innerJoin (l : list A) (r : list B) (on : A -> B -> bool)
  : list (A * B) :=
  flat_map (fun a => map (fun b => (a, b)) (filter (on a) r)) l.

(** [count(col)]: the rows of a group whose [col] is not NULL. *)
Definition count (col : A -> option B) (group : list A) : nat :=
  length (filter (fun row => match col row with Some _ => true | None => false end) group).
End Operators.

Section GroupBy.
Context {A : Type}.
Variable key : A -> string.

(** One scan step of [GROUP BY]: the row joins the group of its key, or
    opens a new group after the ones seen so far. *)
Fixpoint add_row (row : A) (groups : list (string * list A))
  : list (string * list A) :=
  match groups with
  | [] => [(key row, [row])]
  | (k, g) :: rest =>
      if k =? key row then (k, g ++ [row]) :: rest
      else (k, g) :: add_row row rest
  end.

Definition groupBy (rows : list A) : list (string * list A) :=
  fold_left (fun groups row => add_row row groups) rows [].
End GroupBy.

Section OrderBy.
Context {A : Type}.
Variable leb : A -> A -> bool.

Fixpoint insert (x : A) (l : list A) : list A :=
  match l with
  | [] => [x]
  | y :: t => if leb x y then x :: l else y :: insert x t
  end.

(** [.orderBy(...)]: a stable sort of the rows in scan order. *)
Definition orderBy (rows : list A) : list A := fold_right insert [] rows.
End OrderBy.

(** [MAX(col)] over integers: NULL on no rows. *)
Definition max (vals : list Z) : option Z :=
  match vals with
  | [] => None
  | v :: vs => Some (fold_left Z.max vs v)
  end.

(** [COALESCE(x, d)] *)
Definition coalesce {A} (x : option A) (d : A) : A :=
  match x with Some v => v | None => d end.
End Sql.

(** ** The service monad

  A method runs its statements one after the other on the database.  A
  statement that throws leaves the effects of the earlier ones in place
  (no statement is wrapped in a transaction). *)

Inductive outcome (A : Type) : Type :=
| Returned (a : A)
| Thrown (operation : string).
Arguments Returned {A} a.
Arguments Thrown {A} operation.

Definition Svc (A : Type) : Type := Database -> outcome A * Database.

Definition ret {A} (a : A) : Svc A := fun db => (Returned a, db).

Definition bind {A B} (m : Svc A) (k : A -> Svc B) : Svc B :=
  fun db =>
  match m db with
  | (Returned a, db') => k a db'
  | (Thrown e, db') => (Thrown e, db')
  end.

Definition throw {A} (e : string) : Svc A := fun db => (Thrown e, db).

Definition query {A} (q : Database -> A) : Svc A := fun db => (Returned (q db), db).

Definition exec (f : Database -> Database) : Svc unit := fun db => (Returned tt, f db).

(** Modelled from the spec: [BaseService.handleDatabaseError] is not among
  the sources.  Section 4.1 says a storage exception is caught and turned
  into the error-reporting path, logged with the operation name; section 7
  says the caller answers it with status 500.  The [try]/[catch] of every
  method is therefore a rethrow tagged with the operation name. *)
Definition handleDatabaseError {A} (operation : string) (m : Svc A) : Svc A :=
  fun db =>
  match m db with
  | (Thrown _, db') => (Thrown operation, db')
  | r => r
  end.

Declare Scope svc_scope.
Delimit Scope svc_scope with svc.
Notation "x <- m ;; k" := (bind m (fun x => k))
  (at level 61, m at next level, right associativity) : svc_scope.
Notation "m ;;; k" := (bind m (fun _ => k))
  (at level 61, right associativity) : svc_scope.


Local Open Scope svc_scope.

(** ** Statements that write

    The migration declares [id] as primary key of both tables and a unique
    index on [(app_id, folder_id)]; an insert that would break one of them
    throws.  Columns left out of an insert take their default, which for the
    timestamps is the current time [now].  Foreign keys are not modelled:
    [moveAppToFolder] reads the app and the folder before it inserts,
    [createFolder] is called with the id of the authenticated user, and
    [deleteFolder] deletes the associations of a folder before the folder
    itself, so that no foreign-key check fails and no cascade has rows left
    to delete. *)

Definition insertFolder (row : Folder.t) : Svc unit :=
  fun db =>
    if existsb (fun f => Folder.id f =? Folder.id row) (folders db)
    then (Thrown "UNIQUE constraint failed: folders.id", db)
    else (Returned tt,
          mkDatabase (folders db ++ [row]) (appFolders db) (apps db)).

Definition insertAppFolder (row : AppFolder.t) : Svc unit :=
  fun db =>
    if existsb (fun r => AppFolder.id r =? AppFolder.id row) (appFolders db)
    then (Thrown "UNIQUE constraint failed: app_folders.id", db)
    else if existsb (fun r => (AppFolder.appId r =? AppFolder.appId row)
                              && (AppFolder.folderId r =? AppFolder.folderId row))
                    (appFolders db)
    then (Thrown "UNIQUE constraint failed: app_folders.app_id, app_folders.folder_id", db)
    else (Returned tt,
          mkDatabase (folders db) (appFolders db ++ [row]) (apps db)).

(** [delete(appFolders).where(p)] *)
Definition deleteAppFolders (p : AppFolder.t -> bool) : Svc unit :=
  exec (fun db => mkDatabase (folders db)
                             (filter (fun r => negb (p r)) (appFolders db))
                             (apps db)).

(** [delete(folders).where(p)] *)
Definition deleteFolders (p : Folder.t -> bool) : Svc unit :=
  exec (fun db => mkDatabase (filter (fun f => negb (p f)) (folders db))
                             (appFolders db)
                             (apps db)).

(** [update(folders).set(f).where(p)] *)
Definition updateFolders (set : Folder.t -> Folder.t) (p : Folder.t -> bool) : Svc unit :=
  exec (fun db => mkDatabase (map (fun f => if p f then set f else f) (folders db))
                             (appFolders db)
                             (apps db)).

(** ** FolderService *)

Module FolderService.

(** [{ name; description?; color?; icon? }] *)
Record FolderData := mkFolderData {
  fd_name : string;
  fd_description : option string;
  fd_color : option string;
  fd_icon : option string
}.

(** [{ name?; description?; color?; icon?; order? }]: [None] is a key that
    is absent or [undefined], which [set] leaves out of the statement. *)
Record FolderUpdates := mkFolderUpdates {
  fu_name : option string;
  fu_description : option string;
  fu_color : option string;
  fu_icon : option string;
  fu_order : option Z
}.

(** The select of [getUserFolders] and [getFolderById] up to [groupBy]:
    folders left-joined with their associations, filtered, grouped by
    [folders.id]; each group yields the folder columns and
    [count(appFolders.appId)]. *)
Definition selectWithAppCount (p : Folder.t -> bool) (db : Database)
  : list FolderWithAppCount :=
  flat_map
    (fun kg : string * list (Folder.t * option AppFolder.t) =>
       match snd kg with
       | [] => []
       | (f, _) :: _ =>
           [mkFolderWithAppCount f
              (Sql.count (fun row => option_map AppFolder.appId (snd row)) (snd kg))]
       end)
    (Sql.groupBy (fun row => Folder.id (fst row))
       (Sql.where_ (fun row => p (fst row))
          (Sql.leftJoin (folders db) (appFolders db)
             (fun f r => Folder.id f =? AppFolder.folderId r)))).

(** [orderBy(desc(folders.order), folders.name)] *)
Definition byOrderDescName (a b : FolderWithAppCount) : bool :=
  (Folder.order (folder b) <? Folder.order (folder a))%Z
  || ((Folder.order (folder a) =? Folder.order (folder b))%Z
      && String.leb (Folder.name (folder a)) (Folder.name (folder b))).

Definition getUserFolders (userId : string) : Svc (list FolderWithAppCount) :=
  handleDatabaseError "getUserFolders"
    (query (fun db =>
       Sql.orderBy byOrderDescName
         (selectWithAppCount (fun f => Folder.userId f =? userId) db))).

(** [result[0] || null] *)
Definition getFolderById (folderId userId : string) : Svc (option FolderWithAppCount) :=
  handleDatabaseError "getFolderById"
    (query (fun db =>
       hd_error
         (Sql.limit 1
            (selectWithAppCount
               (fun f => (Folder.id f =? folderId) && (Folder.userId f =? userId)) db)))).

(** [generatedId] is the value returned by [generateId()], [now] the
    current time. *)
Definition createFolder (generatedId : string) (now : Z)
    (userId : string) (folderData : FolderData) : Svc (option Folder.t) :=
  handleDatabaseError "createFolder"
    (let folderId := generatedId in
     maxOrderResult <- query (fun db =>
       [Sql.coalesce
          (Sql.max (map Folder.order
                      (Sql.where_ (fun f => Folder.userId f =? userId) (folders db))))
          (-1)%Z]) ;;
     let nextOrder :=
       (match hd_error maxOrderResult with Some m => m | None => (-1) end + 1)%Z in
     let newFolder :=
       Folder.mk folderId userId (fd_name folderData) (fd_description folderData)
                 (fd_color folderData) (fd_icon folderData) nextOrder
                 (Some now) (Some now) in
     insertFolder newFolder ;;;
     createdFolder <- query (fun db =>
       Sql.limit 1 (Sql.where_ (fun f => Folder.id f =? folderId) (folders db))) ;;
     ret (hd_error createdFolder)).

(** [{ ...updates, updatedAt: new Date() }] *)
Definition setUpdates (updates : FolderUpdates) (now : Z) (f : Folder.t) : Folder.t :=
  Folder.mk (Folder.id f) (Folder.userId f)
    (match fu_name updates with Some v => v | None => Folder.name f end)
    (match fu_description updates with Some v => Some v | None => Folder.description f end)
    (match fu_color updates with Some v => Some v | None => Folder.color f end)
    (match fu_icon updates with Some v => Some v | None => Folder.icon f end)
    (match fu_order updates with Some v => v | None => Folder.order f end)
    (Folder.createdAt f)
    (Some now).

Definition updateFolder (now : Z) (folderId userId : string) (updates : FolderUpdates)
  : Svc (option Folder.t) :=
  handleDatabaseError "updateFolder"
    (existing <- getFolderById folderId userId ;;
     match existing with
     | None => ret None
     | Some _ =>
         updateFolders (setUpdates updates now)
           (fun f => (Folder.id f =? folderId) && (Folder.userId f =? userId)) ;;;
         updatedFolder <- query (fun db =>
           Sql.limit 1 (Sql.where_ (fun f => Folder.id f =? folderId) (folders db))) ;;
         ret (hd_error updatedFolder)
     end).

Definition deleteFolder (folderId userId : string) : Svc bool :=
  handleDatabaseError "deleteFolder"
    (existing <- getFolderById folderId userId ;;
     match existing with
     | None => ret false
     | Some _ =>
         deleteAppFolders (fun r => AppFolder.folderId r =? folderId) ;;;
         deleteFolders (fun f => (Folder.id f =? folderId) && (Folder.userId f =? userId)) ;;;
         ret true
     end).

(** [folderId : string | null] *)
Definition moveAppToFolder (generatedId : string) (now : Z)
    (appId : string) (folderId : option string) (userId : string) : Svc bool :=
  handleDatabaseError "moveAppToFolder"
    (app <- query (fun db =>
       Sql.limit 1 (Sql.where_ (fun a => App.id a =? appId) (apps db))) ;;
     match hd_error app with
     | None => ret false
     | Some app0 =>
         if negb (App.userId app0 =? userId) then ret false
         else
           match folderId with
           | None =>
               deleteAppFolders (fun r => AppFolder.appId r =? appId) ;;;
               ret true
           | Some folderId =>
               folder <- getFolderById folderId userId ;;
               match folder with
               | None => ret false
               | Some _ =>
                   deleteAppFolders (fun r => AppFolder.appId r =? appId) ;;;
                   insertAppFolder (AppFolder.mk generatedId appId folderId (Some now)) ;;;
                   ret true
               end
           end
     end).

(** NULL sorts below every value. *)
Definition optZ_leb (x y : option Z) : bool :=
  match x, y with
  | None, _ => true
  | Some _, None => false
  | Some a, Some b => (a <=? b)%Z
  end.

(** [orderBy(desc(apps.updatedAt))] *)
Definition byUpdatedAtDesc (x y : App.t * AppFolder.t) : bool :=
  optZ_leb (App.updatedAt (fst y)) (App.updatedAt (fst x)).

Definition getAppsInFolder (folderId userId : string) : Svc (list AppInFolder) :=
  handleDatabaseError "getAppsInFolder"
    (folder <- getFolderById folderId userId ;;
     match folder with
     | None => ret []
     | Some _ =>
         query (fun db =>
           map (fun row : App.t * AppFolder.t =>
                  let a := fst row in
                  mkAppInFolder (App.id a) (App.title a) (App.description a)
                    (App.framework a) (App.status a) (App.visibility a)
                    (App.createdAt a) (App.updatedAt a))
             (Sql.orderBy byUpdatedAtDesc
                (Sql.where_
                   (fun row => (AppFolder.folderId (snd row) =? folderId)
                               && (App.userId (fst row) =? userId))
                   (Sql.innerJoin (apps db) (appFolders db)
                      (fun a r => App.id a =? AppFolder.appId r)))))
     end).

(** [result[0]?.folderId || null]: the empty string is falsy. *)
Definition getAppFolder (appId : string) : Svc (option string) :=
  handleDatabaseError "getAppFolder"
    (result <- query (fun db =>
       Sql.limit 1
         (map AppFolder.folderId
            (Sql.where_ (fun r => AppFolder.appId r =? appId) (appFolders db)))) ;;
     ret (match hd_error result with
          | Some folderId => if folderId =? "" then None else Some folderId
          | None => None
          end)).

End FolderService.

(** ** String helpers of the request validation *)

(** White space and line terminators that [String.prototype.trim] strips,
    among the code units a [string] can hold: TAB, LF, VT, FF, CR, SP and
    NBSP. *)
Definition isWhiteSpace (c : ascii) : bool :=
  let n := nat_of_ascii c in
  ((9 <=? n)%nat && (n <=? 13)%nat) || (n =? 32)%nat || (n =? 160)%nat.

Fixpoint trimStart (s : string) : string :=
  match s with
  | EmptyString => EmptyString
  | String c rest => if isWhiteSpace c then trimStart rest else s
  end.

Fixpoint trimEnd (s : string) : string :=
  match s with
  | EmptyString => EmptyString
  | String c rest =>
      match trimEnd rest with
      | EmptyString => if isWhiteSpace c then EmptyString else String c EmptyString
      | kept => String c kept
      end
  end.

Definition trim (s : string) : string := trimEnd (trimStart s).

(** ** FolderController *)

Module FolderController.

(** Modelled from the spec: [BaseController.createSuccessResponse] and
    [createErrorResponse] are not among the sources.  Section 4.2 gives the
    envelope and the status codes: 200 with the data on success, the given
    status with its message on error. *)
Inductive ControllerResponse (T : Type) : Type :=
| createSuccessResponse (data : T)
| createErrorResponse (message : string) (status : nat).
Arguments createSuccessResponse {T} data.
Arguments createErrorResponse {T} message status.

Definition statusCode {T} (r : ControllerResponse T) : nat :=
  match r with
  | createSuccessResponse _ => 200
  | createErrorResponse _ status => status
  end.

(** The parsed body of a create request.  [name] is [None] when the key is
    missing. *)
Record CreateFolderRequest := mkCreateFolderRequest {
  cr_name : option string;
  cr_description : option string;
  cr_color : option string;
  cr_icon : option string
}.

Record UpdateFolderRequest := mkUpdateFolderRequest {
  ur_name : option string;
  ur_description : option string;
  ur_color : option string;
  ur_icon : option string;
  ur_order : option Z
}.

(** [{ folder: FolderWithAppCount }], built with a non-null assertion. *)
Definition SingleFolderData : Type := option FolderWithAppCount.

(** [userId] is [context.user!.id]; [request] is [None] when
    [request.json()] throws. *)
Definition createFolder (generatedId : string) (now : Z) (userId : string)
    (request : option CreateFolderRequest) (db : Database)
  : ControllerResponse SingleFolderData * Database :=
  match request with
  | None => (createErrorResponse "Failed to create folder" 500, db)
  | Some body =>
      match cr_name body with
      | None => (createErrorResponse "Folder name is required" 400, db)
      | Some name =>
          if (name =? "") || (String.length (trim name) =? 0)%nat then
            (createErrorResponse "Folder name is required" 400, db)
          else if (50 <? String.length name)%nat then
            (createErrorResponse "Folder name must be 50 characters or less" 400, db)
          else
            match FolderService.createFolder generatedId now userId
                    (FolderService.mkFolderData (trim name)
                       (option_map trim (cr_description body))
                       (cr_color body) (cr_icon body)) db with
            | (Returned (Some folder), db1) =>
                match FolderService.getFolderById (Folder.id folder) userId db1 with
                | (Returned folderWithCount, db2) =>
                    (createSuccessResponse folderWithCount, db2)
                | (Thrown _, db2) =>
                    (createErrorResponse "Failed to create folder" 500, db2)
                end
            | (_, db1) => (createErrorResponse "Failed to create folder" 500, db1)
            end
      end
  end.

(** [folderId] is [context.pathParams.id]. *)
Definition updateFolder (now : Z) (userId : string) (folderId : option string)
    (request : option UpdateFolderRequest) (db : Database)
  : ControllerResponse SingleFolderData * Database :=
  match folderId with
  | None => (createErrorResponse "Folder ID is required" 400, db)
  | Some folderId =>
      if folderId =? "" then (createErrorResponse "Folder ID is required" 400, db)
      else
        match request with
        | None => (createErrorResponse "Failed to update folder" 500, db)
        | Some body =>
            match
              match ur_name body with
              | None => None
              | Some name =>
                  if (String.length (trim name) =? 0)%nat then
                    Some "Folder name cannot be empty"
                  else if (50 <? String.length name)%nat then
                    Some "Folder name must be 50 characters or less"
                  else None
              end
            with
            | Some message => (createErrorResponse message 400, db)
            | None =>
                match FolderService.updateFolder now folderId userId
                        (FolderService.mkFolderUpdates
                           (option_map trim (ur_name body))
                           (option_map trim (ur_description body))
                           (ur_color body) (ur_icon body) (ur_order body)) db with
                | (Returned None, db1) =>
                    (createErrorResponse "Folder not found" 404, db1)
                | (Returned (Some updatedFolder), db1) =>
                    match FolderService.getFolderById (Folder.id updatedFolder) userId db1 with
                    | (Returned folderWithCount, db2) =>
                        (createSuccessResponse folderWithCount, db2)
                    | (Thrown _, db2) =>
                        (createErrorResponse "Failed to update folder" 500, db2)
                    end
                | (Thrown _, db1) =>
                    (createErrorResponse "Failed to update folder" 500, db1)
                end
            end
        end
  end.

(** [{ folders }] *)
Definition getUserFolders (userId : string) (db : Database)
  : ControllerResponse (list FolderWithAppCount) * Database :=
  match FolderService.getUserFolders userId db with
  | (Returned folders, db1) => (createSuccessResponse folders, db1)
  | (Thrown _, db1) => (createErrorResponse "Failed to fetch folders" 500, db1)
  end.

Definition getFolder (userId : string) (folderId : option string) (db : Database)
  : ControllerResponse SingleFolderData * Database :=
  match folderId with
  | None => (createErrorResponse "Folder ID is required" 400, db)
  | Some folderId =>
      if folderId =? "" then (createErrorResponse "Folder ID is required" 400, db)
      else
        match FolderService.getFolderById folderId userId db with
        | (Returned None, db1) => (createErrorResponse "Folder not found" 404, db1)
        | (Returned (Some folder), db1) => (createSuccessResponse (Some folder), db1)
        | (Thrown _, db1) => (createErrorResponse "Failed to fetch folder" 500, db1)
        end
  end.

(** [{ success; message }], the data of a delete and of a move. *)
Record FolderDeleteData := mkFolderDeleteData {
  success : bool;
  message : string
}.

Definition deleteFolder (userId : string) (folderId : option string) (db : Database)
  : ControllerResponse FolderDeleteData * Database :=
  match folderId with
  | None => (createErrorResponse "Folder ID is required" 400, db)
  | Some folderId =>
      if folderId =? "" then (createErrorResponse "Folder ID is required" 400, db)
      else
        match FolderService.deleteFolder folderId userId db with
        | (Returned false, db1) => (createErrorResponse "Folder not found" 404, db1)
        | (Returned true, db1) =>
            (createSuccessResponse (mkFolderDeleteData true "Folder deleted successfully"), db1)
        | (Thrown _, db1) => (createErrorResponse "Failed to delete folder" 500, db1)
        end
  end.

(** [{ appId; folderId }]: [appId] is [None] when the key is missing,
    [folderId] is [None] for [null]. *)
Record MoveToFolderRequest := mkMoveToFolderRequest {
  mr_appId : option string;
  mr_folderId : option string
}.

Definition moveAppToFolder (generatedId : string) (now : Z) (userId : string)
    (request : option MoveToFolderRequest) (db : Database)
  : ControllerResponse FolderDeleteData * Database :=
  match request with
  | None => (createErrorResponse "Failed to move app to folder" 500, db)
  | Some body =>
      match mr_appId body with
      | None => (createErrorResponse "App ID is required" 400, db)
      | Some appId =>
          if appId =? "" then (createErrorResponse "App ID is required" 400, db)
          else
            match FolderService.moveAppToFolder generatedId now appId (mr_folderId body)
                    userId db with
            | (Returned false, db1) =>
                (createErrorResponse "App or folder not found" 404, db1)
            | (Returned true, db1) =>
                (createSuccessResponse
                   (mkFolderDeleteData true
                      (match mr_folderId body with
                       | Some folderId =>
                           if folderId =? "" then "App removed from folder"
                           else "App moved to folder"
                       | None => "App removed from folder"
                       end)), db1)
            | (Thrown _, db1) =>
                (createErrorResponse "Failed to move app to folder" 500, db1)
            end
      end
  end.

(** [{ apps }] *)
Definition getAppsInFolder (userId : string) (folderId : option string) (db : Database)
  : ControllerResponse (list AppInFolder) * Database :=
  match folderId with
  | None => (createErrorResponse "Folder ID is required" 400, db)
  | Some folderId =>
      if folderId =? "" then (createErrorResponse "Folder ID is required" 400, db)
      else
        match FolderService.getAppsInFolder folderId userId db with
        | (Returned apps, db1) => (createSuccessResponse apps, db1)
        | (Thrown _, db1) =>
            (createErrorResponse "Failed to fetch apps in folder" 500, db1)
        end
  end.

End FolderController.

(** ** FolderDialog *)

Module FolderDialog.

Record FolderFormData := mkFolderFormData {
  name : string;
  description : option string;
  color : option string;
  icon : option string
}.

(** How the promise of [onSave] settles. *)
Inductive SaveResult :=
| resolved
| rejectedWithError (message : string)
| rejectedWithOther.

(** What a submit leaves behind: the [error] and [isLoading] state, the
    argument [onSave] was called with, and whether [onOpenChange(false)]
    was called. *)
Record Submit := mkSubmit {
  error : option string;
  isLoading : bool;
  saved : option FolderFormData;
  closed : bool
}.

(** [x || undefined] on an optional string *)
Definition orUndefined (x : option string) : option string :=
  match x with
  | Some s => if s =? "" then None else Some s
  | None => None
  end.

(** [prevError] and [prevLoading] are the state before the submit. *)
Definition handleSave (onSave : FolderFormData -> SaveResult)
    (prevError : option string) (prevLoading : bool)
    (formData : FolderFormData) : Submit :=
  if trim (name formData) =? "" then
    mkSubmit (Some "Folder name is required") prevLoading None false
  else if (50 <? String.length (name formData))%nat then
    mkSubmit (Some "Folder name must be 50 characters or less") prevLoading None false
  else
    let data :=
      mkFolderFormData (trim (name formData))
        (orUndefined (option_map trim (description formData)))
        (orUndefined (color formData))
        (orUndefined (icon formData)) in
    match onSave data with
    | resolved => mkSubmit None false (Some data) true
    | rejectedWithError message => mkSubmit (Some message) false (Some data) false
    | rejectedWithOther => mkSubmit (Some "Failed to save folder") false (Some data) false
    end.

(** [mode: 'create' | 'edit'] *)
Inductive Mode := create | edit.

(** [x || ''] on a nullable string *)
Definition orEmpty (x : option string) : string :=
  match x with Some s => s | None => "" end.

(** The effect that runs when [open], [mode] or [folder] change: the form
    and the error it leaves.  The form fields always hold a string. *)
Definition openEffect (open : bool) (mode : Mode) (folder : option FolderWithAppCount)
    (formData : FolderFormData) (prevError : option string)
  : FolderFormData * option string :=
  if open then
    (match mode, folder with
     | edit, Some (mkFolderWithAppCount f _) =>
         mkFolderFormData (Folder.name f)
                          (Some (orEmpty (Folder.description f)))
                          (Some (orEmpty (Folder.color f)))
                          (Some (orEmpty (Folder.icon f)))
     | _, _ => mkFolderFormData "" (Some "") (Some "") (Some "")
     end, None)
  else (formData, prevError).

End FolderDialog.

(** ** Status tracker *)

Module StatusTracker.
Local Open Scope string_scope.

Definition MAX_ACTIVITIES : nat := 50.

Inductive Status := active | completed | error | info.

Record StatusActivity := mkStatusActivity {
  id : string;
  timestamp : Z;
  type : string;
  message : string;
  status : Status
}.

(** The three pieces of hook state. *)
Record State := mkState {
  activities : list StatusActivity;
  lastMessageTimestamp : Z;
  websocketConnected : bool
}.

(** What one call of [addActivity] reads from its surroundings: the three
    readings of [Date.now()], in program order, and the random suffix of the
    id. *)
Record Readings := mkReadings {
  idNow : Z;
  idRandom : string;
  timestampNow : Z;
  lastNow : Z
}.

(** A number inside a template literal. *)
Definition showZ (z : Z) : string := NilZero.string_of_int (Z.to_int z).

(** [updated.slice(-n)] *)
Definition sliceLast {A} (n : nat) (l : list A) : list A :=
  skipn (length l - n) l.

Definition addActivity (r : Readings) (type message : string) (status : Status)
    (s : State) : State :=
  let activity :=
    mkStatusActivity (showZ (idNow r) ++ "-" ++ idRandom r)
                     (timestampNow r) type message status in
  let updated := (activities s ++ [activity])%list in
  mkState
    (if (MAX_ACTIVITIES <? length updated)%nat
     then sliceLast MAX_ACTIVITIES updated
     else updated)
    (lastNow r)
    (websocketConnected s).

Record Tool := mkTool { toolName : string; toolStatus : string }.

(** The message kinds the switch names, each with the fields it reads, and
    [other] for a type none of the cases names. *)
Inductive WebSocketMessage :=
| generation_started (totalFiles : Z)
| phase_generating (message : string)
| phase_generated (message : string)
| phase_implementing (message : string)
| phase_implemented (message : string)
| phase_validating (message : string)
| phase_validated (message : string)
| file_generating (filePath : string)
| file_generated (filePath : string)
| file_regenerating (filePath : string)
| file_regenerated (filePath : string)
| deployment_started
| deployment_completed
| deployment_failed (message : string)
| code_reviewing
| code_reviewed
| generation_complete
| generation_stopped
| generation_resumed
| cloudflare_deployment_started
| cloudflare_deployment_completed
| cloudflare_deployment_error (error : string)
| runtime_error_found (count : Z)
| deterministic_code_fix_started
| deterministic_code_fix_completed
| conversation_response (tool : option Tool)
| error_message (error : string)
| rate_limit_error
| cf_agent_state
| file_chunk_generated
| other (type : string).

(** [now] is the reading of [Date.now()] on entry; [r] holds the readings
    of the [addActivity] call that may follow. *)
Definition trackWebSocketMessage (now : Z) (r : Readings)
    (msg : WebSocketMessage) (s : State) : State :=
  let s := mkState (activities s) now (websocketConnected s) in
  let add := addActivity r in
  match msg with
  | generation_started totalFiles =>
      add "generation_started"
          ("Starting code generation (" ++ showZ totalFiles ++ " files)") active s
  | phase_generating m => add "phase_generating" m active s
  | phase_generated m => add "phase_generated" m completed s
  | phase_implementing m => add "phase_implementing" m active s
  | phase_implemented m => add "phase_implemented" m completed s
  | phase_validating m => add "phase_validating" m active s
  | phase_validated m => add "phase_validated" m completed s
  | file_generating p => add "file_generating" ("Generating: " ++ p) active s
  | file_generated p => add "file_generated" ("Completed: " ++ p) completed s
  | file_regenerating p => add "file_regenerating" ("Regenerating: " ++ p) active s
  | file_regenerated p => add "file_regenerated" ("Regenerated: " ++ p) completed s
  | deployment_started => add "deployment_started" "Deploying to preview sandbox" active s
  | deployment_completed =>
      add "deployment_completed" "Preview deployment completed" completed s
  | deployment_failed m => add "deployment_failed" ("Deployment failed: " ++ m) error s
  | code_reviewing => add "code_reviewing" "Reviewing generated code" active s
  | code_reviewed => add "code_reviewed" "Code review completed" completed s
  | generation_complete => add "generation_complete" "Code generation completed" completed s
  | generation_stopped => add "generation_stopped" "Code generation stopped" info s
  | generation_resumed => add "generation_resumed" "Code generation resumed" active s
  | cloudflare_deployment_started =>
      add "cloudflare_deployment_started" "Deploying to Cloudflare Workers" active s
  | cloudflare_deployment_completed =>
      add "cloudflare_deployment_completed" "Cloudflare deployment completed" completed s
  | cloudflare_deployment_error e =>
      add "cloudflare_deployment_error" ("Deployment error: " ++ e) error s
  | runtime_error_found n =>
      add "runtime_error_found" ("Runtime errors detected (" ++ showZ n ++ ")") error s
  | deterministic_code_fix_started =>
      add "deterministic_code_fix_started" "Fixing code issues" active s
  | deterministic_code_fix_completed =>
      add "deterministic_code_fix_completed" "Code fixes applied" completed s
  | conversation_response None => s
  | conversation_response (Some t) =>
      if toolStatus t =? "start" then
        add "tool_start" ("Running tool: " ++ toolName t) active s
      else if toolStatus t =? "success" then
        add "tool_success" ("Tool completed: " ++ toolName t) completed s
      else if toolStatus t =? "error" then
        add "tool_error" ("Tool failed: " ++ toolName t) error s
      else s
  | error_message e => add "error" e error s
  | rate_limit_error => add "rate_limit_error" "Rate limit exceeded" error s
  | cf_agent_state => s
  | file_chunk_generated => s
  | other ty =>
      if (String.length ty <=? 50)%nat then add ty ("Event: " ++ ty) info s else s
  end.

(** The messages of a stream, each with the clock readings taken while it
    is handled, fed to the tracker in arrival order. *)
Definition feed (stream : list (Z * Readings * WebSocketMessage)) (s : State) : State :=
  fold_left (fun st ev =>
               match ev with (now, r, msg) => trackWebSocketMessage now r msg st end)
            stream s.

(** [setWebsocketConnected(connected)] *)
Definition updateWebSocketStatus (connected : bool) (s : State) : State :=
  mkState (activities s) (lastMessageTimestamp s) connected.

(** The state on mount: [useState([])], [useState(Date.now())],
    [useState(false)]. *)
Definition initial (now : Z) : State := mkState [] now false.

(** The three functions the hook returns, as calls with their arguments;
    a [status] left out of [addActivity] defaults to [info]. *)
Inductive Call :=
| callTrackWebSocketMessage (now : Z) (r : Readings) (msg : WebSocketMessage)
| callAddActivity (r : Readings) (type message : string) (status : option Status)
| callUpdateWebSocketStatus (connected : bool).

Definition call (c : Call) (s : State) : State :=
  match c with
  | callTrackWebSocketMessage now r msg => trackWebSocketMessage now r msg s
  | callAddActivity r type message status =>
      addActivity r type message (match status with Some st => st | None => info end) s
  | callUpdateWebSocketStatus connected => updateWebSocketStatus connected s
  end.

Definition run (calls : list Call) (s : State) : State :=
  fold_left (fun st c => call c st) calls s.

(** The activity a [phase_generating] message turns into. *)
Definition phaseActivity (r : Readings) (m : string) : StatusActivity :=
  mkStatusActivity (showZ (idNow r) ++ "-" ++ idRandom r)
                   (timestampNow r) "phase_generating" m active.

End StatusTracker.

(** ** Status bar *)

Module StatusBar.
Local Open Scope string_scope.

(** The fields of a project stage that the component reads. *)
Record ProjectStage := mkProjectStage {
  id : string;
  title : string;
  status : string;
  metadata : option string
}.

(** The five operation flags among the props. *)
Record Flags := mkFlags {
  isGenerating : bool;
  isDeploying : bool;
  isPreviewDeploying : bool;
  isThinking : bool;
  isGeneratingBlueprint : bool
}.

Record Operation := mkOperation {
  opText : string;
  opIcon : string;
  opStatus : string
}.

Definition currentOperation (flags : Flags) (projectStages : list ProjectStage) : Operation :=
  if isDeploying flags then mkOperation "Deploying to Cloudflare" "deploy" "active"
  else if isPreviewDeploying flags then mkOperation "Deploying Preview" "deploy" "active"
  else if isGeneratingBlueprint flags then mkOperation "Creating Blueprint" "blueprint" "active"
  else if isThinking flags then mkOperation "Planning Next Phase" "thinking" "active"
  else if isGenerating flags then mkOperation "Generating Code" "generating" "active"
  else
    match find (fun s => status s =? "active") projectStages with
    | Some activeStage => mkOperation (title activeStage) "stage" "active"
    | None => mkOperation "Ready" "idle" "idle"
    end.

Record Health := mkHealth {
  healthStatus : string;
  healthColor : string
}.

(** [now] is the reading of [Date.now()]. *)
Definition wsHealth (now : Z) (websocketConnected : bool) (lastMessageTimestamp : Z)
    (flags : Flags) : Health :=
  if negb websocketConnected then mkHealth "disconnected" "text-red-500"
  else
    let timeSinceLastMessage := (now - lastMessageTimestamp)%Z in
    let isActive :=
      isGenerating flags || isDeploying flags || isPreviewDeploying flags
      || isThinking flags || isGeneratingBlueprint flags in
    if isActive && (30000 <? timeSinceLastMessage)%Z
    then mkHealth "stalled" "text-orange-500"
    else mkHealth "connected" "text-green-500".

(** [Math.floor] of a quotient of integers is [Z.div]. *)
Definition timeSinceLastActivity (now lastMessageTimestamp : Z) : string :=
  if (lastMessageTimestamp =? 0)%Z then "N/A"
  else
    let seconds := ((now - lastMessageTimestamp) / 1000)%Z in
    if (seconds <? 60)%Z then StatusTracker.showZ seconds ++ "s ago"
    else
      let minutes := (seconds / 60)%Z in
      if (minutes <? 60)%Z then StatusTracker.showZ minutes ++ "m ago"
      else
        let hours := (minutes / 60)%Z in
        StatusTracker.showZ hours ++ "h ago".

(** [recentActivities.slice(-10).reverse()], the rows of the activity
    panel. *)
Definition recentActivityRows (recentActivities : list StatusTracker.StatusActivity)
  : list StatusTracker.StatusActivity :=
  rev (StatusTracker.sliceLast 10 recentActivities).

End StatusBar.

(** ** Client calls of the folder API *)

Module UseFolders.
Local Open Scope string_scope.

(** [{ success; data?; error? }]: [error] is [response.error?.message]. *)
Record ApiResponse (T : Type) := mkApiResponse {
  success : bool;
  data : option T;
  error : option string
}.
Arguments mkApiResponse {T} success data error.
Arguments success {T} a.
Arguments data {T} a.
Arguments error {T} a.

(** What a call can throw: an [ApiError] of the API client, another
    [Error], or some other value. *)
Inductive Thrown :=
| ApiError (message : string)
| Error (message : string)
| otherValue.

(** How an awaited call completes. *)
Inductive Completion (T : Type) :=
| returned (value : T)
| threw (e : Thrown).
Arguments returned {T} value.
Arguments threw {T} e.

(** [m || fallback] on an optional message *)
Definition orMessage (m : option string) (fallback : string) : string :=
  match m with
  | Some s => if s =? "" then fallback else s
  | None => fallback
  end.

(** The three pieces of state of [useFolders]. *)
Record FolderHookState := mkFolderHookState {
  folders : list FolderWithAppCount;
  loading : bool;
  hookError : option string
}.

(** The state once [fetchFolders] has run to its end; [api] is how
    [apiClient.getFolders()] completed. *)
Definition fetchFolders (api : Completion (ApiResponse (list FolderWithAppCount)))
    (s : FolderHookState) : FolderHookState :=
  match api with
  | returned response =>
      match success response, data response with
      | true, Some folders => mkFolderHookState folders false None
      | _, _ => mkFolderHookState (folders s) false (Some "Failed to fetch folders")
      end
  | threw (ApiError m) =>
      mkFolderHookState (folders s) false (Some ("Failed to fetch folders: " ++ m))
  | threw _ => mkFolderHookState (folders s) false (Some "Failed to fetch folders")
  end.

(** [api] is how [apiClient.updateFolder(folderId, updates)] completed. *)
Definition updateFolder (api : Completion (ApiResponse FolderWithAppCount))
  : Completion FolderWithAppCount :=
  match api with
  | returned response =>
      match success response, data response with
      | true, Some folder => returned folder
      | _, _ => threw (Error (orMessage (error response) "Failed to update folder"))
      end
  | threw (ApiError m) => threw (Error ("Failed to update folder: " ++ m))
  | threw e => threw e
  end.

End UseFolders.

(** ** Folder actions dropdown *)

Module FolderActionsDropdown.
Local Open Scope string_scope.

Record State := mkState {
  isEditDialogOpen : bool;
  isDeleteDialogOpen : bool;
  isDeleting : bool
}.

(** What [handleEditFolder] does besides setting state, in order
    ([onFolderUpdated] when the prop is given). *)
Inductive Effect :=
| toastSuccess (message : string)
| onFolderUpdated
| consoleError (message : string).

(** [handleEditFolder]: the state and effects it leaves and how its
    promise settles; [api] is how [apiClient.updateFolder] completed.  The
    error it throws on is the one [updateFolder] threw, which is never an
    [ApiError]. *)
Definition handleEditFolder
    (api : UseFolders.Completion (UseFolders.ApiResponse FolderWithAppCount)) (s : State)
  : State * list Effect * FolderDialog.SaveResult :=
  match UseFolders.updateFolder api with
  | UseFolders.returned _ =>
      (mkState false (isDeleteDialogOpen s) (isDeleting s),
       [toastSuccess "Folder updated successfully"; onFolderUpdated],
       FolderDialog.resolved)
  | UseFolders.threw e =>
      (s, [consoleError "Error updating folder:"],
       match e with
       | UseFolders.ApiError m => FolderDialog.rejectedWithError m
       | UseFolders.Error m => FolderDialog.rejectedWithError m
       | UseFolders.otherValue => FolderDialog.rejectedWithOther
       end)
  end.

End FolderActionsDropdown.

(** ** Vocabulary of the statements *)

(** The association rows of an app, and of a folder. *)
Definition associationsOf (db : Database) (appId : string) : list AppFolder.t :=
  filter (fun r => AppFolder.appId r =? appId) (appFolders db).

Definition associationsIn (db : Database) (folderId : string) : list AppFolder.t :=
  filter (fun r => AppFolder.folderId r =? folderId) (appFolders db).

(** A folder row with this id belongs to the user. *)
Definition ownsFolder (db : Database) (folderId userId : string) : bool :=
  existsb (fun f => (Folder.id f =? folderId) && (Folder.userId f =? userId)) (folders db).

(** The app row with this id belongs to the user. *)
Definition ownsApp (db : Database) (appId userId : string) : bool :=
  match find (fun a => App.id a =? appId) (apps db) with
  | Some a => App.userId a =? userId
  | None => false
  end.

(** The primary keys of [folders] and [apps]. *)
Definition uniqueFolderIds (db : Database) : Prop := NoDup (map Folder.id (folders db)).
Definition uniqueAppIds (db : Database) : Prop := NoDup (map App.id (apps db)).

(** The invariant of the association table: an app is filed at most once. *)
Definition oneFolderPerApp (db : Database) : Prop :=
  forall appId, (length (associationsOf db appId) <= 1)%nat.

(** A folder with the number of its association rows. *)
Definition withAppCount (db : Database) (f : Folder.t) : FolderWithAppCount :=
  mkFolderWithAppCount f (length (associationsIn db (Folder.id f))).

(** Unfiled: the rows of the other apps. *)
Definition withoutApp (db : Database) (appId : string) : Database :=
  mkDatabase (folders db)
             (filter (fun r => negb (AppFolder.appId r =? appId)) (appFolders db))
             (apps db).

(** Filed: the rows of the other apps, then the new association. *)
Definition filedIn (db : Database) (row : AppFolder.t) : Database :=
  mkDatabase (folders db)
             (appFolders (withoutApp db (AppFolder.appId row)) ++ [row])
             (apps db).

(** The answers of the four operations for a folder the caller does not
    own: nothing found, nothing thrown, nothing written. *)
Definition notFound (db : Database) (folderId userId : string) : Prop :=
  FolderService.getFolderById folderId userId db = (Returned None, db)
  /\ (forall now updates,
         FolderService.updateFolder now folderId userId updates db = (Returned None, db))
  /\ FolderService.deleteFolder folderId userId db = (Returned false, db)
  /\ (forall generatedId now appId,
         FolderService.moveAppToFolder generatedId now appId (Some folderId) userId db
         = (Returned false, db)).

(** A field after an update: the provided value, or the prior one. *)
Definition providedOrKept {A} (provided : option A) (before after : A) : Prop :=
  (provided = None -> after = before) /\ (forall v, provided = Some v -> after = v).

(** The row [f'] is the row [f] with the provided fields changed, the
    update timestamp set to [now], and nothing else touched. *)
Definition updatedRow (updates : FolderService.FolderUpdates) (now : Z)
    (f f' : Folder.t) : Prop :=
  Folder.id f' = Folder.id f
  /\ Folder.userId f' = Folder.userId f
  /\ Folder.createdAt f' = Folder.createdAt f
  /\ providedOrKept (FolderService.fu_name updates) (Folder.name f) (Folder.name f')
  /\ providedOrKept (option_map Some (FolderService.fu_description updates))
                    (Folder.description f) (Folder.description f')
  /\ providedOrKept (option_map Some (FolderService.fu_color updates))
                    (Folder.color f) (Folder.color f')
  /\ providedOrKept (option_map Some (FolderService.fu_icon updates))
                    (Folder.icon f) (Folder.icon f')
  /\ providedOrKept (FolderService.fu_order updates) (Folder.order f) (Folder.order f')
  /\ Folder.updatedAt f' = Some now.

(** The [order] values of a user's folders. *)
Definition userOrders (db : Database) (userId : string) : list Z :=
  map Folder.order (filter (fun f => Folder.userId f =? userId) (folders db)).

(** [k] is one more than the largest order of the user's folders, or 0
    when the user has none. *)
Definition isNextOrder (db : Database) (userId : string) (k : Z) : Prop :=
  (userOrders db userId = [] -> k = 0%Z)
  /\ (forall o, In o (userOrders db userId) -> (o < k)%Z)
  /\ (userOrders db userId <> [] -> In (k - 1)%Z (userOrders db userId)).

(** A run of create requests of one user, each with the id generated for
    it and its time: the database each call ran on, and what it returned. *)
Fixpoint createSequence (userId : string)
    (requests : list (string * Z * FolderService.FolderData)) (db : Database)
  : list (Database * outcome (option Folder.t)) :=
  match requests with
  | [] => []
  | (generatedId, now, folderData) :: rest =>
      let (result, db') := FolderService.createFolder generatedId now userId folderData db in
      (db, result) :: createSequence userId rest db'
  end.

(** [a] may come before [b] in a listing: a larger order first, and for
    equal orders the smaller name first. *)
Definition listedBefore (a b : FolderWithAppCount) : Prop :=
  (Folder.order (folder b) < Folder.order (folder a))%Z
  \/ (Folder.order (folder a) = Folder.order (folder b)
      /\ String.leb (Folder.name (folder a)) (Folder.name (folder b)) = true).

(** A string made of white space only (the empty string included). *)
Fixpoint allWhiteSpace (s : string) : bool :=
  match s with
  | EmptyString => true
  | String c rest => isWhiteSpace c && allWhiteSpace rest
  end.

(** A [phase_generating] message with the clock readings taken while it is
    handled, as an element of a stream. *)
Definition phaseEvent (ev : Z * StatusTracker.Readings * string)
  : Z * StatusTracker.Readings * StatusTracker.WebSocketMessage :=
  match ev with (now, r, m) => (now, r, StatusTracker.phase_generating m) end.

(** The log entry of such a message. *)
Definition phaseEntry (ev : Z * StatusTracker.Readings * string)
  : StatusTracker.StatusActivity :=
  match ev with (_, r, m) => StatusTracker.phaseActivity r m end.

(** ** Sequences of service calls *)

(** The primary key of [app_folders]. *)
Definition uniqueAppFolderIds (db : Database) : Prop :=
  NoDup (map AppFolder.id (appFolders db)).

(** Every association links an app and a folder that are in their tables
    and belong to one user. *)
Definition sameOwner (db : Database) : Prop :=
  forall r, In r (appFolders db) ->
    exists a f, In a (apps db) /\ In f (folders db)
                /\ App.id a = AppFolder.appId r /\ Folder.id f = AppFolder.folderId r
                /\ App.userId a = Folder.userId f.

(** A call of one of the methods of the service, with the values it reads
    from its surroundings. *)
Inductive ServiceCall :=
| callGetUserFolders (userId : string)
| callGetFolderById (folderId userId : string)
| callCreateFolder (generatedId : string) (now : Z) (userId : string)
                   (folderData : FolderService.FolderData)
| callUpdateFolder (now : Z) (folderId userId : string)
                   (updates : FolderService.FolderUpdates)
| callDeleteFolder (folderId userId : string)
| callMoveAppToFolder (generatedId : string) (now : Z) (appId : string)
                      (folderId : option string) (userId : string)
| callGetAppsInFolder (folderId userId : string)
| callGetAppFolder (appId : string).

(** The database a call leaves behind, whether it returns or throws. *)
Definition serviceStep (c : ServiceCall) (db : Database) : Database :=
  match c with
  | callGetUserFolders u => snd (FolderService.getUserFolders u db)
  | callGetFolderById f u => snd (FolderService.getFolderById f u db)
  | callCreateFolder g n u d => snd (FolderService.createFolder g n u d db)
  | callUpdateFolder n f u up => snd (FolderService.updateFolder n f u up db)
  | callDeleteFolder f u => snd (FolderService.deleteFolder f u db)
  | callMoveAppToFolder g n a f u => snd (FolderService.moveAppToFolder g n a f u db)
  | callGetAppsInFolder f u => snd (FolderService.getAppsInFolder f u db)
  | callGetAppFolder a => snd (FolderService.getAppFolder a db)
  end.

Definition serviceRun (calls : list ServiceCall) (db : Database) : Database :=
  fold_left (fun d c => serviceStep c d) calls db.

(** [x] may come before [y] in the apps of a folder: it was updated no
    earlier, an app without update time coming last. *)
Definition updatedNoEarlier (x y : AppInFolder) : Prop :=
  FolderService.optZ_leb (aif_updatedAt y) (aif_updatedAt x) = true.

(** The columns [getAppsInFolder] selects of an app. *)
Definition appInFolder (a : App.t) : AppInFolder :=
  mkAppInFolder (App.id a) (App.title a) (App.description a) (App.framework a)
                (App.status a) (App.visibility a) (App.createdAt a) (App.updatedAt a).

(** A folder name as the controller stores it: trimmed, not empty, at most
    50 long. *)
Definition normalisedName (name : string) : Prop :=
  trim name = name /\ name <> "" /\ (String.length name <= 50)%nat.

Definition namesNormalised (db : Database) : Prop :=
  forall f, In f (folders db) -> normalisedName (Folder.name f).

(** ** Sample data *)

Module Sample.

Definition work : Folder.t :=
  Folder.mk "f1" "alice" "Work" None (Some "#3b82f6") None 0 (Some 100%Z) (Some 100%Z).
Definition personal : Folder.t :=
  Folder.mk "f2" "alice" "Personal" (Some "Side projects") None None 1 (Some 110%Z) (Some 110%Z).
Definition archive : Folder.t :=
  Folder.mk "f3" "bob" "Archive" None None None 0 (Some 120%Z) (Some 120%Z).

Definition todo : App.t :=
  App.mk "a1" "alice" "Todo list" None (Some "react") "completed" "private"
         (Some 50%Z) (Some 60%Z).
Definition notes : App.t :=
  App.mk "a2" "alice" "Notes" None None "completed" "private" (Some 51%Z) (Some 70%Z).
Definition chess : App.t :=
  App.mk "a3" "bob" "Chess" None None "generating" "public" (Some 52%Z) (Some 80%Z).

(** Alice has two folders and two apps, one of them filed; Bob has one of
    each. *)
Definition db : Database :=
  mkDatabase [work; personal; archive]
             [AppFolder.mk "l1" "a1" "f1" (Some 130%Z)]
             [todo; notes; chess].

(** The same, with Bob's app also associated with Alice's folder. *)
Definition shared : Database :=
  mkDatabase [work; personal; archive]
             [AppFolder.mk "l1" "a1" "f1" (Some 130%Z);
              AppFolder.mk "l2" "a3" "f1" (Some 140%Z)]
             [todo; notes; chess].

(** A user without folders, and two create requests. *)
Definition requests : list (string * Z * FolderService.FolderData) :=
  [("f10", 200%Z, FolderService.mkFolderData "Work" None None None);
   ("f11", 210%Z, FolderService.mkFolderData "Personal" None None None)].

Definition rename : FolderService.FolderUpdates :=
  FolderService.mkFolderUpdates (Some "Office") None None None None.

Definition name50 : string := "Quarterly planning and budget review for the teams".
Definition name51 : string := "Quarterly planning and budget review for the teams.".
Definition blank : string := "   ".

Definition readings (i : nat) : StatusTracker.Readings :=
  StatusTracker.mkReadings (1000 + Z.of_nat i) "k3x9q2a" (1000 + Z.of_nat i)
                           (1000 + Z.of_nat i).

(** Sixty [phase_generating] messages, one per millisecond. *)
Definition sixty : list (Z * StatusTracker.Readings * string) :=
  map (fun i => ((1000 + Z.of_nat i)%Z, readings i, "Generating phase")) (seq 1 60).

Definition idle : StatusTracker.State := StatusTracker.mkState [] 0 false.

End Sample.

(** * Properties *)

(** ** Relational operators *)

Section SqlFacts.
Context {A B : Type}.

Lemma joinedRows_fst (r : list B) (on : A -> B -> bool) a row :
  In row (Sql.joinedRows r on a) -> fst row = a.
Proof.
  unfold Sql.joinedRows. destruct (filter (on a) r) as [|b m].
  - intros [<-|[]]. reflexivity.
  - intros H. apply in_map_iff in H. destruct H as (b' & <- & _). reflexivity.
Qed.

Lemma joinedRows_not_nil (r : list B) (on : A -> B -> bool) a :
  Sql.joinedRows r on a <> [].
Proof.
  unfold Sql.joinedRows. destruct (filter (on a) r); discriminate.
Qed.

Lemma joinedRows_count (r : list B) (on : A -> B -> bool) a (col : B -> string) :
  Sql.count (fun row : A * option B => option_map col (snd row)) (Sql.joinedRows r on a)
  = length (filter (on a) r).
Proof.
  unfold Sql.joinedRows, Sql.count.
  destruct (filter (on a) r) as [|b m]; [reflexivity|].
  generalize (b :: m). intros l. induction l as [|x l IH]; simpl; [reflexivity|].
  now rewrite IH.
Qed.

Lemma filter_joinedRows (r : list B) (on : A -> B -> bool) (p : A -> bool) a :
  filter (fun row => p (fst row)) (Sql.joinedRows r on a)
  = if p a then Sql.joinedRows r on a else [].
Proof.
  assert (H : forall rows, (forall row, In row rows -> fst row = a) ->
                           filter (fun row : A * option B => p (fst row)) rows
                           = if p a then rows else []).
  { induction rows as [|x rows IH]; intros Hall; simpl.
    - now destruct (p a).
    - rewrite (Hall x (or_introl eq_refl)).
      rewrite IH by (intros; apply Hall; now right).
      now destruct (p a). }
  apply H. intros row. apply joinedRows_fst.
Qed.

(** Filtering the joined rows on the left columns is joining the filtered
    left rows. *)
Lemma where_leftJoin (l : list A) (r : list B) on (p : A -> bool) :
  Sql.where_ (fun row => p (fst row)) (Sql.leftJoin l r on)
  = Sql.leftJoin (filter p l) r on.
Proof.
  unfold Sql.where_, Sql.leftJoin.
  induction l as [|a l IH]; simpl; [reflexivity|].
  rewrite filter_app, IH, filter_joinedRows.
  destruct (p a); reflexivity.
Qed.

End SqlFacts.

Section GroupByFacts.
Context {A : Type}.
Variable key : A -> string.

Lemma add_row_fresh (row : A) groups :
  ~ In (key row) (map fst groups) ->
  Sql.add_row key row groups = groups ++ [(key row, [row])].
Proof.
  induction groups as [|[k g] rest IH]; simpl; intros Hn; [reflexivity|].
  destruct (String.eqb_spec k (key row)) as [->|_].
  - exfalso. apply Hn. now left.
  - rewrite IH; [reflexivity|]. intros Hin. apply Hn. now right.
Qed.

Lemma add_row_last (row : A) groups g :
  ~ In (key row) (map fst groups) ->
  Sql.add_row key row (groups ++ [(key row, g)]) = groups ++ [(key row, g ++ [row])].
Proof.
  induction groups as [|[k g'] rest IH]; simpl; intros Hn.
  - now rewrite String.eqb_refl.
  - destruct (String.eqb_spec k (key row)) as [->|_].
    + exfalso. apply Hn. now left.
    + rewrite IH; [reflexivity|]. intros Hin. apply Hn. now right.
Qed.

(** A run of rows with one key that no earlier group has forms the next
    group. *)
Lemma fold_add_row_run (k : string) (rows : list A) groups g :
  (forall row, In row rows -> key row = k) ->
  ~ In k (map fst groups) ->
  fold_left (fun gs row => Sql.add_row key row gs) rows (groups ++ [(k, g)])
  = groups ++ [(k, g ++ rows)].
Proof.
  revert g. induction rows as [|x rows IH]; intros g Hk Hn; simpl.
  - now rewrite app_nil_r.
  - assert (Hx : key x = k) by (apply Hk; now left). subst k.
    rewrite add_row_last by assumption.
    rewrite IH; [now rewrite <- app_assoc| |assumption].
    intros row Hin. apply Hk. now right.
Qed.

Lemma add_row_not_nil (row : A) groups : Sql.add_row key row groups <> [].
Proof.
  destruct groups as [|[k g] rest]; simpl; [discriminate|].
  destruct (k =? key row); discriminate.
Qed.

Lemma add_row_groups_not_nil (row : A) groups :
  Forall (fun kg => snd kg <> []) groups ->
  Forall (fun kg : string * list A => snd kg <> []) (Sql.add_row key row groups).
Proof.
  induction 1 as [|[k g] rest Hg Hrest IH]; simpl.
  - constructor; [discriminate|constructor].
  - destruct (k =? key row).
    + constructor; [|assumption]. simpl. destruct g; discriminate.
    + constructor; assumption.
Qed.

Lemma fold_add_row_groups_not_nil (rows : list A) groups :
  Forall (fun kg => snd kg <> []) groups ->
  Forall (fun kg : string * list A => snd kg <> [])
         (fold_left (fun gs row => Sql.add_row key row gs) rows groups).
Proof.
  revert groups. induction rows as [|x rows IH]; intros groups H; simpl; [assumption|].
  apply IH, add_row_groups_not_nil, H.
Qed.

Lemma fold_add_row_not_nil (rows : list A) groups :
  groups <> [] ->
  fold_left (fun gs row => Sql.add_row key row gs) rows groups <> [].
Proof.
  revert groups. induction rows as [|x rows IH]; intros groups H; simpl; [assumption|].
  apply IH, add_row_not_nil.
Qed.

Lemma groupBy_nil_iff (rows : list A) : Sql.groupBy key rows = [] <-> rows = [].
Proof.
  unfold Sql.groupBy. destruct rows as [|x rows]; simpl; [tauto|].
  split; [|discriminate]. intros H. exfalso.
  eapply fold_add_row_not_nil; [|exact H]. discriminate.
Qed.

Lemma groupBy_groups_not_nil (rows : list A) :
  Forall (fun kg : string * list A => snd kg <> []) (Sql.groupBy key rows).
Proof. apply fold_add_row_groups_not_nil. constructor. Qed.

End GroupByFacts.

Section GroupByJoin.
Context {A B : Type}.
Variable kf : A -> string.
Variable r : list B.
Variable on : A -> B -> bool.


Lemma fold_add_row_leftJoin (l : list A) groups :
  NoDup (map kf l) ->
  (forall a, In a l -> ~ In (kf a) (map fst groups)) ->
  fold_left (fun gs row => Sql.add_row (fun row : A * option B => kf (fst row)) row gs) (Sql.leftJoin l r on) groups
  = groups ++ map (fun a => (kf a, Sql.joinedRows r on a)) l.
Proof.
  unfold Sql.leftJoin. revert groups.
  induction l as [|a l IH]; intros groups Hnd Hfresh; simpl.
  - now rewrite app_nil_r.
  - inversion Hnd as [|? ? Hnotin Hnd']; subst.
    rewrite fold_left_app.
    assert (Hkey : forall row, In row (Sql.joinedRows r on a) -> kf (fst row) = kf a).
    { intros row Hin. now rewrite (joinedRows_fst _ _ _ _ Hin). }
    assert (Ha : ~ In (kf a) (map fst groups)) by (apply Hfresh; now left).
    destruct (Sql.joinedRows r on a) as [|b bs] eqn:Hrows.
    { exfalso. revert Hrows. apply joinedRows_not_nil. }
    simpl fold_left at 2.
    assert (Hb : kf (fst b) = kf a) by (apply Hkey; now left).
    rewrite add_row_fresh by (cbv beta; rewrite Hb; exact Ha).
    cbv beta. rewrite Hb.
    rewrite (fold_add_row_run (fun row : A * option B => kf (fst row)) (kf a) bs groups [b]);
      [|intros row Hin; apply Hkey; now right|exact Ha].
    rewrite IH; [now rewrite <- app_assoc|assumption|].
    intros a' Hin'. rewrite map_app, in_app_iff. simpl.
    intros [Hold|[Heq|[]]].
    + apply (Hfresh a'); [now right|assumption].
    + apply Hnotin. rewrite Heq. now apply in_map.
Qed.

(** With a unique key on the left table, grouping the join by that key
    gives one group per left row: its joined rows. *)
Lemma groupBy_leftJoin (l : list A) :
  NoDup (map kf l) ->
  Sql.groupBy (fun row : A * option B => kf (fst row)) (Sql.leftJoin l r on)
  = map (fun a => (kf a, Sql.joinedRows r on a)) l.
Proof.
  intros Hnd. unfold Sql.groupBy.
  rewrite fold_add_row_leftJoin; [reflexivity|assumption|].
  intros a _ [].
Qed.

End GroupByJoin.

Lemma leftJoin_nil_iff {A B} (r : list B) (on : A -> B -> bool) (l : list A) :
  Sql.leftJoin l r on = [] <-> l = [].
Proof.
  unfold Sql.leftJoin. destruct l as [|a l]; simpl; [tauto|].
  split; [|discriminate]. intros H. apply app_eq_nil in H.
  destruct H as [H _]. exfalso. revert H. apply joinedRows_not_nil.
Qed.

Lemma NoDup_map_filter {A K} (f : A -> K) (p : A -> bool) (l : list A) :
  NoDup (map f l) -> NoDup (map f (filter p l)).
Proof.
  induction l as [|a l IH]; simpl; intros H; [constructor|].
  inversion H as [|? ? Hn Hd]; subst.
  destruct (p a); simpl; [|now apply IH].
  constructor; [|now apply IH].
  intros Hin. apply Hn. apply in_map_iff in Hin.
  destruct Hin as (x & Hx & Hin). apply filter_In in Hin.
  apply in_map_iff. exists x. tauto.
Qed.

Section GroupByRows.
Context {A : Type}.
Variable key : A -> string.

Lemma add_row_in (row : A) groups kg x :
  In kg (Sql.add_row key row groups) -> In x (snd kg) ->
  x = row \/ exists kg', In kg' groups /\ In x (snd kg').
Proof.
  induction groups as [|[k g] rest IH]; simpl.
  - intros [<-|[]] [->|[]]. now left.
  - destruct (k =? key row).
    + intros [<-|Hin] Hx.
      * simpl in Hx. apply in_app_or in Hx. destruct Hx as [Hx|[->|[]]]; [|now left].
        right. exists (k, g). auto.
      * right. exists kg. auto.
    + intros [<-|Hin] Hx.
      * right. exists (k, g). auto.
      * destruct (IH Hin Hx) as [->|(kg' & Hin' & Hx')]; [now left|].
        right. exists kg'. auto.
Qed.

Lemma fold_add_row_in (rows : list A) groups kg x :
  In kg (fold_left (fun gs row => Sql.add_row key row gs) rows groups) -> In x (snd kg) ->
  In x rows \/ exists kg', In kg' groups /\ In x (snd kg').
Proof.
  revert groups. induction rows as [|row rows IH]; intros groups; simpl.
  - intros Hin Hx. right. exists kg. auto.
  - intros Hin Hx. destruct (IH _ Hin Hx) as [Hr|(kg' & Hin' & Hx')]; [auto|].
    destruct (add_row_in _ _ _ _ Hin' Hx') as [->|Hold]; auto.
Qed.

(** Every row of a group is a row that was grouped. *)
Lemma groupBy_in (rows : list A) kg x :
  In kg (Sql.groupBy key rows) -> In x (snd kg) -> In x rows.
Proof.
  intros Hin Hx. destruct (fold_add_row_in rows [] kg x Hin Hx) as [H|(kg' & [] & _)].
  exact H.
Qed.

End GroupByRows.

Lemma leftJoin_in {A B} (l : list A) (r : list B) (on : A -> B -> bool) row :
  In row (Sql.leftJoin l r on) -> In (fst row) l.
Proof.
  unfold Sql.leftJoin. intros H. apply in_flat_map in H.
  destruct H as (a & Ha & Hrow). now rewrite (joinedRows_fst _ _ _ _ Hrow).
Qed.

(** ** Reading folders *)

(** Under the primary key of [folders], the grouped select lists the
    matching folders in table order, each with the number of its
    association rows. *)
Lemma selectWithAppCount_unique (p : Folder.t -> bool) (db : Database) :
  uniqueFolderIds db ->
  FolderService.selectWithAppCount p db
  = map (withAppCount db) (filter p (folders db)).
Proof.
  intros Hnd. unfold FolderService.selectWithAppCount.
  rewrite where_leftJoin.
  rewrite (groupBy_leftJoin Folder.id) by (apply NoDup_map_filter, Hnd).
  induction (filter p (folders db)) as [|f l IH]; simpl; [reflexivity|].
  rewrite IH.
  destruct (Sql.joinedRows (appFolders db)
              (fun f0 r => Folder.id f0 =? AppFolder.folderId r) f) as [|[f' o] rows] eqn:Hrows.
  { exfalso. revert Hrows. apply joinedRows_not_nil. }
  assert (Hf : f' = f).
  { change f' with (fst (f', o)). eapply joinedRows_fst. rewrite Hrows. now left. }
  subst f'. simpl. f_equal. unfold withAppCount. f_equal.
  rewrite <- Hrows, joinedRows_count. unfold associationsIn.
  f_equal. apply filter_ext. intros x. apply String.eqb_sym.
Qed.

Lemma selectWithAppCount_nil_iff (p : Folder.t -> bool) (db : Database) :
  FolderService.selectWithAppCount p db = [] <-> filter p (folders db) = [].
Proof.
  unfold FolderService.selectWithAppCount.
  rewrite where_leftJoin.
  rewrite <- (leftJoin_nil_iff (appFolders db)
                (fun f r => Folder.id f =? AppFolder.folderId r) (filter p (folders db))).
  rewrite <- (groupBy_nil_iff (fun row : Folder.t * option AppFolder.t => Folder.id (fst row))).
  pose proof (groupBy_groups_not_nil
                (fun row : Folder.t * option AppFolder.t => Folder.id (fst row))
                (Sql.leftJoin (filter p (folders db)) (appFolders db)
                   (fun f r => Folder.id f =? AppFolder.folderId r))) as Hne.
  destruct (Sql.groupBy _ _) as [|[k g] gs]; simpl; [tauto|].
  split; [|discriminate].
  inversion Hne as [|? ? Hg _]; subst. simpl in Hg.
  destruct g as [|[f o] g]; [congruence|]. discriminate.
Qed.

(** A selected row carries a folder of the table that passes the filter. *)
Lemma selectWithAppCount_in (p : Folder.t -> bool) (db : Database) fw :
  In fw (FolderService.selectWithAppCount p db) ->
  In (folder fw) (folders db) /\ p (folder fw) = true.
Proof.
  unfold FolderService.selectWithAppCount. rewrite where_leftJoin.
  intros H. apply in_flat_map in H. destruct H as ([k g] & Hg & Hfw).
  simpl in Hfw. destruct g as [|[f o] g]; [contradiction|].
  destruct Hfw as [<-|[]]. cbn [folder].
  assert (Hrow : In (f, o) (Sql.leftJoin (filter p (folders db)) (appFolders db)
                              (fun f0 r => Folder.id f0 =? AppFolder.folderId r))).
  { eapply groupBy_in; [exact Hg|]. now left. }
  apply leftJoin_in in Hrow. simpl in Hrow. now apply filter_In in Hrow.
Qed.

Lemma hd_error_limit_1 {A} (l : list A) : hd_error (Sql.limit 1 l) = hd_error l.
Proof. destruct l; reflexivity. Qed.

Lemma hd_error_filter_find {A} (p : A -> bool) (l : list A) :
  hd_error (filter p l) = find p l.
Proof.
  induction l as [|a l IH]; simpl; [reflexivity|]. now destruct (p a).
Qed.

Lemma filter_nil_existsb {A} (p : A -> bool) (l : list A) :
  filter p l = [] <-> existsb p l = false.
Proof.
  induction l as [|a l IH]; simpl; [tauto|].
  destruct (p a); simpl; [split; discriminate|exact IH].
Qed.

(** [getFolderById] reads and leaves the database alone. *)
Lemma getFolderById_run folderId userId db :
  FolderService.getFolderById folderId userId db
  = (Returned (hd_error (FolderService.selectWithAppCount
                           (fun f => (Folder.id f =? folderId) && (Folder.userId f =? userId))
                           db)), db).
Proof.
  unfold FolderService.getFolderById, handleDatabaseError, query.
  now rewrite hd_error_limit_1.
Qed.

Lemma getFolderById_not_owned folderId userId db :
  ownsFolder db folderId userId = false ->
  FolderService.getFolderById folderId userId db = (Returned None, db).
Proof.
  intros H. rewrite getFolderById_run. unfold ownsFolder in H.
  apply filter_nil_existsb, selectWithAppCount_nil_iff in H. now rewrite H.
Qed.

Lemma getFolderById_owned folderId userId db :
  ownsFolder db folderId userId = true ->
  exists fw, FolderService.getFolderById folderId userId db = (Returned (Some fw), db).
Proof.
  intros H. rewrite getFolderById_run.
  destruct (FolderService.selectWithAppCount _ db) as [|fw rest] eqn:Hsel.
  - apply selectWithAppCount_nil_iff, filter_nil_existsb in Hsel.
    unfold ownsFolder in H. congruence.
  - now exists fw.
Qed.

(** ** Moving an app *)

(** The database once the association rows of an app are deleted. *)
Lemma deleteAppFolders_run p db :
  deleteAppFolders p db
  = (Returned tt, mkDatabase (folders db) (filter (fun r => negb (p r)) (appFolders db)) (apps db)).
Proof. reflexivity. Qed.

Lemma ownsApp_lookup db appId userId :
  ownsApp db appId userId = true ->
  exists app0, hd_error (Sql.limit 1 (Sql.where_ (fun a => App.id a =? appId) (apps db))) = Some app0
               /\ (App.userId app0 =? userId) = true.
Proof.
  unfold ownsApp, Sql.where_. rewrite hd_error_limit_1, hd_error_filter_find.
  destruct (find _ (apps db)) as [a|]; [|discriminate]. intros H. now exists a.
Qed.

Lemma not_ownsApp_lookup db appId userId :
  ownsApp db appId userId = false ->
  match hd_error (Sql.limit 1 (Sql.where_ (fun a => App.id a =? appId) (apps db))) with
  | Some app0 => (App.userId app0 =? userId) = false
  | None => True
  end.
Proof.
  unfold ownsApp, Sql.where_. rewrite hd_error_limit_1, hd_error_filter_find.
  destruct (find _ (apps db)); auto.
Qed.

Ltac run_svc :=
  unfold handleDatabaseError, bind, ret, query, exec, throw.

Lemma moveAppToFolder_not_owner generatedId now appId folderId userId db :
  ownsApp db appId userId = false ->
  FolderService.moveAppToFolder generatedId now appId folderId userId db
  = (Returned false, db).
Proof.
  intros H. apply not_ownsApp_lookup in H.
  unfold FolderService.moveAppToFolder. run_svc.
  destruct (hd_error _) as [app0|]; [|reflexivity]. now rewrite H.
Qed.

Lemma moveAppToFolder_null generatedId now appId userId db :
  ownsApp db appId userId = true ->
  FolderService.moveAppToFolder generatedId now appId None userId db
  = (Returned true, withoutApp db appId).
Proof.
  intros H. apply ownsApp_lookup in H. destruct H as (app0 & Hlook & Hown).
  unfold FolderService.moveAppToFolder. run_svc.
  now rewrite Hlook, Hown.
Qed.

Lemma moveAppToFolder_foreign_folder generatedId now appId folderId userId db :
  ownsFolder db folderId userId = false ->
  FolderService.moveAppToFolder generatedId now appId (Some folderId) userId db
  = (Returned false, db).
Proof.
  intros Hf. unfold FolderService.moveAppToFolder.
  unfold handleDatabaseError at 1. unfold bind at 1. unfold query at 1.
  destruct (hd_error _) as [app0|]; [|reflexivity].
  destruct (App.userId app0 =? userId); [|reflexivity]. simpl.
  unfold bind. now rewrite (getFolderById_not_owned _ _ _ Hf).
Qed.

Lemma withoutApp_no_pair db appId folderId :
  existsb (fun r => (AppFolder.appId r =? appId) && (AppFolder.folderId r =? folderId))
          (appFolders (withoutApp db appId)) = false.
Proof.
  unfold withoutApp. simpl. induction (appFolders db) as [|r l IH]; simpl; [reflexivity|].
  destruct (AppFolder.appId r =? appId) eqn:E; simpl; [exact IH|].
  now rewrite E, IH.
Qed.

(** A move into an owned folder: the old rows of the app go, and the new
    row is inserted unless its generated id is already a primary key. *)
Lemma moveAppToFolder_folder generatedId now appId folderId userId db :
  ownsApp db appId userId = true ->
  ownsFolder db folderId userId = true ->
  FolderService.moveAppToFolder generatedId now appId (Some folderId) userId db
  = if existsb (fun r => AppFolder.id r =? generatedId) (appFolders (withoutApp db appId))
    then (Thrown "moveAppToFolder", withoutApp db appId)
    else (Returned true, filedIn db (AppFolder.mk generatedId appId folderId (Some now))).
Proof.
  intros Ha Hf. apply ownsApp_lookup in Ha. destruct Ha as (app0 & Hlook & Hown).
  destruct (getFolderById_owned _ _ _ Hf) as (fw & Hget).
  unfold FolderService.moveAppToFolder.
  unfold handleDatabaseError at 1. unfold bind at 1. unfold query at 1.
  rewrite Hlook, Hown. cbn [negb].
  unfold bind at 1. rewrite Hget.
  unfold bind, ret. rewrite deleteAppFolders_run.
  unfold insertAppFolder. cbn [appFolders folders apps AppFolder.id AppFolder.appId AppFolder.folderId].
  pose proof (withoutApp_no_pair db appId folderId) as Hpair.
  unfold filedIn, withoutApp in *. cbn [appFolders folders apps AppFolder.appId] in *.
  destruct (existsb (fun r => AppFolder.id r =? generatedId) _); [reflexivity|].
  rewrite Hpair. reflexivity.
Qed.

Lemma filter_negb_nil {A} (p : A -> bool) (l : list A) :
  filter p (filter (fun x => negb (p x)) l) = [].
Proof.
  induction l as [|a l IH]; simpl; [reflexivity|].
  destruct (p a) eqn:E; simpl; [exact IH|]. now rewrite E.
Qed.

Lemma associationsOf_withoutApp db appId : associationsOf (withoutApp db appId) appId = [].
Proof. unfold associationsOf, withoutApp. simpl. apply filter_negb_nil. Qed.

Lemma associationsOf_filedIn db row :
  associationsOf (filedIn db row) (AppFolder.appId row) = [row].
Proof.
  unfold associationsOf, filedIn, withoutApp. simpl.
  rewrite filter_app, filter_negb_nil. simpl. now rewrite String.eqb_refl.
Qed.

Lemma withoutApp_idem db appId :
  withoutApp (withoutApp db appId) appId = withoutApp db appId.
Proof.
  unfold withoutApp. simpl. f_equal.
  induction (appFolders db) as [|r l IH]; simpl; [reflexivity|].
  destruct (AppFolder.appId r =? appId) eqn:E; simpl; [exact IH|].
  now rewrite E, IH.
Qed.

Lemma withoutApp_filedIn db row :
  withoutApp (filedIn db row) (AppFolder.appId row) = withoutApp db (AppFolder.appId row).
Proof.
  unfold withoutApp at 1. unfold filedIn. cbn [folders appFolders apps].
  rewrite filter_app. simpl. rewrite String.eqb_refl. simpl. rewrite app_nil_r.
  change (mkDatabase (folders db)
            (filter (fun r => negb (AppFolder.appId r =? AppFolder.appId row))
               (appFolders (withoutApp db (AppFolder.appId row)))) (apps db))
    with (withoutApp (withoutApp db (AppFolder.appId row)) (AppFolder.appId row)).
  apply withoutApp_idem.
Qed.

Lemma existsb_id_withoutApp db appId i :
  ~ In i (map AppFolder.id (appFolders db)) ->
  existsb (fun r => AppFolder.id r =? i) (appFolders (withoutApp db appId)) = false.
Proof.
  intros Hn. apply not_true_is_false. intros H. apply Hn.
  apply existsb_exists in H. destruct H as (r & Hin & Heq).
  apply String.eqb_eq in Heq. subst i.
  unfold withoutApp in Hin. simpl in Hin. apply filter_In in Hin.
  apply in_map. tauto.
Qed.

(** What the first of two moves can leave behind: the app unfiled (its
    insert threw) or filed once. *)
Lemma moveAppToFolder_folder_cases generatedId now appId folderId userId db :
  ownsApp db appId userId = true ->
  ownsFolder db folderId userId = true ->
  let db1 := snd (FolderService.moveAppToFolder generatedId now appId (Some folderId) userId db) in
  db1 = withoutApp db appId
  \/ db1 = filedIn db (AppFolder.mk generatedId appId folderId (Some now)).
Proof.
  intros Ha Hf. rewrite (moveAppToFolder_folder _ _ _ _ _ _ Ha Hf).
  destruct (existsb _ _); simpl; auto.
Qed.

(** C1. For an app A owned by user U and folders F and G owned by U, after
    a move of A to F followed by a move of A to G there are never two
    association rows for A, and every row of A points to G; when the id
    generated for the second insert is not yet a key of the association
    table, the second move returns true and A has exactly one association
    row, the one pointing to G. *)
Theorem move_twice_single_association
    db appId folderF folderG userId id1 now1 id2 now2 :
  ownsApp db appId userId = true ->
  ownsFolder db folderF userId = true ->
  ownsFolder db folderG userId = true ->
  let db1 := snd (FolderService.moveAppToFolder id1 now1 appId (Some folderF) userId db) in
  let second := FolderService.moveAppToFolder id2 now2 appId (Some folderG) userId db1 in
  (length (associationsOf (snd second) appId) <= 1)%nat
  /\ (forall r, In r (associationsOf (snd second) appId) -> AppFolder.folderId r = folderG)
  /\ (~ In id2 (map AppFolder.id (appFolders db)) ->
      fst second = Returned true
      /\ associationsOf (snd second) appId = [AppFolder.mk id2 appId folderG (Some now2)]).
Proof.
  intros Ha Hf Hg db1 second.
  assert (Ha1 : ownsApp db1 appId userId = true
                /\ ownsFolder db1 folderG userId = true
                /\ withoutApp db1 appId = withoutApp db appId).
  { destruct (moveAppToFolder_folder_cases id1 now1 _ _ _ _ Ha Hf) as [E|E];
      fold db1 in E; rewrite E.
    - repeat split; try assumption. apply withoutApp_idem.
    - repeat split; try assumption.
      apply (withoutApp_filedIn db (AppFolder.mk id1 appId folderF (Some now1))). }
  destruct Ha1 as (Ha1 & Hg1 & Hw).
  pose proof (associationsOf_filedIn db1 (AppFolder.mk id2 appId folderG (Some now2))) as Hone.
  cbn [AppFolder.appId] in Hone.
  unfold second. rewrite (moveAppToFolder_folder _ _ _ _ _ _ Ha1 Hg1), Hw.
  destruct (existsb _ (appFolders (withoutApp db appId))) eqn:Hex; cbn [fst snd].
  - rewrite associationsOf_withoutApp. split; [simpl; lia|].
    split; [intros r []|].
    intros Hfresh. rewrite existsb_id_withoutApp in Hex by assumption. discriminate.
  - rewrite Hone. split; [simpl; lia|]. split; [|auto].
    intros r [<-|[]]. reflexivity.
Qed.

Lemma associationsOf_withoutApp_other db appId other :
  other <> appId ->
  associationsOf (withoutApp db appId) other = associationsOf db other.
Proof.
  intros Hne. unfold associationsOf, withoutApp. simpl.
  induction (appFolders db) as [|r l IH]; simpl; [reflexivity|].
  destruct (String.eqb_spec (AppFolder.appId r) appId) as [E|E]; simpl.
  - destruct (String.eqb_spec (AppFolder.appId r) other) as [E'|_]; [congruence|exact IH].
  - now rewrite IH.
Qed.

(** C7. For an app A owned by user U, a move of A to null returns true and
    leaves no association row for A, the rows of the other apps being kept;
    a second such call returns true as well and changes nothing. *)
Theorem move_to_null_idempotent db appId userId id1 now1 id2 now2 :
  ownsApp db appId userId = true ->
  exists db1,
    FolderService.moveAppToFolder id1 now1 appId None userId db = (Returned true, db1)
    /\ associationsOf db1 appId = []
    /\ (forall other, other <> appId -> associationsOf db1 other = associationsOf db other)
    /\ FolderService.moveAppToFolder id2 now2 appId None userId db1 = (Returned true, db1).
Proof.
  intros Ha. exists (withoutApp db appId).
  split; [now apply moveAppToFolder_null|].
  split; [apply associationsOf_withoutApp|].
  split; [intros other; apply associationsOf_withoutApp_other|].
  rewrite moveAppToFolder_null by exact Ha.
  now rewrite withoutApp_idem.
Qed.

(** ** Requests on another user's folder *)

Lemma ownsFolder_false_iff db folderId userId :
  ownsFolder db folderId userId = false <->
  forall f, In f (folders db) -> Folder.id f = folderId -> Folder.userId f <> userId.
Proof.
  unfold ownsFolder. split.
  - intros H f Hin Hid Hu. apply not_true_iff_false in H. apply H.
    apply existsb_exists. exists f. split; [assumption|].
    now rewrite Hid, Hu, !String.eqb_refl.
  - intros H. apply not_true_iff_false. intros Hex.
    apply existsb_exists in Hex. destruct Hex as (f & Hin & Hm).
    apply andb_prop in Hm. destruct Hm as [Hid Hu].
    apply String.eqb_eq in Hid, Hu. exact (H f Hin Hid Hu).
Qed.

Lemma NoDup_map_inj_in {A K} (f : A -> K) (l : list A) (x y : A) :
  NoDup (map f l) -> In x l -> In y l -> f x = f y -> x = y.
Proof.
  induction l as [|a l IH]; simpl; intros Hnd Hx Hy Heq; [contradiction|].
  inversion Hnd as [|? ? Hn Hd]; subst.
  destruct Hx as [->|Hx], Hy as [->|Hy]; auto.
  - exfalso. apply Hn. rewrite Heq. now apply in_map.
  - exfalso. apply Hn. rewrite <- Heq. now apply in_map.
Qed.

(** With ids unique, a folder of user V is not a folder of another user. *)
Lemma foreign_folder_not_owned db f userId :
  uniqueFolderIds db -> In f (folders db) -> Folder.userId f <> userId ->
  ownsFolder db (Folder.id f) userId = false.
Proof.
  intros Hnd Hin Hne. apply ownsFolder_false_iff. intros g Hg Hid.
  now rewrite (NoDup_map_inj_in Folder.id _ g f Hnd Hg Hin Hid).
Qed.

Lemma missing_folder_not_owned db folderId userId :
  ~ In folderId (map Folder.id (folders db)) ->
  ownsFolder db folderId userId = false.
Proof.
  intros Hn. apply ownsFolder_false_iff. intros g Hg Hid. exfalso.
  apply Hn. rewrite <- Hid. now apply in_map.
Qed.

Lemma updateFolder_not_owned now folderId userId updates db :
  ownsFolder db folderId userId = false ->
  FolderService.updateFolder now folderId userId updates db = (Returned None, db).
Proof.
  intros H. unfold FolderService.updateFolder.
  unfold handleDatabaseError at 1. unfold bind at 1.
  now rewrite (getFolderById_not_owned _ _ _ H).
Qed.

Lemma deleteFolder_not_owned folderId userId db :
  ownsFolder db folderId userId = false ->
  FolderService.deleteFolder folderId userId db = (Returned false, db).
Proof.
  intros H. unfold FolderService.deleteFolder.
  unfold handleDatabaseError at 1. unfold bind at 1.
  now rewrite (getFolderById_not_owned _ _ _ H).
Qed.

Lemma foreign_app_not_owned db appId owner userId :
  ownsApp db appId owner = true -> owner <> userId -> ownsApp db appId userId = false.
Proof.
  unfold ownsApp. destruct (find _ (apps db)) as [a|]; [|reflexivity].
  intros H Hne. apply String.eqb_eq in H. apply String.eqb_neq. congruence.
Qed.

Lemma not_owned_notFound db folderId userId :
  ownsFolder db folderId userId = false -> notFound db folderId userId.
Proof.
  intros H. unfold notFound. repeat split; intros.
  - now apply getFolderById_not_owned.
  - now apply updateFolder_not_owned.
  - now apply deleteFolder_not_owned.
  - now apply moveAppToFolder_foreign_folder.
Qed.

(** C3. For a folder owned by user V and a different user U: getFolderById
    returns null, updateFolder returns null, deleteFolder returns false and
    a move into the folder returns false, each as a returned value with the
    database unchanged; the same holds for an id no folder has; and a move
    of an app owned by V requested by U returns false with the database
    unchanged, whatever the target. *)
Theorem foreign_folder_not_found db f userV userU :
  uniqueFolderIds db ->
  In f (folders db) ->
  Folder.userId f = userV ->
  userU <> userV ->
  notFound db (Folder.id f) userU
  /\ (forall missing, ~ In missing (map Folder.id (folders db)) -> notFound db missing userU)
  /\ (forall generatedId now appId target,
         ownsApp db appId userV = true ->
         FolderService.moveAppToFolder generatedId now appId target userU db
         = (Returned false, db)).
Proof.
  intros Hnd Hin Hv Hne. split; [|split].
  - apply not_owned_notFound, foreign_folder_not_owned; congruence.
  - intros missing Hm. now apply not_owned_notFound, missing_folder_not_owned.
  - intros generatedId now appId target Ha.
    apply moveAppToFolder_not_owner.
    apply (foreign_app_not_owned db appId userV userU Ha). congruence.
Qed.

(** ** Deleting a folder *)

Lemma deleteFolder_owned folderId userId db :
  ownsFolder db folderId userId = true ->
  FolderService.deleteFolder folderId userId db
  = (Returned true,
     snd (deleteFolders (fun f => (Folder.id f =? folderId) && (Folder.userId f =? userId))
            (snd (deleteAppFolders (fun r => AppFolder.folderId r =? folderId) db)))).
Proof.
  intros H. destruct (getFolderById_owned _ _ _ H) as (fw & Hget).
  unfold FolderService.deleteFolder.
  unfold handleDatabaseError at 1. unfold bind at 1. rewrite Hget.
  reflexivity.
Qed.

Lemma filter_filter_comm {A} (p q : A -> bool) (l : list A) :
  filter p (filter q l) = filter q (filter p l).
Proof.
  induction l as [|a l IH]; simpl; [reflexivity|].
  destruct (p a) eqn:Ep, (q a) eqn:Eq; simpl; rewrite ?Ep, ?Eq, IH; reflexivity.
Qed.

Lemma getAppFolder_run appId db :
  FolderService.getAppFolder appId db
  = (Returned (match associationsOf db appId with
               | r :: _ => if AppFolder.folderId r =? "" then None
                           else Some (AppFolder.folderId r)
               | [] => None
               end), db).
Proof.
  unfold FolderService.getAppFolder, handleDatabaseError, bind, query, ret.
  rewrite hd_error_limit_1. unfold Sql.where_, associationsOf.
  destruct (filter _ (appFolders db)); reflexivity.
Qed.

(** C4. For a folder owned by the caller, deleteFolder deletes the
    association rows of the folder, then the folder row, and returns true:
    no row of the folder is left in either table and the rest is kept.  In a
    database where every app is filed at most once, getAppFolder then
    returns null for every app that was in the folder. *)
Theorem deleteFolder_unfiles_apps db folderId userId :
  ownsFolder db folderId userId = true ->
  oneFolderPerApp db ->
  exists db',
    FolderService.deleteFolder folderId userId db = (Returned true, db')
    /\ db' = snd (deleteFolders
                    (fun f => (Folder.id f =? folderId) && (Folder.userId f =? userId))
                    (snd (deleteAppFolders (fun r => AppFolder.folderId r =? folderId) db)))
    /\ appFolders db'
       = filter (fun r => negb (AppFolder.folderId r =? folderId)) (appFolders db)
    /\ associationsIn db' folderId = []
    /\ ownsFolder db' folderId userId = false
    /\ (forall f, In f (folders db') <->
                  In f (folders db) /\ ~ (Folder.id f = folderId /\ Folder.userId f = userId))
    /\ apps db' = apps db
    /\ (forall r, In r (appFolders db) -> AppFolder.folderId r = folderId ->
                  FolderService.getAppFolder (AppFolder.appId r) db' = (Returned None, db')).
Proof.
  intros Hown Hone. eexists. split; [now apply deleteFolder_owned|].
  split; [reflexivity|]. cbn [snd deleteFolders deleteAppFolders exec appFolders folders apps].
  split; [reflexivity|].
  split; [unfold associationsIn; cbn [appFolders]; apply filter_negb_nil|].
  split.
  { unfold ownsFolder. cbn [folders]. apply filter_nil_existsb, filter_negb_nil. }
  split.
  { intros f. rewrite filter_In. split; intros [Hin Hp]; (split; [assumption|]).
    - intros [Hid Hu]. now rewrite Hid, Hu, !String.eqb_refl in Hp.
    - apply negb_true_iff, not_true_iff_false. intros Hm. apply Hp.
      apply andb_prop in Hm. destruct Hm as [Hid Hu].
      now apply String.eqb_eq in Hid, Hu. }
  split; [reflexivity|].
  intros r Hin Hfid. rewrite getAppFolder_run.
  unfold associationsOf. cbn [appFolders]. rewrite filter_filter_comm.
  fold (associationsOf db (AppFolder.appId r)).
  pose proof (Hone (AppFolder.appId r)) as Hlen.
  assert (Hr : In r (associationsOf db (AppFolder.appId r))).
  { unfold associationsOf. apply filter_In. split; [assumption|apply String.eqb_refl]. }
  destruct (associationsOf db (AppFolder.appId r)) as [|x [|y l]]; simpl in *.
  - contradiction.
  - destruct Hr as [->|[]]. rewrite Hfid, String.eqb_refl. reflexivity.
  - lia.
Qed.

(** ** The association invariant is kept by every operation *)

Lemma length_filter_filter_le {A} (p q : A -> bool) (l : list A) :
  (length (filter p (filter q l)) <= length (filter p l))%nat.
Proof.
  induction l as [|a l IH]; simpl; [lia|].
  destruct (q a), (p a) eqn:E; simpl; rewrite ?E; simpl; lia.
Qed.

Lemma oneFolderPerApp_withoutApp db appId :
  oneFolderPerApp db -> oneFolderPerApp (withoutApp db appId).
Proof.
  intros H other. specialize (H other). unfold associationsOf, withoutApp in *. simpl.
  etransitivity; [apply length_filter_filter_le|exact H].
Qed.

Lemma oneFolderPerApp_filedIn db row :
  oneFolderPerApp db -> oneFolderPerApp (filedIn db row).
Proof.
  intros H other.
  destruct (String.eqb_spec other (AppFolder.appId row)) as [->|Hne].
  - now rewrite associationsOf_filedIn.
  - pose proof (oneFolderPerApp_withoutApp db (AppFolder.appId row) H other) as Hw.
    unfold associationsOf, filedIn in *. cbn [appFolders] in *.
    rewrite filter_app. simpl.
    destruct (String.eqb_spec (AppFolder.appId row) other) as [E|_]; [congruence|].
    now rewrite app_nil_r.
Qed.

Lemma moveAppToFolder_state generatedId now appId folderId userId db :
  let db' := snd (FolderService.moveAppToFolder generatedId now appId folderId userId db) in
  db' = db \/ db' = withoutApp db appId
  \/ exists target, db' = filedIn db (AppFolder.mk generatedId appId target (Some now)).
Proof.
  destruct (ownsApp db appId userId) eqn:Ha.
  - destruct folderId as [folderId|].
    + destruct (ownsFolder db folderId userId) eqn:Hf.
      * rewrite (moveAppToFolder_folder _ _ _ _ _ _ Ha Hf).
        destruct (existsb _ _); simpl; eauto.
      * rewrite (moveAppToFolder_foreign_folder _ _ _ _ _ _ Hf). simpl. auto.
    + rewrite (moveAppToFolder_null _ _ _ _ _ Ha). simpl. auto.
  - rewrite (moveAppToFolder_not_owner _ _ _ _ _ _ Ha). simpl. auto.
Qed.

Lemma moveAppToFolder_keeps_oneFolderPerApp generatedId now appId folderId userId db :
  oneFolderPerApp db ->
  oneFolderPerApp (snd (FolderService.moveAppToFolder generatedId now appId folderId userId db)).
Proof.
  intros H.
  destruct (moveAppToFolder_state generatedId now appId folderId userId db)
    as [E|[E|(target & E)]]; rewrite E.
  - exact H.
  - now apply oneFolderPerApp_withoutApp.
  - now apply oneFolderPerApp_filedIn.
Qed.

Lemma deleteFolder_keeps_oneFolderPerApp folderId userId db :
  oneFolderPerApp db ->
  oneFolderPerApp (snd (FolderService.deleteFolder folderId userId db)).
Proof.
  intros H. destruct (ownsFolder db folderId userId) eqn:Hf.
  - rewrite (deleteFolder_owned _ _ _ Hf). intros other. specialize (H other).
    unfold associationsOf in *. cbn [snd deleteFolders deleteAppFolders exec appFolders].
    etransitivity; [apply length_filter_filter_le|exact H].
  - now rewrite (deleteFolder_not_owned _ _ _ Hf).
Qed.

Lemma oneFolderPerApp_empty fs aps : oneFolderPerApp (mkDatabase fs [] aps).
Proof. intros a. simpl. lia. Qed.

(** ** Updating a folder *)

Lemma updateFolder_owned now folderId userId updates db :
  ownsFolder db folderId userId = true ->
  let db' :=
    mkDatabase
      (map (fun f => if (Folder.id f =? folderId) && (Folder.userId f =? userId)
                     then FolderService.setUpdates updates now f else f) (folders db))
      (appFolders db) (apps db) in
  FolderService.updateFolder now folderId userId updates db
  = (Returned (find (fun f => Folder.id f =? folderId) (folders db')), db').
Proof.
  intros H db'. destruct (getFolderById_owned _ _ _ H) as (fw & Hget).
  unfold FolderService.updateFolder.
  unfold handleDatabaseError at 1. unfold bind at 1. rewrite Hget.
  unfold bind, updateFolders, exec, query, ret.
  rewrite hd_error_limit_1. unfold Sql.where_. now rewrite hd_error_filter_find.
Qed.

Lemma providedOrKept_match {A} (provided : option A) (before : A) :
  providedOrKept provided before (match provided with Some v => v | None => before end).
Proof.
  destruct provided; split; intros; congruence.
Qed.

Lemma setUpdates_updatedRow updates now f :
  updatedRow updates now f (FolderService.setUpdates updates now f).
Proof.
  unfold updatedRow, FolderService.setUpdates. cbn.
  repeat split; try reflexivity; try congruence;
    destruct updates as [n d c i o]; cbn in *;
    try (destruct n; congruence); try (destruct d; cbn in *; congruence);
    try (destruct c; cbn in *; congruence); try (destruct i; cbn in *; congruence);
    try (destruct o; congruence).
Qed.

(** C8. A successful updateFolder leaves the association and app tables
    alone and every folder row that is not the caller's folder with this id
    as it was; in the updated row each field keeps its prior value unless
    the update provides it, in which case it takes the provided value; the
    id, owner and creation time stay, and updatedAt is set to the current
    time whatever the update provides. *)
Theorem updateFolder_changes_only_provided db now folderId userId updates :
  ownsFolder db folderId userId = true ->
  exists db' f',
    FolderService.updateFolder now folderId userId updates db = (Returned (Some f'), db')
    /\ Folder.id f' = folderId
    /\ appFolders db' = appFolders db
    /\ apps db' = apps db
    /\ Forall2 (fun before after =>
                  if (Folder.id before =? folderId) && (Folder.userId before =? userId)
                  then updatedRow updates now before after
                  else after = before)
               (folders db) (folders db').
Proof.
  intros Hown. pose proof (updateFolder_owned now folderId userId updates db Hown) as Hrun.
  cbv zeta in Hrun.
  set (upd := fun f => if (Folder.id f =? folderId) && (Folder.userId f =? userId)
                       then FolderService.setUpdates updates now f else f) in *.
  assert (Hfind : exists f', find (fun f => Folder.id f =? folderId) (map upd (folders db)) = Some f').
  { unfold ownsFolder in Hown. apply existsb_exists in Hown.
    destruct Hown as (f & Hin & Hm).
    destruct (find _ (map upd (folders db))) as [f'|] eqn:E; [now exists f'|].
    exfalso. pose proof (find_none _ _ E (upd f) (in_map upd _ _ Hin)) as Hno.
    unfold upd in Hno. rewrite Hm in Hno. cbn in Hno.
    apply andb_prop in Hm. destruct Hm as [Hid _]. congruence. }
  destruct Hfind as (f' & Hfind).
  exists (mkDatabase (map upd (folders db)) (appFolders db) (apps db)), f'.
  split; [rewrite Hrun; cbn [folders]; now rewrite Hfind|].
  split; [apply find_some in Hfind; now apply String.eqb_eq|].
  split; [reflexivity|]. split; [reflexivity|].
  cbn [folders]. clear Hrun Hfind Hown.
  induction (folders db) as [|f l IH]; simpl; constructor; [|exact IH].
  unfold upd. destruct (_ && _); [apply setUpdates_updatedRow|reflexivity].
Qed.

(** ** Creating folders *)

Lemma fold_max_ge (vs : list Z) (v : Z) :
  (v <= fold_left Z.max vs v)%Z
  /\ (forall o, In o vs -> (o <= fold_left Z.max vs v)%Z)
  /\ In (fold_left Z.max vs v) (v :: vs).
Proof.
  revert v. induction vs as [|x vs IH]; intros v; simpl.
  - repeat split; [lia|contradiction|now left].
  - destruct (IH (Z.max v x)) as (H1 & H2 & H3). repeat split.
    + lia.
    + intros o [<-|Hin]; [lia|now apply H2].
    + destruct H3 as [H3|H3]; [|now right; right].
      rewrite <- H3. destruct (Z.max_spec v x) as [[_ ->]|[_ ->]]; auto.
Qed.

Lemma coalesce_max_isNext (vals : list Z) :
  let k := (Sql.coalesce (Sql.max vals) (-1)%Z + 1)%Z in
  (vals = [] -> k = 0%Z)
  /\ (forall o, In o vals -> (o < k)%Z)
  /\ (vals <> [] -> In (k - 1)%Z vals).
Proof.
  destruct vals as [|v vs]; simpl.
  - repeat split; [contradiction|congruence].
  - destruct (fold_max_ge vs v) as (H1 & H2 & H3). repeat split.
    + discriminate.
    + intros o [<-|Hin]; [lia|]. specialize (H2 o Hin). lia.
    + intros _. replace (fold_left Z.max vs v + 1 - 1)%Z with (fold_left Z.max vs v) by lia.
      exact H3.
Qed.

Lemma coalesce_max_snoc (vals : list Z) :
  let m := Sql.coalesce (Sql.max vals) (-1)%Z in
  Sql.coalesce (Sql.max (vals ++ [(m + 1)%Z])) (-1)%Z = (m + 1)%Z.
Proof.
  destruct vals as [|v vs]; simpl; [reflexivity|].
  rewrite fold_left_app. simpl. lia.
Qed.

(** The order [createFolder] computes for a user. *)
Lemma nextOrder_isNextOrder db userId :
  isNextOrder db userId (Sql.coalesce (Sql.max (userOrders db userId)) (-1)%Z + 1)%Z.
Proof. apply coalesce_max_isNext. Qed.

Lemma find_app_fresh {A} (p : A -> bool) (l : list A) (x : A) :
  existsb p l = false -> p x = true -> find p (l ++ [x]) = Some x.
Proof.
  induction l as [|a l IH]; simpl; intros He Hx.
  - now rewrite Hx.
  - apply orb_false_elim in He. destruct He as [Ha Hl]. rewrite Ha. now apply IH.
Qed.

Lemma existsb_fresh_id db i :
  ~ In i (map Folder.id (folders db)) ->
  existsb (fun f => Folder.id f =? i) (folders db) = false.
Proof.
  intros Hn. apply not_true_iff_false. intros H. apply Hn.
  apply existsb_exists in H. destruct H as (f & Hin & Heq).
  apply String.eqb_eq in Heq. subst i. now apply in_map.
Qed.

(** One create with a generated id that is not yet a key: the new row is
    appended, with the next order of the user, and returned. *)
Lemma createFolder_fresh generatedId now userId folderData db :
  ~ In generatedId (map Folder.id (folders db)) ->
  let f := Folder.mk generatedId userId
             (FolderService.fd_name folderData) (FolderService.fd_description folderData)
             (FolderService.fd_color folderData) (FolderService.fd_icon folderData)
             (Sql.coalesce (Sql.max (userOrders db userId)) (-1)%Z + 1)%Z
             (Some now) (Some now) in
  FolderService.createFolder generatedId now userId folderData db
  = (Returned (Some f), mkDatabase (folders db ++ [f]) (appFolders db) (apps db)).
Proof.
  intros Hfresh f. apply existsb_fresh_id in Hfresh.
  unfold FolderService.createFolder.
  unfold handleDatabaseError, bind, query, ret, insertFolder.
  cbn [hd_error Folder.id]. rewrite Hfresh. cbn [folders].
  rewrite hd_error_limit_1. unfold Sql.where_. rewrite hd_error_filter_find.
  subst f. unfold userOrders.
  rewrite (find_app_fresh _ _ _ Hfresh) by apply String.eqb_refl.
  reflexivity.
Qed.

Lemma userOrders_snoc db f userId :
  Folder.userId f = userId ->
  userOrders (mkDatabase (folders db ++ [f]) (appFolders db) (apps db)) userId
  = userOrders db userId ++ [Folder.order f].
Proof.
  intros Hu. unfold userOrders. cbn [folders].
  rewrite filter_app, map_app. simpl. now rewrite Hu, String.eqb_refl.
Qed.

Lemma createSequence_orders userId requests : forall db,
  NoDup (map (fun r => fst (fst r)) requests) ->
  (forall r, In r requests -> ~ In (fst (fst r)) (map Folder.id (folders db))) ->
  exists created,
    map snd (createSequence userId requests db) = map (fun f => Returned (Some f)) created
    /\ Forall2 (fun step f => isNextOrder (fst step) userId (Folder.order f))
               (createSequence userId requests db) created
    /\ map Folder.order created
       = map (fun i => (Sql.coalesce (Sql.max (userOrders db userId)) (-1)%Z + 1 + Z.of_nat i)%Z)
             (seq 0 (length requests)).
Proof.
  induction requests as [|[[gid now] data] rest IH]; intros db Hnd Hfresh.
  - exists []. repeat split. constructor.
  - inversion Hnd as [|? ? Hnotin Hnd']; subst.
    assert (Hgid : ~ In gid (map Folder.id (folders db))).
    { apply (Hfresh (gid, now, data)). now left. }
    cbn [createSequence]. rewrite (createFolder_fresh gid now userId data db Hgid).
    cbv zeta.
    set (f := Folder.mk gid userId _ _ _ _ _ _ _).
    set (db' := mkDatabase (folders db ++ [f]) (appFolders db) (apps db)).
    destruct (IH db' Hnd') as (created & Hrun & Hsteps & Hord).
    { intros r Hin. unfold db'. cbn [folders]. rewrite map_app, in_app_iff. simpl.
      intros [Hold|[Heq|[]]].
      - apply (Hfresh r); [now right|assumption].
      - apply Hnotin. rewrite Heq. apply (in_map (fun r => fst (fst r))), Hin. }
    exists (f :: created). split; [simpl; now rewrite Hrun|].
    split; [constructor; [apply nextOrder_isNextOrder|exact Hsteps]|].
    cbn [map length seq]. f_equal; [unfold f; cbn; lia|].
    rewrite Hord. unfold db'. rewrite (userOrders_snoc db f userId eq_refl).
    unfold f at 1. cbn [Folder.order]. rewrite coalesce_max_snoc.
    rewrite <- seq_shift, map_map. apply map_ext. intros i. lia.
Qed.

(** C2. Every createFolder of a run of creates for one user, each with a
    fresh generated id, returns the new folder, and its order is 1 + the
    largest order of the user's folders at that time, or 0 when the user has
    none.  Hence the orders of the created folders go up by one from the
    first, and they are 0, 1, 2, ... when the user starts with no folder. *)
Theorem createFolder_orders_increase db userId requests :
  NoDup (map (fun r => fst (fst r)) requests) ->
  (forall r, In r requests -> ~ In (fst (fst r)) (map Folder.id (folders db))) ->
  exists created k,
    map snd (createSequence userId requests db) = map (fun f => Returned (Some f)) created
    /\ Forall2 (fun step f => isNextOrder (fst step) userId (Folder.order f))
               (createSequence userId requests db) created
    /\ isNextOrder db userId k
    /\ map Folder.order created
       = map (fun i => (k + Z.of_nat i)%Z) (seq 0 (length requests))
    /\ (userOrders db userId = [] ->
        map Folder.order created = map Z.of_nat (seq 0 (length requests))).
Proof.
  intros Hnd Hfresh.
  destruct (createSequence_orders userId requests db Hnd Hfresh)
    as (created & Hrun & Hsteps & Hord).
  exists created, (Sql.coalesce (Sql.max (userOrders db userId)) (-1)%Z + 1)%Z.
  split; [exact Hrun|]. split; [exact Hsteps|].
  split; [apply nextOrder_isNextOrder|]. split; [exact Hord|].
  intros Hnone. rewrite Hord, Hnone. reflexivity.
Qed.

(** ** Listing folders *)

Section OrderByFacts.
Context {A : Type}.
Variable leb : A -> A -> bool.
Hypothesis leb_total : forall x y, leb x y = false -> leb y x = true.
Hypothesis leb_trans : forall x y z, leb x y = true -> leb y z = true -> leb x z = true.


Lemma insert_perm (x : A) (l : list A) : Permutation (Sql.insert leb x l) (x :: l).
Proof.
  induction l as [|y l IH]; simpl; [reflexivity|].
  destruct (leb x y); [reflexivity|].
  rewrite IH. apply perm_swap.
Qed.

Lemma orderBy_perm (l : list A) : Permutation (Sql.orderBy leb l) l.
Proof.
  induction l as [|x l IH]; simpl; [constructor|].
  rewrite insert_perm. now constructor.
Qed.

Lemma insert_hdrel (x a : A) (l : list A) :
  (fun x y => leb x y = true) a x -> HdRel (fun x y => leb x y = true) a l -> HdRel (fun x y => leb x y = true) a (Sql.insert leb x l).
Proof.
  intros Hax Hhd. destruct l as [|y l]; simpl; [now constructor|].
  destruct (leb x y); constructor; [assumption|].
  now inversion Hhd.
Qed.

Lemma insert_sorted (x : A) (l : list A) :
  Sorted (fun x y => leb x y = true) l -> Sorted (fun x y => leb x y = true) (Sql.insert leb x l).
Proof.
  induction 1 as [|y l Hs IH Hhd]; simpl.
  - repeat constructor.
  - destruct (leb x y) eqn:E.
    + constructor; [now constructor|]. now constructor.
    + constructor; [exact IH|]. apply insert_hdrel; [|exact Hhd].
      now apply leb_total.
Qed.

Lemma orderBy_sorted (l : list A) : StronglySorted (fun x y => leb x y = true) (Sql.orderBy leb l).
Proof.
  apply Sorted_StronglySorted.
  - intros x y z. apply leb_trans.
  - induction l as [|x l IH]; simpl; [constructor|now apply insert_sorted].
Qed.

End OrderByFacts.

Lemma string_leb_trans (a b c : string) :
  String.leb a b = true -> String.leb b c = true -> String.leb a c = true.
Proof.
  unfold String.leb. revert b c.
  induction a as [|x a IH]; intros [|y b] [|z c]; simpl; try congruence.
  unfold Ascii.compare.
  destruct (N.compare_spec (N_of_ascii x) (N_of_ascii y)) as [Exy|Lxy|Gxy];
    destruct (N.compare_spec (N_of_ascii y) (N_of_ascii z)) as [Eyz|Lyz|Gyz];
    try congruence; intros H1 H2.
  - rewrite Exy, Eyz, N.compare_refl. now apply (IH b c).
  - rewrite Exy. now rewrite (proj2 (N.compare_lt_iff _ _) Lyz).
  - rewrite <- Eyz. now rewrite (proj2 (N.compare_lt_iff _ _) Lxy).
  - now rewrite (proj2 (N.compare_lt_iff _ _) (N.lt_trans _ _ _ Lxy Lyz)).
Qed.

Lemma byOrderDescName_listedBefore a b :
  FolderService.byOrderDescName a b = true <-> listedBefore a b.
Proof.
  unfold FolderService.byOrderDescName, listedBefore.
  rewrite orb_true_iff, andb_true_iff, Z.ltb_lt, Z.eqb_eq. reflexivity.
Qed.

Lemma byOrderDescName_total a b :
  FolderService.byOrderDescName a b = false -> FolderService.byOrderDescName b a = true.
Proof.
  intros H. apply byOrderDescName_listedBefore.
  apply not_true_iff_false in H. rewrite byOrderDescName_listedBefore in H.
  unfold listedBefore in *.
  destruct (Z.lt_trichotomy (Folder.order (folder a)) (Folder.order (folder b)))
    as [Hlt|[Heq|Hgt]]; [now left| |exfalso; apply H; now left].
  right. split; [now symmetry|].
  destruct (String.leb_total (Folder.name (folder a)) (Folder.name (folder b))) as [Hab|Hba];
    [exfalso; apply H; now right|exact Hba].
Qed.

Lemma byOrderDescName_trans a b c :
  FolderService.byOrderDescName a b = true -> FolderService.byOrderDescName b c = true ->
  FolderService.byOrderDescName a c = true.
Proof.
  rewrite !byOrderDescName_listedBefore. unfold listedBefore.
  intros [H1|[H1 N1]] [H2|[H2 N2]]; try (left; lia).
  right. split; [congruence|]. eapply string_leb_trans; eassumption.
Qed.

Lemma getUserFolders_perm db userId :
  uniqueFolderIds db ->
  exists result,
    FolderService.getUserFolders userId db = (Returned result, db)
    /\ result = Sql.orderBy FolderService.byOrderDescName
                  (FolderService.selectWithAppCount (fun f => Folder.userId f =? userId) db)
    /\ Permutation result
         (map (withAppCount db) (filter (fun f => Folder.userId f =? userId) (folders db))).
Proof.
  intros Hnd. eexists. split; [reflexivity|]. split; [reflexivity|].
  rewrite orderBy_perm. now rewrite selectWithAppCount_unique.
Qed.

(** C5. getUserFolders returns every folder of the user, each with the
    number of its association rows, and nothing else, listed by order
    descending and, within one order, by name ascending. *)
Theorem getUserFolders_sorted db userId :
  uniqueFolderIds db ->
  exists result,
    FolderService.getUserFolders userId db = (Returned result, db)
    /\ Permutation result
         (map (withAppCount db) (filter (fun f => Folder.userId f =? userId) (folders db)))
    /\ StronglySorted listedBefore result.
Proof.
  intros Hnd. destruct (getUserFolders_perm db userId Hnd) as (result & Hrun & -> & Hperm).
  eexists. split; [exact Hrun|]. split; [exact Hperm|].
  - eapply StronglySorted_ind
      with (P := fun l => StronglySorted listedBefore l);
      [constructor| |apply (orderBy_sorted FolderService.byOrderDescName
                              byOrderDescName_total byOrderDescName_trans)].
    intros a l _ IH Hall. constructor; [exact IH|].
    eapply Forall_impl; [|exact Hall]. intros b. apply byOrderDescName_listedBefore.
Qed.

(** ** App counts and folder listings *)

Lemma length_filter_sum {X} (p : X -> bool) (l : list X) :
  length (filter p l) = list_sum (map (fun a => if p a then 1 else 0)%nat l).
Proof.
  induction l as [|a l IH]; simpl; [reflexivity|].
  destruct (p a); simpl; now rewrite IH.
Qed.

Lemma list_sum_map_add {X} (f g : X -> nat) (l : list X) :
  list_sum (map (fun a => f a + g a)%nat l) = (list_sum (map f l) + list_sum (map g l))%nat.
Proof.
  induction l as [|a l IH]; simpl; [reflexivity|]. rewrite IH. lia.
Qed.

Section Counting.
Context {A B : Type}.

(** Counting the pairs of a relation row by row, or column by column. *)
Lemma count_pairs_swap (q : A -> B -> bool) (l : list A) (r : list B) :
  list_sum (map (fun a => length (filter (q a) r)) l)
  = list_sum (map (fun b => length (filter (fun a => q a b) l)) r).
Proof.
  induction l as [|a l IH]; simpl.
  - induction r as [|b r IHr]; simpl; [reflexivity|exact IHr].
  - rewrite IH, (length_filter_sum (q a) r).
    rewrite <- (list_sum_map_add (fun b => if q a b then 1 else 0)%nat
                  (fun b => length (filter (fun a0 => q a0 b) l)) r).
    f_equal. apply map_ext. intros b. destruct (q a b); reflexivity.
Qed.

Lemma length_filter_innerJoin (P : A * B -> bool) (on : A -> B -> bool)
    (l : list A) (r : list B) :
  length (filter P (Sql.innerJoin l r on))
  = list_sum (map (fun a => length (filter (fun b => on a b && P (a, b)) r)) l).
Proof.
  unfold Sql.innerJoin. induction l as [|a l IH]; simpl; [reflexivity|].
  rewrite filter_app, length_app, IH. f_equal.
  clear IH. induction r as [|b r IHr]; simpl; [reflexivity|].
  destruct (on a b); simpl; [|exact IHr].
  destruct (P (a, b)); simpl; now rewrite IHr.
Qed.

Lemma list_sum_le_lt (f g : A -> nat) (l : list A) (x : A) :
  (forall a, In a l -> f a <= g a)%nat -> In x l -> (f x < g x)%nat ->
  (list_sum (map f l) < list_sum (map g l))%nat.
Proof.
  intros Hle Hin Hlt.
  assert (Hall : forall l', (forall a, In a l' -> f a <= g a)%nat ->
                            (list_sum (map f l') <= list_sum (map g l'))%nat).
  { induction l' as [|a l' IH]; simpl; intros H; [lia|].
    pose proof (H a (or_introl eq_refl)).
    assert (list_sum (map f l') <= list_sum (map g l'))%nat
      by (apply IH; intros; apply H; now right).
    lia. }
  induction l as [|a l IH]; simpl; [contradiction|].
  destruct Hin as [->|Hin].
  - assert (list_sum (map f l) <= list_sum (map g l))%nat
      by (apply Hall; intros; apply Hle; now right).
    lia.
  - pose proof (Hle a (or_introl eq_refl)).
    assert (list_sum (map f l) < list_sum (map g l))%nat
      by (apply IH; [intros; apply Hle; now right|assumption]).
    lia.
Qed.

End Counting.

Lemma length_filter_key_le_1 {A} (key : A -> string) (k : string) (l : list A) :
  NoDup (map key l) -> length (filter (fun a => key a =? k) l) <= 1.
Proof.
  induction l as [|a l IH]; simpl; intros Hnd; [lia|].
  inversion Hnd as [|? ? Hn Hd]; subst. specialize (IH Hd).
  destruct (String.eqb_spec (key a) k) as [E|_]; simpl; [|exact IH].
  assert (filter (fun a0 => key a0 =? k) l = []) as ->; [|simpl; lia].
  apply filter_nil_existsb, not_true_iff_false. intros Hex.
  apply existsb_exists in Hex. destruct Hex as (y & Hy & Hk).
  apply String.eqb_eq in Hk. apply Hn. rewrite E, <- Hk. now apply in_map.
Qed.

Lemma length_filter_and_le {A} (p q : A -> bool) (l : list A) :
  (length (filter (fun a => p a && q a) l) <= length (filter p l))%nat.
Proof.
  induction l as [|a l IH]; simpl; [lia|].
  destruct (p a), (q a); simpl; lia.
Qed.

(** The rows [getAppsInFolder] selects, before projection and ordering. *)
Lemma getAppsInFolder_owned folderId userId db :
  ownsFolder db folderId userId = true ->
  exists listing,
    FolderService.getAppsInFolder folderId userId db = (Returned listing, db)
    /\ length listing
       = length (filter (fun row : App.t * AppFolder.t =>
                           (AppFolder.folderId (snd row) =? folderId)
                           && (App.userId (fst row) =? userId))
                        (Sql.innerJoin (apps db) (appFolders db)
                           (fun a r => App.id a =? AppFolder.appId r))).
Proof.
  intros H. destruct (getFolderById_owned _ _ _ H) as (fw & Hget).
  unfold FolderService.getAppsInFolder.
  unfold handleDatabaseError at 1. unfold bind at 1. rewrite Hget.
  unfold query. eexists. split; [reflexivity|].
  rewrite length_map. unfold Sql.where_.
  apply Permutation_length, orderBy_perm.
Qed.

Lemma getFolderById_unique folderId userId db :
  uniqueFolderIds db ->
  ownsFolder db folderId userId = true ->
  exists f,
    In f (folders db) /\ Folder.id f = folderId /\ Folder.userId f = userId
    /\ FolderService.getFolderById folderId userId db
       = (Returned (Some (withAppCount db f)), db).
Proof.
  intros Hnd Hown. rewrite getFolderById_run, (selectWithAppCount_unique _ _ Hnd).
  destruct (filter _ (folders db)) as [|f l] eqn:E.
  - apply filter_nil_existsb in E. unfold ownsFolder in Hown. congruence.
  - assert (Hin : In f (filter (fun f => (Folder.id f =? folderId) && (Folder.userId f =? userId))
                          (folders db))) by (rewrite E; now left).
    apply filter_In in Hin. destruct Hin as [Hin Hm].
    apply andb_prop in Hm. destruct Hm as [Hid Hu]. apply String.eqb_eq in Hid, Hu.
    exists f. auto.
Qed.

(** C10. The appCount of getFolderById and of getUserFolders is the number
    of association rows of the folder, whoever owns the apps, while
    getAppsInFolder keeps only the apps of the caller.  So for a folder with
    an association to an app of another user, appCount is larger than the
    number of apps getAppsInFolder returns. *)
Theorem appCount_exceeds_listed_apps db folderId userId r a :
  uniqueFolderIds db ->
  uniqueAppIds db ->
  ownsFolder db folderId userId = true ->
  In r (appFolders db) ->
  AppFolder.folderId r = folderId ->
  In a (apps db) ->
  App.id a = AppFolder.appId r ->
  App.userId a <> userId ->
  exists fw listing listed,
    FolderService.getFolderById folderId userId db = (Returned (Some fw), db)
    /\ FolderService.getUserFolders userId db = (Returned listed, db)
    /\ In fw listed
    /\ FolderService.getAppsInFolder folderId userId db = (Returned listing, db)
    /\ appCount fw = length (associationsIn db folderId)
    /\ (length listing < appCount fw)%nat.
Proof.
  intros Hfid Haid Hown Hr Hrf Ha Hid Hu.
  destruct (getFolderById_unique _ _ _ Hfid Hown) as (f & Hf & Hfi & Hfu & Hget).
  destruct (getAppsInFolder_owned _ _ _ Hown) as (listing & Hlist & Hlen).
  destruct (getUserFolders_perm db userId Hfid) as (listed & Hlisted & _ & Hperm).
  exists (withAppCount db f), listing, listed.
  split; [exact Hget|]. split; [exact Hlisted|].
  split.
  { eapply Permutation_in; [symmetry; exact Hperm|].
    apply in_map, filter_In. split; [exact Hf|]. rewrite Hfu. apply String.eqb_refl. }
  split; [exact Hlist|].
  assert (Hcount : appCount (withAppCount db f) = length (associationsIn db folderId))
    by (unfold withAppCount; cbn; now rewrite Hfi).
  split; [exact Hcount|].
  rewrite Hcount, Hlen, length_filter_innerJoin, count_pairs_swap.
  unfold associationsIn. rewrite length_filter_sum.
  apply (list_sum_le_lt _ _ _ r); [|exact Hr|].
  - intros r' _. cbn [fst snd].
    destruct (AppFolder.folderId r' =? folderId).
    + etransitivity; [apply length_filter_and_le|].
      etransitivity; [|apply (length_filter_key_le_1 App.id (AppFolder.appId r') _ Haid)].
      apply Nat.eq_le_incl. reflexivity.
    + rewrite (proj2 (filter_nil_existsb _ _)); [simpl; lia|].
      apply not_true_iff_false. intros Hex. apply existsb_exists in Hex.
      destruct Hex as (x & _ & Hx). now rewrite andb_false_r in Hx.
  - cbn [fst snd]. rewrite Hrf, String.eqb_refl.
    rewrite (proj2 (filter_nil_existsb _ _)); [simpl; lia|].
    apply not_true_iff_false. intros Hex. apply existsb_exists in Hex.
    destruct Hex as (x & Hx & Hm).
    apply andb_prop in Hm. destruct Hm as [Hxid Hm]. apply andb_prop in Hm.
    destruct Hm as [_ Hxu]. apply String.eqb_eq in Hxid, Hxu.
    assert (x = a) by (apply (NoDup_map_inj_in App.id _ x a Haid Hx Ha); congruence).
    subst x. contradiction.
Qed.

(** ** Validation of folder names *)

Lemma trimStart_empty_iff s : trimStart s = "" <-> allWhiteSpace s = true.
Proof.
  induction s as [|c s IH]; simpl; [tauto|].
  destruct (isWhiteSpace c); simpl; [exact IH|]. split; discriminate.
Qed.

Lemma trimEnd_empty_iff s : trimEnd s = "" <-> allWhiteSpace s = true.
Proof.
  induction s as [|c s IH]; simpl; [tauto|].
  destruct (trimEnd s) eqn:E.
  - destruct (isWhiteSpace c); simpl; [tauto|]. split; discriminate.
  - split; [discriminate|]. intros H. apply andb_prop in H.
    destruct H as [_ H]. apply IH in H. discriminate.
Qed.

Lemma allWhiteSpace_trimStart s : allWhiteSpace (trimStart s) = allWhiteSpace s.
Proof.
  induction s as [|c s IH]; simpl; [reflexivity|].
  destruct (isWhiteSpace c) eqn:E; simpl; [exact IH|]. now rewrite E.
Qed.

(** [trim] leaves nothing exactly of the strings that are all white
    space. *)
Lemma trim_empty_iff s : trim s = "" <-> allWhiteSpace s = true.
Proof.
  unfold trim. now rewrite trimEnd_empty_iff, allWhiteSpace_trimStart.
Qed.

Lemma trim_not_blank s :
  allWhiteSpace s = false ->
  (s =? "") = false /\ (String.length (trim s) =? 0)%nat = false /\ (trim s =? "") = false.
Proof.
  intros H. assert (Ht : trim s <> "").
  { intros E. apply trim_empty_iff in E. congruence. }
  repeat split.
  - destruct s; [discriminate|reflexivity].
  - destruct (trim s); [congruence|reflexivity].
  - now apply String.eqb_neq.
Qed.

Lemma trim_blank s :
  allWhiteSpace s = true ->
  (String.length (trim s) =? 0)%nat = true /\ (trim s =? "") = true.
Proof.
  intros H. apply trim_empty_iff in H. now rewrite H.
Qed.

Lemma createFolder_rejects_long generatedId now userId name description color icon db :
  (50 < String.length name)%nat ->
  exists message,
    FolderController.createFolder generatedId now userId
      (Some (FolderController.mkCreateFolderRequest (Some name) description color icon)) db
    = (FolderController.createErrorResponse message 400, db).
Proof.
  intros Hlen. unfold FolderController.createFolder. cbn [FolderController.cr_name].
  destruct ((name =? "") || (String.length (trim name) =? 0)%nat); [eauto|].
  apply Nat.ltb_lt in Hlen. rewrite Hlen. eauto.
Qed.

Lemma createFolder_rejects_blank generatedId now userId name description color icon db :
  allWhiteSpace name = true ->
  FolderController.createFolder generatedId now userId
    (Some (FolderController.mkCreateFolderRequest (Some name) description color icon)) db
  = (FolderController.createErrorResponse "Folder name is required" 400, db).
Proof.
  intros H. unfold FolderController.createFolder. cbn [FolderController.cr_name].
  destruct (trim_blank name H) as [-> _]. now rewrite orb_true_r.
Qed.

Lemma ownsFolder_snoc db f :
  ownsFolder (mkDatabase (folders db ++ [f]) (appFolders db) (apps db))
             (Folder.id f) (Folder.userId f) = true.
Proof.
  unfold ownsFolder. cbn [folders]. rewrite existsb_app. simpl.
  now rewrite !String.eqb_refl, orb_true_r.
Qed.

(** A name that passes the checks is stored trimmed and answered with
    200, provided the generated id is fresh. *)
Lemma createFolder_accepts generatedId now userId name description color icon db :
  allWhiteSpace name = false ->
  (String.length name <= 50)%nat ->
  ~ In generatedId (map Folder.id (folders db)) ->
  exists fw db',
    FolderController.createFolder generatedId now userId
      (Some (FolderController.mkCreateFolderRequest (Some name) description color icon)) db
    = (FolderController.createSuccessResponse (Some fw), db')
    /\ In (folder fw) (folders db')
    /\ Folder.id (folder fw) = generatedId
    /\ Folder.userId (folder fw) = userId
    /\ Folder.name (folder fw) = trim name.
Proof.
  intros Hblank Hlen Hfresh. unfold FolderController.createFolder.
  cbn [FolderController.cr_name FolderController.cr_description
       FolderController.cr_color FolderController.cr_icon].
  destruct (trim_not_blank name Hblank) as (-> & -> & _). cbn [orb].
  apply Nat.ltb_ge in Hlen. rewrite Hlen.
  rewrite (createFolder_fresh _ _ _ _ _ Hfresh). cbv zeta.
  cbn [Folder.id FolderService.fd_name FolderService.fd_description
       FolderService.fd_color FolderService.fd_icon].
  set (f := Folder.mk generatedId userId _ _ _ _ _ _ _).
  set (db' := mkDatabase (folders db ++ [f]) (appFolders db) (apps db)).
  assert (Huniq : ownsFolder db' generatedId userId = true) by apply (ownsFolder_snoc db f).
  rewrite getFolderById_run.
  destruct (FolderService.selectWithAppCount _ db') as [|fw rest] eqn:Hsel.
  { apply selectWithAppCount_nil_iff, filter_nil_existsb in Hsel.
    unfold ownsFolder in Huniq. congruence. }
  exists fw, db'. split; [reflexivity|].
  (* the selected row is a folder of [db'] with this id and owner; the id
     is fresh, so it is the new row *)
  assert (Hfw : In fw (FolderService.selectWithAppCount
                         (fun f0 => (Folder.id f0 =? generatedId) && (Folder.userId f0 =? userId))
                         db')) by (rewrite Hsel; now left).
  clear Hsel.
  assert (Hrow : In (folder fw) (folders db')
                 /\ Folder.id (folder fw) = generatedId /\ Folder.userId (folder fw) = userId).
  { apply selectWithAppCount_in in Hfw. destruct Hfw as [Hin Hm].
    apply andb_prop in Hm. destruct Hm as [Hid Hu]. apply String.eqb_eq in Hid, Hu. auto. }
  destruct Hrow as (Hin & Hid & Hu). repeat split; try assumption.
  unfold db' in Hin. cbn [folders] in Hin. apply in_app_or in Hin.
  destruct Hin as [Hold|[Hnew|[]]].
  - exfalso. apply Hfresh. rewrite <- Hid. now apply in_map.
  - now rewrite <- Hnew.
Qed.

Lemma updateFolder_rejects_blank now userId folderId name description color icon order db :
  allWhiteSpace name = true ->
  exists message,
    FolderController.updateFolder now userId folderId
      (Some (FolderController.mkUpdateFolderRequest (Some name) description color icon order)) db
    = (FolderController.createErrorResponse message 400, db).
Proof.
  intros H. unfold FolderController.updateFolder.
  destruct folderId as [folderId|]; [|eauto].
  destruct (folderId =? ""); [eauto|]. cbn [FolderController.ur_name].
  destruct (trim_blank name H) as [-> _]. eauto.
Qed.

Lemma handleSave_rejects_long onSave prevError prevLoading formData :
  (50 < String.length (FolderDialog.name formData))%nat ->
  exists message,
    FolderDialog.handleSave onSave prevError prevLoading formData
    = FolderDialog.mkSubmit (Some message) prevLoading None false.
Proof.
  intros Hlen. unfold FolderDialog.handleSave.
  destruct (trim (FolderDialog.name formData) =? ""); [eauto|].
  apply Nat.ltb_lt in Hlen. rewrite Hlen. eauto.
Qed.

Lemma handleSave_rejects_blank onSave prevError prevLoading formData :
  allWhiteSpace (FolderDialog.name formData) = true ->
  FolderDialog.handleSave onSave prevError prevLoading formData
  = FolderDialog.mkSubmit (Some "Folder name is required") prevLoading None false.
Proof.
  intros H. unfold FolderDialog.handleSave.
  destruct (trim_blank _ H) as [_ ->]. reflexivity.
Qed.

Lemma handleSave_accepts onSave prevError prevLoading formData :
  allWhiteSpace (FolderDialog.name formData) = false ->
  (String.length (FolderDialog.name formData) <= 50)%nat ->
  exists data,
    FolderDialog.saved (FolderDialog.handleSave onSave prevError prevLoading formData)
    = Some data
    /\ FolderDialog.name data = trim (FolderDialog.name formData).
Proof.
  intros Hblank Hlen. unfold FolderDialog.handleSave.
  destruct (trim_not_blank _ Hblank) as (_ & _ & ->).
  apply Nat.ltb_ge in Hlen. rewrite Hlen.
  exists (FolderDialog.mkFolderFormData
            (trim (FolderDialog.name formData))
            (FolderDialog.orUndefined (option_map trim (FolderDialog.description formData)))
            (FolderDialog.orUndefined (FolderDialog.color formData))
            (FolderDialog.orUndefined (FolderDialog.icon formData))).
  split; [|reflexivity].
  destruct (onSave _); reflexivity.
Qed.

(** Too long a name is refused by the controller and by the dialog with
    the same message. *)
Lemma rejects_long_same_message generatedId now userId name description color icon db
    onSave prevError prevLoading :
  (50 < String.length name)%nat ->
  exists message,
    FolderController.createFolder generatedId now userId
      (Some (FolderController.mkCreateFolderRequest (Some name) description color icon)) db
    = (FolderController.createErrorResponse message 400, db)
    /\ FolderDialog.handleSave onSave prevError prevLoading
         (FolderDialog.mkFolderFormData name description color icon)
       = FolderDialog.mkSubmit (Some message) prevLoading None false.
Proof.
  intros Hlen. apply Nat.ltb_lt in Hlen.
  unfold FolderController.createFolder, FolderDialog.handleSave.
  cbn [FolderController.cr_name FolderDialog.name].
  destruct (allWhiteSpace name) eqn:Hb.
  - destruct (trim_blank name Hb) as [-> ->]. rewrite orb_true_r. eauto.
  - destruct (trim_not_blank name Hb) as (-> & -> & ->). cbn [orb]. rewrite Hlen. eauto.
Qed.

(** C6. A create request with a name of 51 characters is answered with
    status 400 by the controller, nothing being written, and refused by the
    dialog with the same validation message, nothing being saved; a name of
    exactly 50 characters (not all white space) passes both, and the
    controller answers 200 once the folder is stored; a missing or
    all-white-space name is answered with 400 on create, and an empty name
    with 400 on update. *)
Theorem folder_name_length_validation
    (name51 name50 blank : string)
    (generatedId userId : string) (folderId : option string) (now : Z)
    (description color icon : option string) (order : option Z)
    (onSave : FolderDialog.FolderFormData -> FolderDialog.SaveResult)
    (prevError : option string) (prevLoading : bool) (db : Database) :
  String.length name51 = 51%nat ->
  String.length name50 = 50%nat ->
  allWhiteSpace name50 = false ->
  allWhiteSpace blank = true ->
  ~ In generatedId (map Folder.id (folders db)) ->
  let create name :=
    FolderController.createFolder generatedId now userId
      (Some (FolderController.mkCreateFolderRequest name description color icon)) db in
  let update name :=
    FolderController.updateFolder now userId folderId
      (Some (FolderController.mkUpdateFolderRequest name description color icon order)) db in
  let submit name :=
    FolderDialog.handleSave onSave prevError prevLoading
      (FolderDialog.mkFolderFormData name description color icon) in
  (FolderController.statusCode (fst (create (Some name51))) = 400%nat
   /\ snd (create (Some name51)) = db
   /\ FolderDialog.saved (submit name51) = None
   /\ (exists message,
          fst (create (Some name51)) = FolderController.createErrorResponse message 400
          /\ FolderDialog.error (submit name51) = Some message))
  /\ (FolderController.statusCode (fst (create (Some name50))) = 200%nat
      /\ (exists f, In f (folders (snd (create (Some name50))))
                    /\ Folder.id f = generatedId /\ Folder.name f = trim name50)
      /\ (exists data, FolderDialog.saved (submit name50) = Some data
                       /\ FolderDialog.name data = trim name50))
  /\ (FolderController.statusCode (fst (create None)) = 400%nat
      /\ snd (create None) = db
      /\ FolderController.statusCode (fst (create (Some blank))) = 400%nat
      /\ snd (create (Some blank)) = db
      /\ FolderDialog.saved (submit blank) = None)
  /\ (FolderController.statusCode (fst (update (Some ""))) = 400%nat
      /\ snd (update (Some "")) = db
      /\ FolderController.statusCode (fst (update (Some blank))) = 400%nat).
Proof.
  intros H51 H50 Hname Hblank Hfresh create update submit.
  split; [|split; [|split]].
  - destruct (rejects_long_same_message generatedId now userId name51 description color icon db
                onSave prevError prevLoading) as (m & Hm & Hm'); [lia|].
    unfold create, submit. rewrite Hm, Hm'. cbn. repeat split. now exists m.
  - destruct (createFolder_accepts generatedId now userId name50 description color icon db)
      as (fw & db' & Hrun & Hin & Hid & _ & Hn); [assumption|lia|assumption|].
    destruct (handleSave_accepts onSave prevError prevLoading
                (FolderDialog.mkFolderFormData name50 description color icon))
      as (data & Hsaved & Hdn); [assumption|simpl; lia|].
    unfold create, submit. rewrite Hrun. cbn [fst snd FolderController.statusCode].
    split; [reflexivity|]. split; [exists (folder fw); auto|].
    exists data. auto.
  - unfold create, submit.
    rewrite (createFolder_rejects_blank _ _ _ blank _ _ _ _ Hblank).
    rewrite handleSave_rejects_blank by assumption. cbn. auto.
  - unfold update.
    destruct (updateFolder_rejects_blank now userId folderId "" description color icon order db
                eq_refl) as (m1 & ->).
    destruct (updateFolder_rejects_blank now userId folderId blank description color icon order db
                Hblank) as (m2 & ->).
    cbn. auto.
Qed.

(** ** The activity log *)

Section ActivityLog.
Import StatusTracker.

Lemma sliceLast_short {A} (n : nat) (l : list A) :
  (length l <= n)%nat -> sliceLast n l = l.
Proof.
  intros H. unfold sliceLast. now replace (length l - n)%nat with 0%nat by lia.
Qed.

Lemma sliceLast_length {A} (n : nat) (l : list A) :
  length (sliceLast n l) = Nat.min n (length l).
Proof. unfold sliceLast. rewrite length_skipn. lia. Qed.

(** Keeping the last [n] at every step is keeping the last [n] at the
    end. *)
Lemma sliceLast_app {A} (n : nat) (l m : list A) :
  sliceLast n (sliceLast n l ++ m) = sliceLast n (l ++ m).
Proof.
  unfold sliceLast. rewrite !length_app, length_skipn, !skipn_app, skipn_skipn, length_skipn.
  destruct (Nat.le_gt_cases (length l) n) as [Hle|Hgt].
  - replace (length l - n)%nat with 0%nat by lia. simpl.
    now rewrite Nat.add_0_r, Nat.sub_0_r.
  - f_equal; f_equal; lia.
Qed.

Lemma addActivity_activities r ty m st s :
  activities (addActivity r ty m st s)
  = sliceLast MAX_ACTIVITIES (activities s ++ [mkStatusActivity
                                                (showZ (idNow r) ++ "-" ++ idRandom r)%string
                                                (timestampNow r) ty m st]).
Proof.
  unfold addActivity. cbn [activities].
  destruct (Nat.ltb_spec MAX_ACTIVITIES
              (length (activities s ++ [mkStatusActivity
                                          (showZ (idNow r) ++ "-" ++ idRandom r)%string
                                          (timestampNow r) ty m st]))) as [Hlt|Hge].
  - reflexivity.
  - now rewrite sliceLast_short.
Qed.

Lemma addActivity_bounded r ty m st s :
  (length (activities (addActivity r ty m st s)) <= MAX_ACTIVITIES)%nat.
Proof. rewrite addActivity_activities, sliceLast_length. lia. Qed.

(** Whatever the message, the log stays within its bound. *)
Lemma trackWebSocketMessage_bounded now r msg s :
  (length (activities s) <= MAX_ACTIVITIES)%nat ->
  (length (activities (trackWebSocketMessage now r msg s)) <= MAX_ACTIVITIES)%nat.
Proof.
  intros H.
  destruct msg as [| | | | | | | | | | | | | | | | | | | | | | | | | [t|] | | | | | ty];
    cbn [trackWebSocketMessage]; try apply addActivity_bounded; try exact H.
  - destruct (toolStatus t =? "start")%string; [apply addActivity_bounded|].
    destruct (toolStatus t =? "success")%string; [apply addActivity_bounded|].
    destruct (toolStatus t =? "error")%string; [apply addActivity_bounded|exact H].
  - destruct (String.length ty <=? 50)%nat; [apply addActivity_bounded|exact H].
Qed.

Lemma feed_bounded stream : forall s,
  (length (activities s) <= MAX_ACTIVITIES)%nat ->
  (length (activities (feed stream s)) <= MAX_ACTIVITIES)%nat.
Proof.
  unfold feed. induction stream as [|[[now r] msg] stream IH]; intros s H; simpl; [exact H|].
  apply IH, trackWebSocketMessage_bounded, H.
Qed.

Lemma run_bounded calls : forall s,
  (length (activities s) <= MAX_ACTIVITIES)%nat ->
  (length (activities (run calls s)) <= MAX_ACTIVITIES)%nat.
Proof.
  unfold run. induction calls as [|c calls IH]; intros s H; simpl; [exact H|].
  apply IH. destruct c as [now r msg|r ty m st|connected]; cbn [call].
  - now apply trackWebSocketMessage_bounded.
  - apply addActivity_bounded.
  - exact H.
Qed.

Lemma feed_phase_activities evs : forall s,
  evs <> [] ->
  activities (feed (map phaseEvent evs) s)
  = sliceLast MAX_ACTIVITIES (activities s ++ map phaseEntry evs).
Proof.
  induction evs as [|[[now r] m] evs IH]; intros s Hne; [congruence|].
  unfold feed in *. cbn [map fold_left phaseEvent phaseEntry].
  destruct evs as [|ev evs].
  - cbn [map fold_left trackWebSocketMessage]. now rewrite addActivity_activities.
  - rewrite IH by discriminate.
    cbn [trackWebSocketMessage]. rewrite addActivity_activities. cbn [activities].
    rewrite sliceLast_app, <- app_assoc. reflexivity.
Qed.

Lemma feed_phase_last evs now r m s :
  lastMessageTimestamp (feed (map phaseEvent (evs ++ [(now, r, m)])) s) = lastNow r.
Proof.
  unfold feed. rewrite map_app, fold_left_app. reflexivity.
Qed.

End ActivityLog.

(** C9. After 60 [phase_generating] messages in a row the log holds exactly
    50 entries: those of the last 50 messages, in arrival order, the first
    10 (and anything logged before) being dropped; the last-activity
    timestamp is the time read at the end of handling the 60th message.
    And whatever calls the hook receives after mount, the log never holds
    more than 50 entries. *)
Theorem sixty_phase_messages_keep_last_fifty
    (evs : list (Z * StatusTracker.Readings * string)) (s : StatusTracker.State) :
  length evs = 60%nat ->
  let s' := StatusTracker.feed (map phaseEvent evs) s in
  StatusTracker.activities s' = map phaseEntry (skipn 10 evs)
  /\ length (StatusTracker.activities s') = 50%nat
  /\ (forall now r m, nth_error evs 59 = Some (now, r, m) ->
                      StatusTracker.lastMessageTimestamp s' = StatusTracker.lastNow r)
  /\ (forall calls now0,
         (length (StatusTracker.activities
                    (StatusTracker.run calls (StatusTracker.initial now0))) <= 50)%nat).
Proof.
  intros Hlen s'.
  assert (Hact : StatusTracker.activities s' = map phaseEntry (skipn 10 evs)).
  { unfold s'. rewrite feed_phase_activities by (intros ->; discriminate).
    unfold StatusTracker.sliceLast, StatusTracker.MAX_ACTIVITIES.
    rewrite length_app, length_map, Hlen, skipn_app.
    rewrite (skipn_all2 (StatusTracker.activities s)) by lia.
    replace (length (StatusTracker.activities s) + 60 - 50
             - length (StatusTracker.activities s))%nat with 10%nat by lia.
    now rewrite skipn_map. }
  split; [exact Hact|]. split.
  - rewrite Hact, length_map, length_skipn. lia.
  - split.
    + intros now r m Hnth.
      assert (Hsplit : evs = firstn 59 evs ++ [(now, r, m)]).
      { rewrite <- (firstn_skipn 59 evs) at 1. f_equal.
        pose proof (nth_error_split evs 59 Hnth) as (l1 & l2 & Heq & Hl1).
        rewrite Heq in Hlen |- *. rewrite length_app in Hlen. simpl in Hlen.
        rewrite skipn_app, <- Hl1, skipn_all, Nat.sub_diag. simpl.
        destruct l2; [reflexivity|simpl in Hlen; lia]. }
      unfold s'. rewrite Hsplit. apply feed_phase_last.
    + intros calls now0. apply run_bounded. simpl. unfold StatusTracker.MAX_ACTIVITIES. lia.
Qed.

(** ** The statements on the sample data *)

Ltac distinct_strings :=
  repeat (constructor; [simpl; intuition discriminate|]); constructor.

Lemma move_twice_single_association_witness :
  let db1 := snd (FolderService.moveAppToFolder "l2" 300 "a1" (Some "f1") "alice" Sample.db) in
  let second := FolderService.moveAppToFolder "l3" 310 "a1" (Some "f2") "alice" db1 in
  (length (associationsOf (snd second) "a1") <= 1)%nat
  /\ (forall r, In r (associationsOf (snd second) "a1") -> AppFolder.folderId r = "f2")
  /\ fst second = Returned true
  /\ associationsOf (snd second) "a1" = [AppFolder.mk "l3" "a1" "f2" (Some 310%Z)].
Proof.
  destruct (move_twice_single_association Sample.db "a1" "f1" "f2" "alice" "l2" 300 "l3" 310)
    as (Hle & Hto & Hfresh); [reflexivity|reflexivity|reflexivity|].
  split; [exact Hle|]. split; [exact Hto|].
  apply Hfresh. simpl. intuition discriminate.
Defined.

Lemma createFolder_orders_increase_witness :
  exists created k,
    map snd (createSequence "carol" Sample.requests Sample.db)
    = map (fun f => Returned (Some f)) created
    /\ Forall2 (fun step f => isNextOrder (fst step) "carol" (Folder.order f))
               (createSequence "carol" Sample.requests Sample.db) created
    /\ isNextOrder Sample.db "carol" k
    /\ map Folder.order created = map (fun i => (k + Z.of_nat i)%Z) (seq 0 2)
    /\ (userOrders Sample.db "carol" = [] ->
        map Folder.order created = map Z.of_nat (seq 0 2)).
Proof.
  apply (createFolder_orders_increase Sample.db "carol" Sample.requests).
  - simpl. distinct_strings.
  - simpl. intros r [<-|[<-|[]]]; simpl; intuition discriminate.
Defined.

Lemma foreign_folder_not_found_witness :
  notFound Sample.db "f3" "alice"
  /\ (forall missing, ~ In missing (map Folder.id (folders Sample.db)) ->
                      notFound Sample.db missing "alice")
  /\ (forall generatedId now appId target,
         ownsApp Sample.db appId "bob" = true ->
         FolderService.moveAppToFolder generatedId now appId target "alice" Sample.db
         = (Returned false, Sample.db)).
Proof.
  apply (foreign_folder_not_found Sample.db Sample.archive "bob" "alice").
  - unfold uniqueFolderIds. simpl. distinct_strings.
  - simpl. auto.
  - reflexivity.
  - discriminate.
Defined.

Lemma deleteFolder_unfiles_apps_witness :
  exists db',
    FolderService.deleteFolder "f1" "alice" Sample.db = (Returned true, db')
    /\ db' = snd (deleteFolders
                    (fun f => (Folder.id f =? "f1") && (Folder.userId f =? "alice"))
                    (snd (deleteAppFolders (fun r => AppFolder.folderId r =? "f1") Sample.db)))
    /\ appFolders db'
       = filter (fun r => negb (AppFolder.folderId r =? "f1")) (appFolders Sample.db)
    /\ associationsIn db' "f1" = []
    /\ ownsFolder db' "f1" "alice" = false
    /\ (forall f, In f (folders db') <->
                  In f (folders Sample.db)
                  /\ ~ (Folder.id f = "f1" /\ Folder.userId f = "alice"))
    /\ apps db' = apps Sample.db
    /\ (forall r, In r (appFolders Sample.db) -> AppFolder.folderId r = "f1" ->
                  FolderService.getAppFolder (AppFolder.appId r) db' = (Returned None, db')).
Proof.
  apply (deleteFolder_unfiles_apps Sample.db "f1" "alice").
  - reflexivity.
  - intros a. unfold associationsOf, Sample.db. cbn [appFolders filter AppFolder.appId].
    destruct ("a1" =? a)%string; cbn [length]; lia.
Defined.

Lemma getUserFolders_sorted_witness :
  exists result,
    FolderService.getUserFolders "alice" Sample.db = (Returned result, Sample.db)
    /\ Permutation result
         (map (withAppCount Sample.db)
              (filter (fun f => Folder.userId f =? "alice") (folders Sample.db)))
    /\ StronglySorted listedBefore result.
Proof.
  apply (getUserFolders_sorted Sample.db "alice").
  unfold uniqueFolderIds. simpl. distinct_strings.
Defined.

Lemma move_to_null_idempotent_witness :
  exists db1,
    FolderService.moveAppToFolder "l2" 300 "a1" None "alice" Sample.db = (Returned true, db1)
    /\ associationsOf db1 "a1" = []
    /\ (forall other, other <> "a1" ->
                      associationsOf db1 other = associationsOf Sample.db other)
    /\ FolderService.moveAppToFolder "l3" 310 "a1" None "alice" db1 = (Returned true, db1).
Proof.
  apply (move_to_null_idempotent Sample.db "a1" "alice" "l2" 300 "l3" 310).
  reflexivity.
Defined.

Lemma updateFolder_changes_only_provided_witness :
  exists db' f',
    FolderService.updateFolder 400 "f1" "alice" Sample.rename Sample.db
    = (Returned (Some f'), db')
    /\ Folder.id f' = "f1"
    /\ appFolders db' = appFolders Sample.db
    /\ apps db' = apps Sample.db
    /\ Forall2 (fun before after =>
                  if (Folder.id before =? "f1") && (Folder.userId before =? "alice")
                  then updatedRow Sample.rename 400 before after
                  else after = before)
               (folders Sample.db) (folders db').
Proof.
  apply (updateFolder_changes_only_provided Sample.db 400 "f1" "alice" Sample.rename).
  reflexivity.
Defined.

Lemma folder_name_length_validation_witness :
  let create name :=
    FolderController.createFolder "f10" 200 "alice"
      (Some (FolderController.mkCreateFolderRequest name None None None)) Sample.db in
  let update name :=
    FolderController.updateFolder 200 "alice" (Some "f1")
      (Some (FolderController.mkUpdateFolderRequest name None None None None)) Sample.db in
  let submit name :=
    FolderDialog.handleSave (fun _ => FolderDialog.resolved) None false
      (FolderDialog.mkFolderFormData name None None None) in
  (FolderController.statusCode (fst (create (Some Sample.name51))) = 400%nat
   /\ snd (create (Some Sample.name51)) = Sample.db
   /\ FolderDialog.saved (submit Sample.name51) = None
   /\ (exists message,
          fst (create (Some Sample.name51)) = FolderController.createErrorResponse message 400
          /\ FolderDialog.error (submit Sample.name51) = Some message))
  /\ (FolderController.statusCode (fst (create (Some Sample.name50))) = 200%nat
      /\ (exists f, In f (folders (snd (create (Some Sample.name50))))
                    /\ Folder.id f = "f10" /\ Folder.name f = trim Sample.name50)
      /\ (exists data, FolderDialog.saved (submit Sample.name50) = Some data
                       /\ FolderDialog.name data = trim Sample.name50))
  /\ (FolderController.statusCode (fst (create None)) = 400%nat
      /\ snd (create None) = Sample.db
      /\ FolderController.statusCode (fst (create (Some Sample.blank))) = 400%nat
      /\ snd (create (Some Sample.blank)) = Sample.db
      /\ FolderDialog.saved (submit Sample.blank) = None)
  /\ (FolderController.statusCode (fst (update (Some ""))) = 400%nat
      /\ snd (update (Some "")) = Sample.db
      /\ FolderController.statusCode (fst (update (Some Sample.blank))) = 400%nat).
Proof.
  apply (folder_name_length_validation Sample.name51 Sample.name50 Sample.blank
           "f10" "alice" (Some "f1") 200 None None None None
           (fun _ => FolderDialog.resolved) None false Sample.db).
  - reflexivity.
  - reflexivity.
  - reflexivity.
  - reflexivity.
  - simpl. intuition discriminate.
Defined.

Lemma sixty_phase_messages_keep_last_fifty_witness :
  let s' := StatusTracker.feed (map phaseEvent Sample.sixty) Sample.idle in
  StatusTracker.activities s' = map phaseEntry (skipn 10 Sample.sixty)
  /\ length (StatusTracker.activities s') = 50%nat
  /\ (forall now r m, nth_error Sample.sixty 59 = Some (now, r, m) ->
                      StatusTracker.lastMessageTimestamp s' = StatusTracker.lastNow r)
  /\ (forall calls now0,
         (length (StatusTracker.activities
                    (StatusTracker.run calls (StatusTracker.initial now0))) <= 50)%nat).
Proof.
  apply (sixty_phase_messages_keep_last_fifty Sample.sixty Sample.idle).
  reflexivity.
Defined.

Lemma appCount_exceeds_listed_apps_witness :
  exists fw listing listed,
    FolderService.getFolderById "f1" "alice" Sample.shared = (Returned (Some fw), Sample.shared)
    /\ FolderService.getUserFolders "alice" Sample.shared = (Returned listed, Sample.shared)
    /\ In fw listed
    /\ FolderService.getAppsInFolder "f1" "alice" Sample.shared
       = (Returned listing, Sample.shared)
    /\ appCount fw = length (associationsIn Sample.shared "f1")
    /\ (length listing < appCount fw)%nat.
Proof.
  apply (appCount_exceeds_listed_apps Sample.shared "f1" "alice"
           (AppFolder.mk "l2" "a3" "f1" (Some 140%Z)) Sample.chess).
  - unfold uniqueFolderIds. simpl. distinct_strings.
  - unfold uniqueAppIds. simpl. distinct_strings.
  - reflexivity.
  - simpl. auto.
  - reflexivity.
  - simpl. auto.
  - reflexivity.
  - discriminate.
Defined.

(** ** The scenarios of the specification, run on the model *)

(** A user without folders creates "Work" and then "Personal": the orders
    are 0 and 1, and the listing shows "Personal" before "Work". *)
Example scenario_create_then_list :
  let db0 := mkDatabase [] [] [] in
  let (r1, db1) := FolderService.createFolder "f1" 10 "u"
                     (FolderService.mkFolderData "Work" None None None) db0 in
  let (r2, db2) := FolderService.createFolder "f2" 20 "u"
                     (FolderService.mkFolderData "Personal" None None None) db1 in
  match r1, r2, fst (FolderService.getUserFolders "u" db2) with
  | Returned (Some w), Returned (Some p), Returned listed =>
      Folder.order w = 0%Z /\ Folder.order p = 1%Z
      /\ map (fun fw => Folder.name (folder fw)) listed = ["Personal"; "Work"]
  | _, _, _ => False
  end.
Proof. cbn. repeat split. Qed.

(** A move into the caller's folder succeeds; a move into another user's
    folder returns false and writes nothing. *)
Example scenario_move :
  fst (FolderService.moveAppToFolder "l2" 300 "a2" (Some "f2") "alice" Sample.db)
  = Returned true
  /\ FolderService.moveAppToFolder "l2" 300 "a2" (Some "f3") "alice" Sample.db
     = (Returned false, Sample.db).
Proof. split; reflexivity. Qed.

(** A generated id that collides with a stored key makes the insert throw
    after the old association is gone: the app is left unfiled. *)
Example scenario_move_id_collision :
  let (result, db') :=
    FolderService.moveAppToFolder "l2" 300 "a1" (Some "f2") "alice" Sample.shared in
  result = Thrown "moveAppToFolder" /\ associationsOf db' "a1" = [].
Proof. split; reflexivity. Qed.

(** * Further properties of the service *)

(** ** What a move does to the tables *)

Lemma associationsOf_filedIn_other db row other :
  other <> AppFolder.appId row ->
  associationsOf (filedIn db row) other = associationsOf db other.
Proof.
  intros Hne.
  pose proof (associationsOf_withoutApp_other db (AppFolder.appId row) other Hne) as Hw.
  unfold associationsOf, filedIn in *. cbn [appFolders] in *.
  rewrite filter_app, Hw. simpl.
  destruct (String.eqb_spec (AppFolder.appId row) other) as [E|_]; [congruence|].
  apply app_nil_r.
Qed.

(** A move that returned true found the app, and the folder if one was
    named, and left the app unfiled or filed in that folder. *)
Lemma moveAppToFolder_returned_true generatedId now appId folderId userId db :
  fst (FolderService.moveAppToFolder generatedId now appId folderId userId db) = Returned true ->
  ownsApp db appId userId = true
  /\ match folderId with
     | None =>
         snd (FolderService.moveAppToFolder generatedId now appId folderId userId db)
         = withoutApp db appId
     | Some target =>
         ownsFolder db target userId = true
         /\ snd (FolderService.moveAppToFolder generatedId now appId folderId userId db)
            = filedIn db (AppFolder.mk generatedId appId target (Some now))
     end.
Proof.
  destruct (ownsApp db appId userId) eqn:Ha.
  - destruct folderId as [target|].
    + destruct (ownsFolder db target userId) eqn:Hf.
      * rewrite (moveAppToFolder_folder _ _ _ _ _ _ Ha Hf).
        destruct (existsb _ _); simpl; [discriminate|auto].
      * rewrite (moveAppToFolder_foreign_folder _ _ _ _ _ _ Hf). simpl. discriminate.
    + rewrite (moveAppToFolder_null _ _ _ _ _ Ha). simpl. auto.
  - rewrite (moveAppToFolder_not_owner _ _ _ _ _ _ Ha). simpl. discriminate.
Qed.

Lemma moveAppToFolder_keeps_tables generatedId now appId folderId userId db :
  folders (snd (FolderService.moveAppToFolder generatedId now appId folderId userId db))
  = folders db
  /\ apps (snd (FolderService.moveAppToFolder generatedId now appId folderId userId db))
     = apps db.
Proof.
  destruct (moveAppToFolder_state generatedId now appId folderId userId db)
    as [E|[E|(target & E)]]; rewrite E; auto.
Qed.

(** X1. Whatever its arguments and its outcome, moveAppToFolder leaves the
    folder and app tables as they are and does not touch the association
    rows of any other app. *)
Theorem moveAppToFolder_frame generatedId now appId folderId userId db :
  let db' := snd (FolderService.moveAppToFolder generatedId now appId folderId userId db) in
  folders db' = folders db
  /\ apps db' = apps db
  /\ (forall other, other <> appId -> associationsOf db' other = associationsOf db other).
Proof.
  intros db'.
  destruct (moveAppToFolder_state generatedId now appId folderId userId db)
    as [E|[E|(target & E)]]; fold db' in E; rewrite E.
  - auto.
  - repeat split. intros other. apply associationsOf_withoutApp_other.
  - repeat split. intros other Hne.
    now apply (associationsOf_filedIn_other db (AppFolder.mk generatedId appId target (Some now))).
Qed.

Lemma existsb_id_withoutApp_other db appId r :
  In r (appFolders db) -> AppFolder.appId r <> appId ->
  existsb (fun x => AppFolder.id x =? AppFolder.id r) (appFolders (withoutApp db appId)) = true.
Proof.
  intros Hin Hne. apply existsb_exists. exists r. split; [|apply String.eqb_refl].
  unfold withoutApp. cbn [appFolders]. apply filter_In. split; [assumption|].
  apply negb_true_iff. now apply String.eqb_neq.
Qed.

(** X2. When the id generated for the new association is already the key of
    a row of another app, a move into an owned folder throws after the old
    rows of the app are deleted: the app ends up in no folder, and
    getAppFolder returns null for it. *)
Theorem moveAppToFolder_collision_unfiles generatedId now appId folderId userId db r :
  ownsApp db appId userId = true ->
  ownsFolder db folderId userId = true ->
  In r (appFolders db) ->
  AppFolder.id r = generatedId ->
  AppFolder.appId r <> appId ->
  exists db',
    FolderService.moveAppToFolder generatedId now appId (Some folderId) userId db
    = (Thrown "moveAppToFolder", db')
    /\ associationsOf db' appId = []
    /\ FolderService.getAppFolder appId db' = (Returned None, db')
    /\ (forall other, other <> appId -> associationsOf db' other = associationsOf db other).
Proof.
  intros Ha Hf Hin Hid Hne. exists (withoutApp db appId).
  rewrite (moveAppToFolder_folder _ _ _ _ _ _ Ha Hf).
  rewrite <- Hid, (existsb_id_withoutApp_other db appId r Hin Hne).
  split; [reflexivity|]. split; [apply associationsOf_withoutApp|].
  split; [rewrite getAppFolder_run, associationsOf_withoutApp; reflexivity|].
  intros other. apply associationsOf_withoutApp_other.
Qed.

(** X3. After a move that returned true, getAppFolder returns the target
    folder for the app (a folder id being a non-empty string), and null
    after a move to null. *)
Theorem move_then_getAppFolder generatedId now appId folderId userId db :
  fst (FolderService.moveAppToFolder generatedId now appId folderId userId db) = Returned true ->
  folderId <> Some "" ->
  let db' := snd (FolderService.moveAppToFolder generatedId now appId folderId userId db) in
  FolderService.getAppFolder appId db' = (Returned folderId, db').
Proof.
  intros Hok Hne db'.
  destruct (moveAppToFolder_returned_true _ _ _ _ _ _ Hok) as [_ Hstate].
  rewrite getAppFolder_run. destruct folderId as [target|].
  - destruct Hstate as [_ Hstate]. fold db' in Hstate. rewrite Hstate.
    pose proof (associationsOf_filedIn db (AppFolder.mk generatedId appId target (Some now))) as H.
    cbn [AppFolder.appId] in H. rewrite H. cbn [AppFolder.folderId].
    destruct (String.eqb_spec target "") as [->|_]; [congruence|reflexivity].
  - fold db' in Hstate. rewrite Hstate, associationsOf_withoutApp. reflexivity.
Qed.

(** ** The database after each kind of call *)

Lemma createFolder_collision generatedId now userId folderData db :
  In generatedId (map Folder.id (folders db)) ->
  FolderService.createFolder generatedId now userId folderData db
  = (Thrown "createFolder", db).
Proof.
  intros Hin.
  assert (Hex : existsb (fun f => Folder.id f =? generatedId) (folders db) = true).
  { apply in_map_iff in Hin. destruct Hin as (f & Hid & Hf).
    apply existsb_exists. exists f. split; [assumption|]. now apply String.eqb_eq. }
  unfold FolderService.createFolder, handleDatabaseError, bind, query, ret, insertFolder.
  cbn [hd_error Folder.id]. now rewrite Hex.
Qed.

Lemma createFolder_state generatedId now userId folderData db :
  let db' := snd (FolderService.createFolder generatedId now userId folderData db) in
  db' = db
  \/ (~ In generatedId (map Folder.id (folders db))
      /\ exists f, Folder.id f = generatedId /\ Folder.userId f = userId
                   /\ db' = mkDatabase (folders db ++ [f]) (appFolders db) (apps db)).
Proof.
  destruct (in_dec string_dec generatedId (map Folder.id (folders db))) as [Hin|Hfresh].
  - left. now rewrite createFolder_collision.
  - right. split; [assumption|].
    rewrite (createFolder_fresh _ _ _ _ _ Hfresh). cbv zeta. cbn [snd].
    eexists. split; [|split]. 3: reflexivity. all: reflexivity.
Qed.

Lemma updateFolder_state now folderId userId updates db :
  let db' := snd (FolderService.updateFolder now folderId userId updates db) in
  db' = db
  \/ db' = mkDatabase
             (map (fun f => if (Folder.id f =? folderId) && (Folder.userId f =? userId)
                            then FolderService.setUpdates updates now f else f) (folders db))
             (appFolders db) (apps db).
Proof.
  destruct (ownsFolder db folderId userId) eqn:Hf.
  - right. now rewrite (updateFolder_owned _ _ _ _ _ Hf).
  - left. now rewrite (updateFolder_not_owned _ _ _ _ _ Hf).
Qed.

Lemma deleteFolder_state folderId userId db :
  let db' := snd (FolderService.deleteFolder folderId userId db) in
  db' = db
  \/ db' = mkDatabase
             (filter (fun f => negb ((Folder.id f =? folderId) && (Folder.userId f =? userId)))
                     (folders db))
             (filter (fun r => negb (AppFolder.folderId r =? folderId)) (appFolders db))
             (apps db).
Proof.
  destruct (ownsFolder db folderId userId) eqn:Hf.
  - right. now rewrite (deleteFolder_owned _ _ _ Hf).
  - left. now rewrite (deleteFolder_not_owned _ _ _ Hf).
Qed.

Lemma getAppsInFolder_not_owned folderId userId db :
  ownsFolder db folderId userId = false ->
  FolderService.getAppsInFolder folderId userId db = (Returned [], db).
Proof.
  intros H. unfold FolderService.getAppsInFolder.
  unfold handleDatabaseError at 1. unfold bind at 1.
  now rewrite (getFolderById_not_owned _ _ _ H).
Qed.

Lemma getAppsInFolder_reads folderId userId db :
  snd (FolderService.getAppsInFolder folderId userId db) = db.
Proof.
  destruct (ownsFolder db folderId userId) eqn:Hf.
  - destruct (getAppsInFolder_owned _ _ _ Hf) as (l & -> & _). reflexivity.
  - now rewrite (getAppsInFolder_not_owned _ _ _ Hf).
Qed.

(** A move that files the app: the row it adds, with what was checked
    before. *)
Lemma moveAppToFolder_state_checked generatedId now appId folderId userId db :
  let db' := snd (FolderService.moveAppToFolder generatedId now appId folderId userId db) in
  db' = db \/ db' = withoutApp db appId
  \/ exists target,
       db' = filedIn db (AppFolder.mk generatedId appId target (Some now))
       /\ ownsApp db appId userId = true
       /\ ownsFolder db target userId = true
       /\ existsb (fun r => AppFolder.id r =? generatedId)
                  (appFolders (withoutApp db appId)) = false.
Proof.
  destruct (ownsApp db appId userId) eqn:Ha.
  - destruct folderId as [target|].
    + destruct (ownsFolder db target userId) eqn:Hf.
      * rewrite (moveAppToFolder_folder _ _ _ _ _ _ Ha Hf).
        destruct (existsb _ _) eqn:Hex; simpl; [auto|].
        right. right. exists target. auto.
      * rewrite (moveAppToFolder_foreign_folder _ _ _ _ _ _ Hf). simpl. auto.
    + rewrite (moveAppToFolder_null _ _ _ _ _ Ha). simpl. auto.
  - rewrite (moveAppToFolder_not_owner _ _ _ _ _ _ Ha). simpl. auto.
Qed.

(** ** Keys and the one-folder rule *)

Lemma NoDup_snoc {A} (l : list A) (x : A) : NoDup l -> ~ In x l -> NoDup (l ++ [x]).
Proof.
  intros Hnd Hn. induction l as [|a l IH]; simpl.
  - constructor; [intros []|constructor].
  - inversion Hnd as [|? ? Ha Hl]; subst. constructor.
    + rewrite in_app_iff. simpl. intros [H|[H|[]]]; [contradiction|].
      apply Hn. now left.
    + apply IH; [assumption|]. intros H. apply Hn. now right.
Qed.

Lemma serviceStep_keeps_uniqueFolderIds c db :
  uniqueFolderIds db -> uniqueFolderIds (serviceStep c db).
Proof.
  unfold uniqueFolderIds. intros H.
  destruct c as [u|f u|g n u d|n f u up|f u|g n a f u|f u|a]; cbn [serviceStep].
  - exact H.
  - now rewrite getFolderById_run.
  - destruct (createFolder_state g n u d db) as [->|(Hfresh & f & Hid & _ & ->)];
      [exact H|]. cbn [folders]. rewrite map_app. simpl. rewrite Hid.
    now apply NoDup_snoc.
  - destruct (updateFolder_state n f u up db) as [->| ->]; [exact H|].
    cbn [folders]. rewrite map_map.
    erewrite map_ext; [exact H|]. intros x. cbv beta.
    destruct (_ && _); reflexivity.
  - destruct (deleteFolder_state f u db) as [->| ->]; [exact H|].
    cbn [folders]. now apply NoDup_map_filter.
  - destruct (moveAppToFolder_keeps_tables g n a f u db) as (-> & _). exact H.
  - now rewrite getAppsInFolder_reads.
  - now rewrite getAppFolder_run.
Qed.

Lemma serviceStep_keeps_uniqueAppFolderIds c db :
  uniqueAppFolderIds db -> uniqueAppFolderIds (serviceStep c db).
Proof.
  unfold uniqueAppFolderIds. intros H.
  destruct c as [u|f u|g n u d|n f u up|f u|g n a f u|f u|a]; cbn [serviceStep].
  - exact H.
  - now rewrite getFolderById_run.
  - destruct (createFolder_state g n u d db) as [->|(_ & f & _ & _ & ->)]; exact H.
  - destruct (updateFolder_state n f u up db) as [->| ->]; exact H.
  - destruct (deleteFolder_state f u db) as [->| ->]; [exact H|].
    cbn [appFolders]. now apply NoDup_map_filter.
  - destruct (moveAppToFolder_state_checked g n a f u db)
      as [->|[->|(target & -> & _ & _ & Hfresh)]].
    + exact H.
    + unfold withoutApp. cbn [appFolders]. now apply NoDup_map_filter.
    + unfold filedIn. cbn [appFolders AppFolder.appId]. rewrite map_app. simpl.
      apply NoDup_snoc.
      * unfold withoutApp. cbn [appFolders]. now apply NoDup_map_filter.
      * intros Hin. apply in_map_iff in Hin. destruct Hin as (x & Hx & Hin).
        apply not_true_iff_false in Hfresh. apply Hfresh.
        apply existsb_exists. exists x. split; [assumption|]. now apply String.eqb_eq.
  - now rewrite getAppsInFolder_reads.
  - now rewrite getAppFolder_run.
Qed.

Lemma serviceStep_keeps_oneFolderPerApp c db :
  oneFolderPerApp db -> oneFolderPerApp (serviceStep c db).
Proof.
  intros H.
  destruct c as [u|f u|g n u d|n f u up|f u|g n a f u|f u|a]; cbn [serviceStep].
  - exact H.
  - now rewrite getFolderById_run.
  - destruct (createFolder_state g n u d db) as [->|(_ & f & _ & _ & ->)]; exact H.
  - destruct (updateFolder_state n f u up db) as [->| ->]; exact H.
  - now apply deleteFolder_keeps_oneFolderPerApp.
  - now apply moveAppToFolder_keeps_oneFolderPerApp.
  - now rewrite getAppsInFolder_reads.
  - now rewrite getAppFolder_run.
Qed.

(** X4. Starting from a database whose ids are unique in [folders] and in
    [app_folders] and where no app is filed twice, any sequence of calls of
    the service, returning or throwing, leaves a database with the same
    three properties. *)
Theorem serviceRun_keeps_keys_and_single_folder calls db :
  uniqueFolderIds db ->
  uniqueAppFolderIds db ->
  oneFolderPerApp db ->
  uniqueFolderIds (serviceRun calls db)
  /\ uniqueAppFolderIds (serviceRun calls db)
  /\ oneFolderPerApp (serviceRun calls db).
Proof.
  unfold serviceRun. revert db.
  induction calls as [|c calls IH]; intros db H1 H2 H3; simpl; [auto|].
  apply IH.
  - now apply serviceStep_keeps_uniqueFolderIds.
  - now apply serviceStep_keeps_uniqueAppFolderIds.
  - now apply serviceStep_keeps_oneFolderPerApp.
Qed.

(** ** Associations link an app and a folder of one user *)

Lemma ownsApp_row db appId userId :
  ownsApp db appId userId = true ->
  exists a, In a (apps db) /\ App.id a = appId /\ App.userId a = userId.
Proof.
  unfold ownsApp. destruct (find _ (apps db)) as [a|] eqn:E; [|discriminate].
  intros Hu. apply find_some in E. destruct E as [Hin Hid].
  apply String.eqb_eq in Hid, Hu. now exists a.
Qed.

Lemma ownsFolder_row db folderId userId :
  ownsFolder db folderId userId = true ->
  exists f, In f (folders db) /\ Folder.id f = folderId /\ Folder.userId f = userId.
Proof.
  unfold ownsFolder. intros H. apply existsb_exists in H.
  destruct H as (f & Hin & Hm). apply andb_prop in Hm. destruct Hm as [Hid Hu].
  apply String.eqb_eq in Hid, Hu. now exists f.
Qed.

Lemma setUpdates_keeps_owner updates now f :
  Folder.id (FolderService.setUpdates updates now f) = Folder.id f
  /\ Folder.userId (FolderService.setUpdates updates now f) = Folder.userId f.
Proof. split; reflexivity. Qed.

Lemma serviceStep_keeps_sameOwner c db :
  sameOwner db -> sameOwner (serviceStep c db).
Proof.
  intros H.
  destruct c as [u|f u|g n u d|n f u up|f u|g n a f u|f u|a]; cbn [serviceStep].
  - exact H.
  - now rewrite getFolderById_run.
  - destruct (createFolder_state g n u d db) as [->|(_ & f & _ & _ & ->)]; [exact H|].
    intros r Hr. cbn [appFolders] in Hr. destruct (H r Hr) as (a & f0 & Ha & Hf0 & Hrest).
    exists a, f0. cbn [apps folders]. rewrite in_app_iff. tauto.
  - destruct (updateFolder_state n f u up db) as [->| ->]; [exact H|].
    intros r Hr. cbn [appFolders] in Hr. destruct (H r Hr) as (a & f0 & Ha & Hf0 & Hia & Hif & Hu).
    cbn [apps folders].
    destruct ((Folder.id f0 =? f) && (Folder.userId f0 =? u)) eqn:Hm.
    + exists a, (FolderService.setUpdates up n f0). split; [assumption|].
      split; [|cbn; auto].
      apply in_map_iff. exists f0. now rewrite Hm.
    + exists a, f0. split; [assumption|]. split; [|auto].
      apply in_map_iff. exists f0. now rewrite Hm.
  - destruct (deleteFolder_state f u db) as [->| ->]; [exact H|].
    intros r Hr. cbn [appFolders] in Hr. apply filter_In in Hr. destruct Hr as [Hr Hne].
    destruct (H r Hr) as (a & f0 & Ha & Hf0 & Hia & Hif & Hu).
    exists a, f0. cbn [apps folders]. split; [assumption|]. split; [|auto].
    apply filter_In. split; [assumption|]. rewrite Hif.
    apply negb_true_iff in Hne. now rewrite Hne.
  - destruct (moveAppToFolder_state_checked g n a f u db)
      as [->|[->|(target & -> & Ha & Hf & _)]].
    + exact H.
    + intros r Hr. unfold withoutApp in Hr. cbn [appFolders] in Hr.
      apply filter_In in Hr. destruct Hr as [Hr _]. exact (H r Hr).
    + intros r Hr. unfold filedIn, withoutApp in Hr. cbn [appFolders AppFolder.appId] in Hr.
      apply in_app_or in Hr. destruct Hr as [Hr|[<-|[]]].
      * apply filter_In in Hr. destruct Hr as [Hr _]. exact (H r Hr).
      * destruct (ownsApp_row _ _ _ Ha) as (a0 & Ha0 & Hia & Hua).
        destruct (ownsFolder_row _ _ _ Hf) as (f0 & Hf0 & Hif & Huf).
        exists a0, f0. cbn. repeat split; congruence.
  - now rewrite getAppsInFolder_reads.
  - now rewrite getAppFolder_run.
Qed.

(** X5. If every association links an app and a folder of one user, it is
    still so after any sequence of calls of the service: the service never
    files an app in a folder of another user. *)
Theorem serviceRun_keeps_sameOwner calls db :
  sameOwner db -> sameOwner (serviceRun calls db).
Proof.
  unfold serviceRun. revert db.
  induction calls as [|c calls IH]; intros db H; simpl; [exact H|].
  apply IH. now apply serviceStep_keeps_sameOwner.
Qed.

Lemma length_filter_ge_1 {A} (p : A -> bool) (l : list A) (x : A) :
  In x l -> p x = true -> (1 <= length (filter p l))%nat.
Proof.
  intros Hin Hp. assert (H : In x (filter p l)) by (apply filter_In; auto).
  destruct (filter p l); [contradiction|simpl; lia].
Qed.

(** X6. In a database with unique ids where every association links an
    app and a folder of one user, the appCount of a folder the caller owns
    is the number of apps getAppsInFolder returns for it. *)
Theorem appCount_is_number_of_listed_apps db folderId userId :
  uniqueFolderIds db ->
  uniqueAppIds db ->
  sameOwner db ->
  ownsFolder db folderId userId = true ->
  exists fw listing,
    FolderService.getFolderById folderId userId db = (Returned (Some fw), db)
    /\ FolderService.getAppsInFolder folderId userId db = (Returned listing, db)
    /\ appCount fw = length listing.
Proof.
  intros Hfid Haid Hsame Hown.
  destruct (getFolderById_unique _ _ _ Hfid Hown) as (f & Hf & Hfi & Hfu & Hget).
  destruct (getAppsInFolder_owned _ _ _ Hown) as (listing & Hlist & Hlen).
  exists (withAppCount db f), listing.
  split; [exact Hget|]. split; [exact Hlist|].
  rewrite Hlen, length_filter_innerJoin, count_pairs_swap.
  unfold withAppCount. cbn [appCount]. rewrite Hfi.
  unfold associationsIn. rewrite length_filter_sum.
  f_equal. apply map_ext_in. intros r Hr. cbn [fst snd].
  destruct (String.eqb_spec (AppFolder.folderId r) folderId) as [Hrf|_].
  - assert (Hle : length (filter (fun a => (App.id a =? AppFolder.appId r)
                                         && (true && (App.userId a =? userId)))
                                 (apps db)) <= 1).
    { etransitivity; [apply (length_filter_and_le (fun a => App.id a =? AppFolder.appId r))|].
      apply (length_filter_key_le_1 App.id (AppFolder.appId r) _ Haid). }
    assert (Hge : 1 <= length (filter (fun a => (App.id a =? AppFolder.appId r)
                                              && (true && (App.userId a =? userId)))
                                      (apps db))).
    { destruct (Hsame r Hr) as (a & f0 & Ha & Hf0 & Hia & Hif & Hu).
      assert (f0 = f) by (apply (NoDup_map_inj_in Folder.id _ f0 f Hfid Hf0 Hf); congruence).
      subst f0. apply (length_filter_ge_1 _ _ a Ha).
      rewrite Hia, Hu, Hfu, !String.eqb_refl. reflexivity. }
    lia.
  - rewrite (proj2 (filter_nil_existsb _ _)); [reflexivity|].
    apply not_true_iff_false. intros Hex. apply existsb_exists in Hex.
    destruct Hex as (x & _ & Hx). now rewrite andb_false_r in Hx.
Qed.

(** ** The apps of a folder *)

Lemma in_innerJoin {A B} (l : list A) (r : list B) (on : A -> B -> bool) a b :
  In (a, b) (Sql.innerJoin l r on) <-> In a l /\ In b r /\ on a b = true.
Proof.
  unfold Sql.innerJoin. rewrite in_flat_map. split.
  - intros (x & Hx & Hin). apply in_map_iff in Hin. destruct Hin as (y & Heq & Hy).
    inversion Heq; subst. apply filter_In in Hy. tauto.
  - intros (Ha & Hb & Hon). exists a. split; [assumption|].
    apply in_map, filter_In. auto.
Qed.

Lemma optZ_leb_total x y :
  FolderService.optZ_leb x y = false -> FolderService.optZ_leb y x = true.
Proof.
  destruct x as [a|], y as [b|]; simpl; try congruence.
  rewrite Z.leb_gt, Z.leb_le. lia.
Qed.

Lemma optZ_leb_trans x y z :
  FolderService.optZ_leb x y = true -> FolderService.optZ_leb y z = true ->
  FolderService.optZ_leb x z = true.
Proof.
  destruct x as [a|], y as [b|], z as [c|]; simpl; try congruence.
  rewrite !Z.leb_le. lia.
Qed.

Lemma StronglySorted_map {A B} (f : A -> B) (R : B -> B -> Prop) (l : list A) :
  StronglySorted (fun x y => R (f x) (f y)) l -> StronglySorted R (map f l).
Proof.
  induction 1 as [|a l Hs IH Hall]; simpl; constructor; [assumption|].
  apply Forall_map. exact Hall.
Qed.

(** The rows selected for a folder the caller owns. *)
Lemma getAppsInFolder_rows folderId userId db :
  ownsFolder db folderId userId = true ->
  FolderService.getAppsInFolder folderId userId db
  = (Returned
       (map (fun row : App.t * AppFolder.t => appInFolder (fst row))
          (Sql.orderBy FolderService.byUpdatedAtDesc
             (Sql.where_
                (fun row => (AppFolder.folderId (snd row) =? folderId)
                            && (App.userId (fst row) =? userId))
                (Sql.innerJoin (apps db) (appFolders db)
                   (fun a r => App.id a =? AppFolder.appId r))))), db).
Proof.
  intros H. destruct (getFolderById_owned _ _ _ H) as (fw & Hget).
  unfold FolderService.getAppsInFolder.
  unfold handleDatabaseError at 1. unfold bind at 1. rewrite Hget.
  reflexivity.
Qed.

(** X7. getAppsInFolder returns, for a folder the caller owns, exactly the
    apps of the caller that have an association with the folder, the most
    recently updated first and those without update time last; for a
    folder the caller does not own, or that does not exist, it returns the
    empty list.  It never writes. *)
Theorem getAppsInFolder_lists_own_apps_newest_first folderId userId db :
  exists listing,
    FolderService.getAppsInFolder folderId userId db = (Returned listing, db)
    /\ StronglySorted updatedNoEarlier listing
    /\ (forall item,
          In item listing <->
          ownsFolder db folderId userId = true
          /\ exists a r, In a (apps db) /\ In r (appFolders db)
                         /\ App.id a = AppFolder.appId r
                         /\ AppFolder.folderId r = folderId
                         /\ App.userId a = userId
                         /\ item = appInFolder a).
Proof.
  destruct (ownsFolder db folderId userId) eqn:Hown.
  - eexists. split; [now apply getAppsInFolder_rows|]. split.
    + apply StronglySorted_map.
      apply (orderBy_sorted FolderService.byUpdatedAtDesc).
      * intros x y H. unfold FolderService.byUpdatedAtDesc in *.
        now apply optZ_leb_total.
      * intros x y z H1 H2. unfold FolderService.byUpdatedAtDesc in *.
        eapply optZ_leb_trans; eassumption.
    + intros item. rewrite in_map_iff. split.
      * intros ([a r] & <- & Hin).
        eapply Permutation_in in Hin; [|apply orderBy_perm].
        apply filter_In in Hin. destruct Hin as [Hin Hp].
        apply in_innerJoin in Hin. destruct Hin as (Ha & Hr & Hon).
        apply andb_prop in Hp. cbn [fst snd] in Hp. destruct Hp as [Hf Hu].
        apply String.eqb_eq in Hon, Hf, Hu.
        split; [reflexivity|]. exists a, r. repeat split; assumption.
      * intros (_ & a & r & Ha & Hr & Hid & Hf & Hu & ->).
        exists (a, r). split; [reflexivity|].
        eapply Permutation_in; [symmetry; apply orderBy_perm|].
        apply filter_In. split.
        -- apply in_innerJoin. repeat split; try assumption. now apply String.eqb_eq.
        -- cbn [fst snd]. now rewrite Hf, Hu, !String.eqb_refl.
  - exists []. split; [now apply getAppsInFolder_not_owned|].
    split; [constructor|]. intros item. split; [intros []|intros [H _]; discriminate].
Qed.

(** ** Lookups after a write *)

Lemma filter_all {A} (p : A -> bool) (l : list A) :
  (forall x, In x l -> p x = true) -> filter p l = l.
Proof.
  induction l as [|a l IH]; simpl; intros H; [reflexivity|].
  rewrite (H a (or_introl eq_refl)), IH; [reflexivity|].
  intros x Hx. apply H. now right.
Qed.

(** X8. Once deleteFolder has returned true for a folder, the folder is no
    longer found: getFolderById returns null, a second deleteFolder returns
    false and getAppsInFolder returns the empty list, each without a write;
    and getFolderById answers for every other folder id as before, with
    the same app count. *)
Theorem deleteFolder_then_lookups db folderId userId :
  uniqueFolderIds db ->
  ownsFolder db folderId userId = true ->
  let db' := snd (FolderService.deleteFolder folderId userId db) in
  fst (FolderService.deleteFolder folderId userId db) = Returned true
  /\ FolderService.getFolderById folderId userId db' = (Returned None, db')
  /\ FolderService.deleteFolder folderId userId db' = (Returned false, db')
  /\ FolderService.getAppsInFolder folderId userId db' = (Returned [], db')
  /\ (forall other user, other <> folderId ->
        fst (FolderService.getFolderById other user db')
        = fst (FolderService.getFolderById other user db)).
Proof.
  intros Hnd Hown db'. unfold db'. rewrite (deleteFolder_owned _ _ _ Hown).
  cbn [fst snd deleteFolders deleteAppFolders exec appFolders folders apps].
  set (db1 := mkDatabase _ _ _).
  assert (Hgone : ownsFolder db1 folderId userId = false).
  { unfold ownsFolder, db1. cbn [folders]. apply filter_nil_existsb, filter_negb_nil. }
  split; [reflexivity|].
  split; [now apply getFolderById_not_owned|].
  split; [now apply deleteFolder_not_owned|].
  split; [now apply getAppsInFolder_not_owned|].
  intros other user Hne.
  assert (Hnd1 : uniqueFolderIds db1).
  { unfold uniqueFolderIds, db1. cbn [folders]. now apply NoDup_map_filter. }
  rewrite !getFolderById_run. cbn [fst].
  rewrite (selectWithAppCount_unique _ _ Hnd), (selectWithAppCount_unique _ _ Hnd1).
  unfold db1 at 2. cbn [folders]. rewrite filter_filter_comm.
  rewrite (filter_all (fun f => negb ((Folder.id f =? folderId) && (Folder.userId f =? userId)))).
  - f_equal. f_equal. apply map_ext_in. intros f Hf. apply filter_In in Hf.
    destruct Hf as [_ Hm]. apply andb_prop in Hm. destruct Hm as [Hid _].
    apply String.eqb_eq in Hid.
    unfold withAppCount, associationsIn, db1. cbn [appFolders]. f_equal. f_equal.
    rewrite filter_filter_comm. apply filter_all. intros r Hr. apply filter_In in Hr.
    destruct Hr as [_ Hr]. apply String.eqb_eq in Hr.
    apply negb_true_iff, String.eqb_neq. congruence.
  - intros f Hf. apply filter_In in Hf. destruct Hf as [_ Hm].
    apply andb_prop in Hm. destruct Hm as [Hid _]. apply String.eqb_eq in Hid.
    apply negb_true_iff, andb_false_iff. left. apply String.eqb_neq. congruence.
Qed.

Lemma getUserFolders_listing db userId :
  uniqueFolderIds db ->
  exists result,
    FolderService.getUserFolders userId db = (Returned result, db)
    /\ Permutation result
         (map (withAppCount db) (filter (fun f => Folder.userId f =? userId) (folders db)))
    /\ StronglySorted (fun a b => FolderService.byOrderDescName a b = true) result.
Proof.
  intros Hnd. destruct (getUserFolders_perm db userId Hnd) as (result & Hrun & -> & Hperm).
  eexists. split; [exact Hrun|]. split; [exact Hperm|].
  apply (orderBy_sorted FolderService.byOrderDescName
           byOrderDescName_total byOrderDescName_trans).
Qed.

(** X9. A createFolder with a fresh generated id, in a database with unique
    folder ids and no association row naming that id, returns the folder
    with the given name, description, color and icon and both timestamps
    set to the current time; getFolderById then finds it with app count 0,
    and getUserFolders lists it first. *)
Theorem createFolder_then_found_and_listed_first generatedId now userId folderData db :
  uniqueFolderIds db ->
  ~ In generatedId (map Folder.id (folders db)) ->
  associationsIn db generatedId = [] ->
  exists f db' rest,
    FolderService.createFolder generatedId now userId folderData db = (Returned (Some f), db')
    /\ Folder.id f = generatedId
    /\ Folder.userId f = userId
    /\ Folder.name f = FolderService.fd_name folderData
    /\ Folder.description f = FolderService.fd_description folderData
    /\ Folder.color f = FolderService.fd_color folderData
    /\ Folder.icon f = FolderService.fd_icon folderData
    /\ Folder.createdAt f = Some now
    /\ Folder.updatedAt f = Some now
    /\ FolderService.getFolderById generatedId userId db'
       = (Returned (Some (mkFolderWithAppCount f 0)), db')
    /\ FolderService.getUserFolders userId db'
       = (Returned (mkFolderWithAppCount f 0 :: rest), db').
Proof.
  intros Hnd Hfresh Hnone.
  pose proof (createFolder_fresh generatedId now userId folderData db Hfresh) as Hrun.
  cbv zeta in Hrun.
  set (f := Folder.mk generatedId userId _ _ _ _ _ _ _) in Hrun.
  set (db' := mkDatabase (folders db ++ [f]) (appFolders db) (apps db)) in Hrun.
  assert (Hnd' : uniqueFolderIds db').
  { unfold uniqueFolderIds, db'. cbn [folders]. rewrite map_app. now apply NoDup_snoc. }
  assert (Hf' : In f (folders db')) by (unfold db'; cbn [folders]; apply in_or_app; right; now left).
  assert (Hwc : withAppCount db' f = mkFolderWithAppCount f 0).
  { unfold withAppCount, db', associationsIn. cbn [appFolders Folder.id f].
    fold (associationsIn db generatedId). now rewrite Hnone. }
  assert (Hget : FolderService.getFolderById generatedId userId db'
                 = (Returned (Some (mkFolderWithAppCount f 0)), db')).
  { destruct (getFolderById_unique generatedId userId db' Hnd' (ownsFolder_snoc db f))
      as (g & Hg & Hgi & _ & Hrun').
    assert (g = f) by (apply (NoDup_map_inj_in Folder.id _ g f Hnd' Hg Hf'); exact Hgi).
    subst g. now rewrite Hrun', Hwc. }
  destruct (getUserFolders_listing db' userId Hnd') as (listing & Hlist & Hperm & Hsorted).
  assert (Hin : In (mkFolderWithAppCount f 0) listing).
  { eapply Permutation_in; [symmetry; exact Hperm|]. rewrite <- Hwc.
    apply in_map, filter_In. split; [exact Hf'|]. apply String.eqb_refl. }
  assert (Hsmaller : forall x, In x listing ->
                       x = mkFolderWithAppCount f 0
                       \/ (Folder.order (folder x) < Folder.order f)%Z).
  { intros x Hx. eapply Permutation_in in Hx; [|exact Hperm].
    apply in_map_iff in Hx. destruct Hx as (g & <- & Hg). apply filter_In in Hg.
    destruct Hg as [Hg Hu]. unfold db' in Hg. cbn [folders] in Hg.
    apply in_app_or in Hg. destruct Hg as [Hold|[<-|[]]]; [right|left; exact Hwc].
    cbn [folder withAppCount].
    destruct (nextOrder_isNextOrder db userId) as (_ & Hlt & _).
    apply Hlt. unfold userOrders. apply in_map, filter_In. auto. }
  destruct listing as [|x rest]; [contradiction|].
  exists f, db', rest. rewrite Hrun, Hget, Hlist.
  repeat split.
  destruct (Hsmaller x (or_introl eq_refl)) as [->|Hlt]; [reflexivity|].
  exfalso. destruct Hin as [Hx|Hin]; [rewrite Hx in Hlt; cbn in Hlt; lia|].
  inversion Hsorted as [|? ? _ Hall]; subst.
  rewrite Forall_forall in Hall. specialize (Hall _ Hin).
  apply byOrderDescName_listedBefore in Hall. unfold listedBefore in Hall.
  cbn [folder] in Hall. lia.
Qed.

Lemma find_unique_key {A} (key : A -> string) (l : list A) (x : A) :
  NoDup (map key l) -> In x l -> find (fun y => key y =? key x) l = Some x.
Proof.
  induction l as [|a l IH]; simpl; intros Hnd Hin; [contradiction|].
  inversion Hnd as [|? ? Hn Hd]; subst.
  destruct Hin as [->|Hin]; [now rewrite String.eqb_refl|].
  destruct (String.eqb_spec (key a) (key x)) as [E|_]; [|now apply IH].
  exfalso. apply Hn. rewrite E. now apply in_map.
Qed.

Lemma find_map_same {A} (p : A -> bool) (g : A -> A) (l : list A) :
  (forall x, p (g x) = p x) -> find p (map g l) = option_map g (find p l).
Proof.
  intros H. induction l as [|a l IH]; simpl; [reflexivity|].
  rewrite H. now destruct (p a).
Qed.

Lemma existsb_map_same {A} (p : A -> bool) (g : A -> A) (l : list A) :
  (forall x, p (g x) = p x) -> existsb p (map g l) = existsb p l.
Proof.
  intros H. induction l as [|a l IH]; simpl; [reflexivity|]. now rewrite H, IH.
Qed.

(** X10. A successful updateFolder returns the row it has written, which is
    the prior row changed in the provided fields only; getFolderById then
    returns that row with the app count it had before; and the update
    changes the owner of no folder: every ownership check answers as
    before. *)
Theorem updateFolder_then_found db now folderId userId updates :
  uniqueFolderIds db ->
  ownsFolder db folderId userId = true ->
  exists before f' db',
    FolderService.getFolderById folderId userId db = (Returned (Some before), db)
    /\ FolderService.updateFolder now folderId userId updates db = (Returned (Some f'), db')
    /\ updatedRow updates now (folder before) f'
    /\ FolderService.getFolderById folderId userId db'
       = (Returned (Some (mkFolderWithAppCount f' (appCount before))), db')
    /\ (forall other user, ownsFolder db' other user = ownsFolder db other user).
Proof.
  intros Hnd Hown.
  destruct (getFolderById_unique _ _ _ Hnd Hown) as (f & Hf & Hfi & Hfu & Hget).
  pose proof (updateFolder_owned now folderId userId updates db Hown) as Hrun.
  cbv zeta in Hrun.
  set (upd := fun f => if (Folder.id f =? folderId) && (Folder.userId f =? userId)
                       then FolderService.setUpdates updates now f else f) in *.
  set (db' := mkDatabase (map upd (folders db)) (appFolders db) (apps db)) in *.
  assert (Hkeep : forall x, Folder.id (upd x) = Folder.id x
                            /\ Folder.userId (upd x) = Folder.userId x).
  { intros x. unfold upd. destruct (_ && _); split; reflexivity. }
  assert (Hupdf : upd f = FolderService.setUpdates updates now f).
  { unfold upd. now rewrite Hfi, Hfu, !String.eqb_refl. }
  assert (Hfind : find (fun x => Folder.id x =? folderId) (folders db') = Some (upd f)).
  { unfold db'. cbn [folders]. rewrite find_map_same.
    - rewrite <- Hfi, (find_unique_key Folder.id _ f Hnd Hf). reflexivity.
    - intros x. now rewrite (proj1 (Hkeep x)). }
  assert (Hnd' : uniqueFolderIds db').
  { unfold uniqueFolderIds, db'. cbn [folders]. rewrite map_map.
    erewrite map_ext; [exact Hnd|]. intros x. apply Hkeep. }
  assert (Howns : forall other user, ownsFolder db' other user = ownsFolder db other user).
  { intros other user. unfold ownsFolder, db'. cbn [folders].
    apply existsb_map_same. intros x. destruct (Hkeep x) as [-> ->]. reflexivity. }
  exists (withAppCount db f), (upd f), db'.
  split; [exact Hget|]. split; [now rewrite Hrun, Hfind|].
  split; [rewrite Hupdf; apply setUpdates_updatedRow|].
  split; [|exact Howns].
  assert (Hown' : ownsFolder db' folderId userId = true) by (now rewrite Howns).
  destruct (getFolderById_unique _ _ _ Hnd' Hown') as (g & Hg & Hgi & _ & Hget').
  assert (Hin' : In (upd f) (folders db')) by (unfold db'; cbn [folders]; now apply in_map).
  assert (g = upd f).
  { apply (NoDup_map_inj_in Folder.id _ g (upd f) Hnd' Hg Hin').
    rewrite (proj1 (Hkeep f)). congruence. }
  subst g. rewrite Hget'. unfold withAppCount, associationsIn, db'. cbn [appFolders appCount].
  now rewrite (proj1 (Hkeep f)).
Qed.

(** X11. With unique folder ids, getFolderById and getUserFolders agree:
    getFolderById returns a folder with its count for a user exactly when
    getUserFolders lists that same record for the user. *)
Theorem getFolderById_agrees_with_getUserFolders db userId :
  uniqueFolderIds db ->
  exists listing,
    FolderService.getUserFolders userId db = (Returned listing, db)
    /\ (forall fw,
          In fw listing <->
          FolderService.getFolderById (Folder.id (folder fw)) userId db
          = (Returned (Some fw), db)).
Proof.
  intros Hnd. destruct (getUserFolders_perm db userId Hnd) as (listing & Hrun & _ & Hperm).
  exists listing. split; [exact Hrun|]. intros fw. split.
  - intros Hin. eapply Permutation_in in Hin; [|exact Hperm].
    apply in_map_iff in Hin. destruct Hin as (f & <- & Hf). apply filter_In in Hf.
    destruct Hf as [Hf Hu]. apply String.eqb_eq in Hu. cbn [folder withAppCount].
    assert (Hown : ownsFolder db (Folder.id f) userId = true).
    { unfold ownsFolder. apply existsb_exists. exists f. split; [assumption|].
      now rewrite Hu, !String.eqb_refl. }
    destruct (getFolderById_unique _ _ _ Hnd Hown) as (g & Hg & Hgi & _ & Hget).
    assert (g = f) by (apply (NoDup_map_inj_in Folder.id _ g f Hnd Hg Hf); exact Hgi).
    subst g. exact Hget.
  - intros Hget.
    destruct (ownsFolder db (Folder.id (folder fw)) userId) eqn:Hown.
    + destruct (getFolderById_unique _ _ _ Hnd Hown) as (g & Hg & _ & Hgu & Hget').
      rewrite Hget' in Hget. inversion Hget; subst fw.
      eapply Permutation_in; [symmetry; exact Hperm|].
      apply in_map, filter_In. split; [exact Hg|]. now apply String.eqb_eq.
    + rewrite (getFolderById_not_owned _ _ _ Hown) in Hget. discriminate.
Qed.

(** * Further properties of the controller *)

(** X12. For a folder id the caller does not own, or that no folder has,
    the controller answers get, update and delete with status 404 and the
    message "Folder not found", writing nothing; the listing of the
    folder's apps is answered with status 200 and an empty list instead. *)
Theorem controller_not_found db userId folderId now name description color icon order :
  folderId <> "" ->
  ownsFolder db folderId userId = false ->
  allWhiteSpace name = false ->
  (String.length name <= 50)%nat ->
  FolderController.getFolder userId (Some folderId) db
  = (FolderController.createErrorResponse "Folder not found" 404, db)
  /\ FolderController.updateFolder now userId (Some folderId)
       (Some (FolderController.mkUpdateFolderRequest (Some name) description color icon order))
       db
     = (FolderController.createErrorResponse "Folder not found" 404, db)
  /\ FolderController.deleteFolder userId (Some folderId) db
     = (FolderController.createErrorResponse "Folder not found" 404, db)
  /\ FolderController.getAppsInFolder userId (Some folderId) db
     = (FolderController.createSuccessResponse [], db).
Proof.
  intros Hid Hown Hname Hlen. apply String.eqb_neq in Hid.
  unfold FolderController.getFolder, FolderController.updateFolder,
    FolderController.deleteFolder, FolderController.getAppsInFolder.
  rewrite Hid. cbn [FolderController.ur_name].
  destruct (trim_not_blank name Hname) as (_ & -> & _).
  apply Nat.ltb_ge in Hlen. rewrite Hlen.
  rewrite (getFolderById_not_owned _ _ _ Hown), (updateFolder_not_owned _ _ _ _ _ Hown),
    (deleteFolder_not_owned _ _ _ Hown), (getAppsInFolder_not_owned _ _ _ Hown).
  auto.
Qed.

(** X13. For a folder the caller owns, the controller answers get with
    status 200 and the folder, and delete with status 200; after the
    delete, get and a second delete of the same id are answered with
    404. *)
Theorem controller_delete_then_not_found db userId folderId :
  folderId <> "" ->
  ownsFolder db folderId userId = true ->
  let db' := snd (FolderController.deleteFolder userId (Some folderId) db) in
  (exists fw, FolderController.getFolder userId (Some folderId) db
              = (FolderController.createSuccessResponse (Some fw), db)
              /\ Folder.id (folder fw) = folderId
              /\ Folder.userId (folder fw) = userId)
  /\ fst (FolderController.deleteFolder userId (Some folderId) db)
     = FolderController.createSuccessResponse
         (FolderController.mkFolderDeleteData true "Folder deleted successfully")
  /\ FolderController.getFolder userId (Some folderId) db'
     = (FolderController.createErrorResponse "Folder not found" 404, db')
  /\ FolderController.deleteFolder userId (Some folderId) db'
     = (FolderController.createErrorResponse "Folder not found" 404, db').
Proof.
  intros Hid Hown db'. apply String.eqb_neq in Hid. unfold db'.
  unfold FolderController.getFolder, FolderController.deleteFolder. rewrite Hid.
  rewrite (deleteFolder_owned _ _ _ Hown).
  cbn [fst snd deleteFolders deleteAppFolders exec appFolders folders apps].
  set (db1 := mkDatabase _ _ _).
  assert (Hgone : ownsFolder db1 folderId userId = false).
  { unfold ownsFolder, db1. cbn [folders]. apply filter_nil_existsb, filter_negb_nil. }
  rewrite (getFolderById_not_owned _ _ _ Hgone), (deleteFolder_not_owned _ _ _ Hgone).
  split; [|auto].
  rewrite getFolderById_run.
  destruct (FolderService.selectWithAppCount _ db) as [|fw rest] eqn:Hsel.
  { apply selectWithAppCount_nil_iff, filter_nil_existsb in Hsel.
    unfold ownsFolder in Hown. congruence. }
  exists fw. split; [reflexivity|].
  assert (Hin : In fw (fw :: rest)) by now left. rewrite <- Hsel in Hin.
  apply selectWithAppCount_in in Hin. destruct Hin as [_ Hm].
  apply andb_prop in Hm. destruct Hm as [H1 H2]. now apply String.eqb_eq in H1, H2.
Qed.

(** X14. A move request of the caller's app: with folderId null it is
    answered 200 "App removed from folder" and the app is unfiled; with the
    empty string as folderId it is not taken as null but as the id of a
    folder, and when no folder has that id it is answered 404 with nothing
    written; without an appId, or with an empty one, it is answered 400
    with nothing written. *)
Theorem controller_move_requests db userId appId generatedId now folderId :
  appId <> "" ->
  ownsApp db appId userId = true ->
  ~ In "" (map Folder.id (folders db)) ->
  let move a f :=
    FolderController.moveAppToFolder generatedId now userId
      (Some (FolderController.mkMoveToFolderRequest a f)) db in
  move (Some appId) None
  = (FolderController.createSuccessResponse
       (FolderController.mkFolderDeleteData true "App removed from folder"),
     withoutApp db appId)
  /\ move (Some appId) (Some "")
     = (FolderController.createErrorResponse "App or folder not found" 404, db)
  /\ (exists m, move None folderId = (FolderController.createErrorResponse m 400, db))
  /\ (exists m, move (Some "") folderId = (FolderController.createErrorResponse m 400, db)).
Proof.
  intros Hid Ha Hnone move. apply String.eqb_neq in Hid.
  unfold move, FolderController.moveAppToFolder.
  cbn [FolderController.mr_appId FolderController.mr_folderId]. rewrite Hid.
  rewrite (moveAppToFolder_null _ _ _ _ _ Ha).
  rewrite (moveAppToFolder_foreign_folder _ _ _ _ _ _
             (missing_folder_not_owned db "" userId Hnone)).
  split; [reflexivity|]. split; [reflexivity|].
  split; eexists; reflexivity.
Qed.

(** X15. When the generated id of a create request is already the id of a
    folder, the insert throws: the controller answers a valid request with
    status 500 and no folder is written. *)
Theorem controller_create_id_collision db generatedId now userId name description color icon :
  allWhiteSpace name = false ->
  (String.length name <= 50)%nat ->
  In generatedId (map Folder.id (folders db)) ->
  FolderController.createFolder generatedId now userId
    (Some (FolderController.mkCreateFolderRequest (Some name) description color icon)) db
  = (FolderController.createErrorResponse "Failed to create folder" 500, db).
Proof.
  intros Hname Hlen Hin. unfold FolderController.createFolder.
  cbn [FolderController.cr_name FolderController.cr_description
       FolderController.cr_color FolderController.cr_icon].
  destruct (trim_not_blank name Hname) as (-> & -> & _). cbn [orb].
  apply Nat.ltb_ge in Hlen. rewrite Hlen.
  now rewrite createFolder_collision.
Qed.

(** ** Names that pass the validation *)

Lemma trimStart_length s : (String.length (trimStart s) <= String.length s)%nat.
Proof.
  induction s as [|c s IH]; simpl; [lia|].
  destruct (isWhiteSpace c); simpl; lia.
Qed.

Lemma trimEnd_length s : (String.length (trimEnd s) <= String.length s)%nat.
Proof.
  induction s as [|c s IH]; simpl; [lia|].
  destruct (trimEnd s); [destruct (isWhiteSpace c)|]; simpl in *; lia.
Qed.

Lemma trim_length s : (String.length (trim s) <= String.length s)%nat.
Proof.
  unfold trim. etransitivity; [apply trimEnd_length|apply trimStart_length].
Qed.

Lemma trimEnd_idem s : trimEnd (trimEnd s) = trimEnd s.
Proof.
  induction s as [|c s IH]; simpl; [reflexivity|].
  destruct (trimEnd s) as [|k kept] eqn:E.
  - destruct (isWhiteSpace c) eqn:Ec; simpl; [reflexivity|]. now rewrite Ec.
  - change (trimEnd (String c (String k kept))) with
      (match trimEnd (String k kept) with
       | EmptyString => if isWhiteSpace c then EmptyString else String c EmptyString
       | r => String c r
       end).
    now rewrite IH.
Qed.

(** A string that does not start with white space. *)
Lemma trimStart_clean s :
  match s with EmptyString => True | String c _ => isWhiteSpace c = false end ->
  trimStart s = s.
Proof. destruct s as [|c s]; simpl; [reflexivity|]. now intros ->. Qed.

Lemma trimStart_starts_clean s :
  match trimStart s with EmptyString => True | String c _ => isWhiteSpace c = false end.
Proof.
  induction s as [|c s IH]; simpl; [exact I|].
  destruct (isWhiteSpace c) eqn:E; [exact IH|exact E].
Qed.

Lemma trimEnd_starts_clean s :
  match s with EmptyString => True | String c _ => isWhiteSpace c = false end ->
  match trimEnd s with EmptyString => True | String c _ => isWhiteSpace c = false end.
Proof.
  destruct s as [|c s]; simpl; [auto|]. intros Hc.
  destruct (trimEnd s); [rewrite Hc|]; exact Hc.
Qed.

(** Trimming twice is trimming once. *)
Lemma trim_idem s : trim (trim s) = trim s.
Proof.
  unfold trim. rewrite (trimStart_clean (trimEnd (trimStart s))).
  - apply trimEnd_idem.
  - apply trimEnd_starts_clean, trimStart_starts_clean.
Qed.

Lemma trim_normalised name :
  allWhiteSpace name = false -> (String.length name <= 50)%nat ->
  normalisedName (trim name).
Proof.
  intros Hb Hlen. unfold normalisedName. split; [apply trim_idem|]. split.
  - intros E. apply trim_empty_iff in E. congruence.
  - etransitivity; [apply trim_length|exact Hlen].
Qed.

Lemma namesNormalised_snoc db f :
  namesNormalised db -> normalisedName (Folder.name f) ->
  namesNormalised (mkDatabase (folders db ++ [f]) (appFolders db) (apps db)).
Proof.
  intros H Hf g Hg. cbn [folders] in Hg. apply in_app_or in Hg.
  destruct Hg as [Hg|[<-|[]]]; [now apply H|exact Hf].
Qed.

(** X16. If every folder name in the table is trimmed, not empty and at
    most 50 characters long, it is still so after a create, update, delete
    or move request handled by the controller, whatever the request and
    its outcome. *)
Theorem controller_keeps_names_normalised db generatedId now userId folderId
    (createRequest : option FolderController.CreateFolderRequest)
    (updateRequest : option FolderController.UpdateFolderRequest)
    (moveRequest : option FolderController.MoveToFolderRequest) :
  namesNormalised db ->
  namesNormalised (snd (FolderController.createFolder generatedId now userId createRequest db))
  /\ namesNormalised (snd (FolderController.updateFolder now userId folderId updateRequest db))
  /\ namesNormalised (snd (FolderController.deleteFolder userId folderId db))
  /\ namesNormalised
       (snd (FolderController.moveAppToFolder generatedId now userId moveRequest db)).
Proof.
  intros H. split; [|split; [|split]].
  - unfold FolderController.createFolder.
    destruct createRequest as [[[name|] d c i]|]; cbn [FolderController.cr_name snd]; try exact H.
    destruct (allWhiteSpace name) eqn:Hb.
    { destruct (trim_blank name Hb) as [-> _]. rewrite orb_true_r. exact H. }
    destruct (trim_not_blank name Hb) as (-> & -> & _). cbn [orb].
    destruct (Nat.ltb_spec 50 (String.length name)) as [Hlong|Hlen]; [exact H|].
    cbn [FolderController.cr_description FolderController.cr_color FolderController.cr_icon].
    destruct (in_dec string_dec generatedId (map Folder.id (folders db))) as [Hin|Hfresh].
    + rewrite createFolder_collision by assumption. exact H.
    + rewrite (createFolder_fresh _ _ _ _ _ Hfresh). cbv zeta.
      rewrite getFolderById_run. cbn [snd].
      apply namesNormalised_snoc; [exact H|]. cbn [Folder.name FolderService.fd_name].
      now apply trim_normalised.
  - unfold FolderController.updateFolder.
    destruct folderId as [folderId|]; [|exact H].
    destruct (folderId =? ""); [exact H|].
    destruct updateRequest as [[name d c i o]|]; [|exact H].
    cbn [FolderController.ur_name FolderController.ur_description FolderController.ur_color
         FolderController.ur_icon FolderController.ur_order].
    assert (Hser : forall updates,
               match FolderService.fu_name updates with
               | Some n => normalisedName n
               | None => True
               end ->
               namesNormalised
                 (snd (match FolderService.updateFolder now folderId userId updates db with
                       | (Returned None, db1) =>
                           (FolderController.createErrorResponse "Folder not found" 404, db1)
                       | (Returned (Some updatedFolder), db1) =>
                           match FolderService.getFolderById (Folder.id updatedFolder)
                                   userId db1 with
                           | (Returned folderWithCount, db2) =>
                               (FolderController.createSuccessResponse folderWithCount, db2)
                           | (Thrown _, db2) =>
                               (FolderController.createErrorResponse
                                  "Failed to update folder" 500, db2)
                           end
                       | (Thrown _, db1) =>
                           (FolderController.createErrorResponse
                              "Failed to update folder" 500, db1)
                       end))).
    { intros updates Hn.
      assert (Hdb1 : namesNormalised
                       (snd (FolderService.updateFolder now folderId userId updates db))).
      { destruct (updateFolder_state now folderId userId updates db) as [->| ->]; [exact H|].
        intros g Hg. cbn [folders] in Hg. apply in_map_iff in Hg.
        destruct Hg as (f & <- & Hf). destruct (_ && _); [|now apply H].
        unfold FolderService.setUpdates. cbn [Folder.name].
        destruct (FolderService.fu_name updates); [exact Hn|now apply H]. }
      destruct (FolderService.updateFolder now folderId userId updates db)
        as [[[f'|]|e] db1]; cbn [snd] in *; [|exact Hdb1|exact Hdb1].
      rewrite getFolderById_run. exact Hdb1. }
    destruct name as [name|].
    + destruct (allWhiteSpace name) eqn:Hb.
      { destruct (trim_blank name Hb) as [-> _]. exact H. }
      destruct (trim_not_blank name Hb) as (_ & -> & _).
      destruct (Nat.ltb_spec 50 (String.length name)) as [Hlong|Hlen]; [exact H|].
      apply Hser. cbn. now apply trim_normalised.
    + apply Hser. exact I.
  - unfold FolderController.deleteFolder.
    destruct folderId as [folderId|]; [|exact H].
    destruct (folderId =? ""); [exact H|].
    assert (Hdb1 : namesNormalised (snd (FolderService.deleteFolder folderId userId db))).
    { destruct (deleteFolder_state folderId userId db) as [->| ->]; [exact H|].
      intros g Hg. cbn [folders] in Hg. apply filter_In in Hg. now apply H. }
    destruct (FolderService.deleteFolder folderId userId db) as [[[|]|e] db1]; exact Hdb1.
  - unfold FolderController.moveAppToFolder.
    destruct moveRequest as [[[appId|] target]|]; cbn [FolderController.mr_appId]; try exact H.
    destruct (appId =? ""); [exact H|]. cbn [FolderController.mr_folderId].
    assert (Hdb1 : namesNormalised
                     (snd (FolderService.moveAppToFolder generatedId now appId target userId db))).
    { intros g Hg. destruct (moveAppToFolder_keeps_tables generatedId now appId target userId db)
        as (Hfold & _). rewrite Hfold in Hg. now apply H. }
    destruct (FolderService.moveAppToFolder generatedId now appId target userId db)
      as [[[|]|e] db1]; exact Hdb1.
Qed.

Lemma createFolder_valid_not_400 generatedId now userId name description color icon db :
  allWhiteSpace name = false ->
  (String.length name <= 50)%nat ->
  FolderController.statusCode
    (fst (FolderController.createFolder generatedId now userId
            (Some (FolderController.mkCreateFolderRequest (Some name) description color icon))
            db)) <> 400%nat.
Proof.
  intros Hb Hlen. unfold FolderController.createFolder. cbn [FolderController.cr_name].
  destruct (trim_not_blank name Hb) as (-> & -> & _). cbn [orb].
  apply Nat.ltb_ge in Hlen. rewrite Hlen.
  destruct (FolderService.createFolder _ _ _ _ db) as [[[f|]|e] db1]; cbn; discriminate.
Qed.

Lemma updateFolder_valid_not_400 now userId folderId name description color icon order db :
  folderId <> "" ->
  allWhiteSpace name = false ->
  (String.length name <= 50)%nat ->
  FolderController.statusCode
    (fst (FolderController.updateFolder now userId (Some folderId)
            (Some (FolderController.mkUpdateFolderRequest (Some name) description color icon
                     order)) db)) <> 400%nat.
Proof.
  intros Hid Hb Hlen. unfold FolderController.updateFolder.
  apply String.eqb_neq in Hid. rewrite Hid. cbn [FolderController.ur_name].
  destruct (trim_not_blank name Hb) as (_ & -> & _).
  apply Nat.ltb_ge in Hlen. rewrite Hlen.
  destruct (FolderService.updateFolder _ _ _ _ db) as [[[f|]|e] db1]; cbn; discriminate.
Qed.

(** X17. The dialog and the controller accept the same names: for every
    name, the dialog refuses to submit it exactly when the controller
    answers a create request with that name with status 400, and exactly
    when it answers an update request with that name with status 400. *)
Theorem dialog_and_controller_accept_the_same_names
    (name : string) (description color icon : option string) (order : option Z)
    (generatedId userId folderId : string) (now : Z) (db : Database)
    (onSave : FolderDialog.FolderFormData -> FolderDialog.SaveResult)
    (prevError : option string) (prevLoading : bool) :
  folderId <> "" ->
  let submitted :=
    FolderDialog.saved
      (FolderDialog.handleSave onSave prevError prevLoading
         (FolderDialog.mkFolderFormData name description color icon)) in
  (submitted = None <->
   FolderController.statusCode
     (fst (FolderController.createFolder generatedId now userId
             (Some (FolderController.mkCreateFolderRequest (Some name) description color icon))
             db)) = 400%nat)
  /\ (submitted = None <->
      FolderController.statusCode
        (fst (FolderController.updateFolder now userId (Some folderId)
                (Some (FolderController.mkUpdateFolderRequest (Some name) description color
                         icon order)) db)) = 400%nat).
Proof.
  intros Hid submitted.
  assert (Hcases :
            (submitted = None
             /\ (allWhiteSpace name = true \/ (50 < String.length name)%nat))
            \/ (submitted <> None
                /\ allWhiteSpace name = false /\ (String.length name <= 50)%nat)).
  { unfold submitted. destruct (allWhiteSpace name) eqn:Hb.
    - left. rewrite handleSave_rejects_blank by exact Hb. auto.
    - destruct (Nat.le_gt_cases (String.length name) 50) as [Hlen|Hlong].
      + right. destruct (handleSave_accepts onSave prevError prevLoading
                           (FolderDialog.mkFolderFormData name description color icon))
          as (data & -> & _); [exact Hb|exact Hlen|]. repeat split; [discriminate|exact Hlen].
      + left. destruct (handleSave_rejects_long onSave prevError prevLoading
                          (FolderDialog.mkFolderFormData name description color icon))
          as (m & ->); [exact Hlong|]. auto. }
  destruct Hcases as [[Hnone Hbad]|(Hsome & Hb & Hlen)].
  - assert (Hc : FolderController.statusCode
                   (fst (FolderController.createFolder generatedId now userId
                           (Some (FolderController.mkCreateFolderRequest (Some name)
                                    description color icon)) db)) = 400%nat).
    { destruct Hbad as [Hb|Hlong].
      - now rewrite createFolder_rejects_blank.
      - destruct (createFolder_rejects_long generatedId now userId name description color icon
                    db Hlong) as (m & ->). reflexivity. }
    assert (Hu : FolderController.statusCode
                   (fst (FolderController.updateFolder now userId (Some folderId)
                           (Some (FolderController.mkUpdateFolderRequest (Some name)
                                    description color icon order)) db)) = 400%nat).
    { destruct (allWhiteSpace name) eqn:Hb.
      - destruct (updateFolder_rejects_blank now userId (Some folderId) name description color
                    icon order db Hb) as (m & ->). reflexivity.
      - destruct Hbad as [Hb'|Hlong]; [discriminate|].
        unfold FolderController.updateFolder.
        apply String.eqb_neq in Hid. rewrite Hid. cbn [FolderController.ur_name].
        destruct (trim_not_blank name Hb) as (_ & -> & _).
        apply Nat.ltb_lt in Hlong. now rewrite Hlong. }
    tauto.
  - pose proof (createFolder_valid_not_400 generatedId now userId name description color icon
                  db Hb Hlen).
    pose proof (updateFolder_valid_not_400 now userId folderId name description color icon
                  order db Hid Hb Hlen).
    tauto.
Qed.

(** * Further properties of the dialog and the client calls *)

Lemma orUndefined_not_empty x : FolderDialog.orUndefined x <> Some "".
Proof.
  unfold FolderDialog.orUndefined. destruct x as [s|]; [|discriminate].
  destruct (String.eqb_spec s "") as [->|Hne]; [discriminate|]. congruence.
Qed.

(** X18. A submit of the dialog either fails the validation, and then
    nothing is passed to onSave, the dialog stays open, an error is shown
    and the loading flag is untouched; or it passes to onSave a name that
    is trimmed, not empty and at most 50 long, and a description, color and
    icon that are never the empty string, and then the loading flag ends
    false and the dialog closes, with no error shown, exactly when onSave
    resolves. *)
Theorem handleSave_outcomes
    (onSave : FolderDialog.FolderFormData -> FolderDialog.SaveResult)
    (prevError : option string) (prevLoading : bool)
    (formData : FolderDialog.FolderFormData) :
  let r := FolderDialog.handleSave onSave prevError prevLoading formData in
  match FolderDialog.saved r with
  | None =>
      FolderDialog.closed r = false
      /\ FolderDialog.error r <> None
      /\ FolderDialog.isLoading r = prevLoading
      /\ (allWhiteSpace (FolderDialog.name formData) = true
          \/ (50 < String.length (FolderDialog.name formData))%nat)
  | Some data =>
      FolderDialog.name data = trim (FolderDialog.name formData)
      /\ normalisedName (FolderDialog.name data)
      /\ FolderDialog.description data <> Some ""
      /\ FolderDialog.color data <> Some ""
      /\ FolderDialog.icon data <> Some ""
      /\ FolderDialog.isLoading r = false
      /\ (FolderDialog.closed r = true <-> onSave data = FolderDialog.resolved)
      /\ (FolderDialog.error r = None <-> onSave data = FolderDialog.resolved)
  end.
Proof.
  intros r. unfold r, FolderDialog.handleSave.
  destruct (allWhiteSpace (FolderDialog.name formData)) eqn:Hb.
  { destruct (trim_blank _ Hb) as [_ ->]. cbn. repeat split; auto. discriminate. }
  destruct (trim_not_blank _ Hb) as (_ & _ & ->).
  destruct (Nat.ltb_spec 50 (String.length (FolderDialog.name formData))) as [Hlong|Hlen].
  { cbn. repeat split; auto. discriminate. }
  set (data := FolderDialog.mkFolderFormData _ _ _ _).
  assert (Hsaved : forall x, FolderDialog.saved
                     (match x with
                      | FolderDialog.resolved => FolderDialog.mkSubmit None false (Some data) true
                      | FolderDialog.rejectedWithError message =>
                          FolderDialog.mkSubmit (Some message) false (Some data) false
                      | FolderDialog.rejectedWithOther =>
                          FolderDialog.mkSubmit (Some "Failed to save folder") false
                            (Some data) false
                      end) = Some data) by (intros []; reflexivity).
  rewrite Hsaved.
  split; [reflexivity|]. split; [now apply trim_normalised|].
  split; [apply orUndefined_not_empty|]. split; [apply orUndefined_not_empty|].
  split; [apply orUndefined_not_empty|].
  destruct (onSave data); cbn; repeat split; intros; congruence.
Qed.

(** X19. Opening the dialog in edit mode on a folder whose name is trimmed,
    not empty and at most 50 long clears the error and fills the form from
    the folder; submitting the form unchanged passes the folder's own name
    to onSave, and passes a description, color or icon that is null or
    empty on the folder as undefined.  Opening in create mode empties the
    form, and a submit of the empty form is refused. *)
Theorem openEffect_then_handleSave
    (onSave : FolderDialog.FolderFormData -> FolderDialog.SaveResult)
    (fw : FolderWithAppCount) (formData : FolderDialog.FolderFormData)
    (prevError : option string) (prevLoading : bool) :
  normalisedName (Folder.name (folder fw)) ->
  let opened := FolderDialog.openEffect true FolderDialog.edit (Some fw) formData prevError in
  let created := FolderDialog.openEffect true FolderDialog.create (Some fw) formData prevError in
  snd opened = None
  /\ (exists data,
        FolderDialog.saved (FolderDialog.handleSave onSave (snd opened) prevLoading (fst opened))
        = Some data
        /\ FolderDialog.name data = Folder.name (folder fw)
        /\ FolderDialog.description data
           = FolderDialog.orUndefined (option_map trim (Folder.description (folder fw)))
        /\ FolderDialog.color data = FolderDialog.orUndefined (Folder.color (folder fw))
        /\ FolderDialog.icon data = FolderDialog.orUndefined (Folder.icon (folder fw)))
  /\ fst created = FolderDialog.mkFolderFormData "" (Some "") (Some "") (Some "")
  /\ FolderDialog.saved (FolderDialog.handleSave onSave (snd created) prevLoading (fst created))
     = None
  /\ FolderDialog.openEffect false FolderDialog.edit (Some fw) formData prevError
     = (formData, prevError).
Proof.
  intros (Htrim & Hne & Hlen) opened created. destruct fw as [f n]. cbn [folder] in *.
  split; [reflexivity|]. split; [|repeat split].
  assert (Hb : allWhiteSpace (Folder.name f) = false).
  { apply not_true_iff_false. intros Hb. apply trim_empty_iff in Hb. congruence. }
  unfold opened. cbn [FolderDialog.openEffect fst snd].
  unfold FolderDialog.handleSave. cbn [FolderDialog.name FolderDialog.description
                                       FolderDialog.color FolderDialog.icon].
  destruct (trim_not_blank _ Hb) as (_ & _ & ->).
  apply Nat.ltb_ge in Hlen. rewrite Hlen.
  eexists. split; [destruct (onSave _); reflexivity|].
  cbn [FolderDialog.name FolderDialog.description FolderDialog.color FolderDialog.icon].
  split; [exact Htrim|]. repeat split.
  - destruct (Folder.description f) as [d|]; reflexivity.
  - destruct (Folder.color f) as [c|]; reflexivity.
  - destruct (Folder.icon f) as [c|]; reflexivity.
Qed.

(** * Properties of the status bar *)

(** X20. The connection indicator is "disconnected" exactly when the socket
    is not connected; "stalled" exactly when it is connected, one of the
    five operation flags is set and more than 30000 ms have passed since
    the last message; and "connected" otherwise, so that exactly 30000 ms
    of silence, or any silence while idle, is still "connected". *)
Theorem wsHealth_status now websocketConnected lastMessageTimestamp flags :
  let h := StatusBar.wsHealth now websocketConnected lastMessageTimestamp flags in
  let active :=
    StatusBar.isGenerating flags = true \/ StatusBar.isDeploying flags = true
    \/ StatusBar.isPreviewDeploying flags = true \/ StatusBar.isThinking flags = true
    \/ StatusBar.isGeneratingBlueprint flags = true in
  (StatusBar.healthStatus h = "disconnected" <-> websocketConnected = false)
  /\ (StatusBar.healthStatus h = "stalled" <->
      websocketConnected = true /\ active /\ (30000 < now - lastMessageTimestamp)%Z)
  /\ (StatusBar.healthStatus h = "connected" <->
      websocketConnected = true /\ (~ active \/ (now - lastMessageTimestamp <= 30000)%Z)).
Proof.
  intros h active. unfold h, active, StatusBar.wsHealth.
  destruct websocketConnected; cbn [negb].
  2: { cbn. repeat split; try tauto; try discriminate; intros [H _]; discriminate. }
  destruct flags as [g d p t b]. cbn [StatusBar.isGenerating StatusBar.isDeploying
    StatusBar.isPreviewDeploying StatusBar.isThinking StatusBar.isGeneratingBlueprint].
  destruct (Z.ltb_spec 30000 (now - lastMessageTimestamp)) as [Hlt|Hle];
    destruct g, d, p, t, b; cbn;
    repeat split; try discriminate; try tauto; try lia;
    try (intros _; repeat split; auto; lia);
    try (intros (_ & H & _); intuition discriminate);
    try (intros (_ & [H|H]); [exfalso; apply H; auto|lia]);
    try (intros _; split; [reflexivity|right; lia]);
    try (intros _; split; [reflexivity|left; intuition discriminate]).
Qed.

(** X21. For a last-message time that is set and not in the future, the
    label of the last activity counts whole seconds below one minute, whole
    minutes below one hour and whole hours from there on: the count is the
    elapsed time divided by 1000, 60000 or 3600000 ms, rounded down.  With
    no last-message time the label is "N/A". *)
Theorem timeSinceLastActivity_units now lastMessageTimestamp :
  lastMessageTimestamp <> 0%Z ->
  (0 <= now - lastMessageTimestamp)%Z ->
  let elapsed := (now - lastMessageTimestamp)%Z in
  let label := StatusBar.timeSinceLastActivity now lastMessageTimestamp in
  StatusBar.timeSinceLastActivity now 0 = "N/A"
  /\ ((elapsed < 60000)%Z ->
      label = (StatusTracker.showZ (elapsed / 1000) ++ "s ago")%string
      /\ (0 <= elapsed / 1000 < 60)%Z)
  /\ ((60000 <= elapsed < 3600000)%Z ->
      label = (StatusTracker.showZ (elapsed / 60000) ++ "m ago")%string
      /\ (1 <= elapsed / 60000 < 60)%Z)
  /\ ((3600000 <= elapsed)%Z ->
      label = (StatusTracker.showZ (elapsed / 3600000) ++ "h ago")%string
      /\ (1 <= elapsed / 3600000)%Z).
Proof.
  intros Hset Hpos elapsed label. unfold label, StatusBar.timeSinceLastActivity.
  apply Z.eqb_neq in Hset. rewrite Hset. fold elapsed.
  assert (Hm : (elapsed / 1000 / 60 = elapsed / 60000)%Z)
    by (rewrite Z.div_div by lia; reflexivity).
  assert (Hh : (elapsed / 60000 / 60 = elapsed / 3600000)%Z)
    by (rewrite Z.div_div by lia; reflexivity).
  split; [reflexivity|]. split; [|split].
  - intros Hlt.
    assert (0 <= elapsed / 1000 < 60)%Z.
    { split; [apply Z.div_pos; lia|apply Z.div_lt_upper_bound; lia]. }
    destruct (Z.ltb_spec (elapsed / 1000) 60); [auto|lia].
  - intros [Hlo Hhi].
    assert (60 <= elapsed / 1000)%Z by (apply Z.div_le_lower_bound; lia).
    assert (1 <= elapsed / 60000 < 60)%Z.
    { split; [apply Z.div_le_lower_bound; lia|apply Z.div_lt_upper_bound; lia]. }
    destruct (Z.ltb_spec (elapsed / 1000) 60); [lia|].
    rewrite Hm. destruct (Z.ltb_spec (elapsed / 60000) 60); [auto|lia].
  - intros Hlo.
    assert (60 <= elapsed / 1000)%Z by (apply Z.div_le_lower_bound; lia).
    assert (60 <= elapsed / 60000)%Z by (apply Z.div_le_lower_bound; lia).
    assert (1 <= elapsed / 3600000)%Z by (apply Z.div_le_lower_bound; lia).
    destruct (Z.ltb_spec (elapsed / 1000) 60); [lia|].
    rewrite Hm. destruct (Z.ltb_spec (elapsed / 60000) 60); [lia|].
    rewrite Hh. auto.
Qed.

(** X22. The status bar shows "Ready" with status idle exactly when none of
    the five operation flags is set and no project stage is active; in
    every other case the status is active, and a running deployment is
    shown whatever else is set. *)
Theorem currentOperation_idle_iff flags projectStages :
  let op := StatusBar.currentOperation flags projectStages in
  (StatusBar.opStatus op = "idle" <->
   StatusBar.isGenerating flags = false /\ StatusBar.isDeploying flags = false
   /\ StatusBar.isPreviewDeploying flags = false /\ StatusBar.isThinking flags = false
   /\ StatusBar.isGeneratingBlueprint flags = false
   /\ forall s, In s projectStages -> StatusBar.status s <> "active")
  /\ (StatusBar.opStatus op = "idle" -> StatusBar.opText op = "Ready")
  /\ (StatusBar.opStatus op <> "idle" -> StatusBar.opStatus op = "active")
  /\ (StatusBar.isDeploying flags = true -> StatusBar.opText op = "Deploying to Cloudflare").
Proof.
  intros op. unfold op, StatusBar.currentOperation.
  destruct flags as [g d p t b]. cbn [StatusBar.isGenerating StatusBar.isDeploying
    StatusBar.isPreviewDeploying StatusBar.isThinking StatusBar.isGeneratingBlueprint].
  destruct d; [cbn; repeat split; try discriminate; try tauto; intros H; decompose [and] H; discriminate|].
  destruct p; [cbn; repeat split; try discriminate; try tauto; intros H; decompose [and] H; discriminate|].
  destruct b; [cbn; repeat split; try discriminate; try tauto; intros H; decompose [and] H; discriminate|].
  destruct t; [cbn; repeat split; try discriminate; try tauto; intros H; decompose [and] H; discriminate|].
  destruct g; [cbn; repeat split; try discriminate; try tauto; intros H; decompose [and] H; discriminate|].
  destruct (find _ projectStages) as [st|] eqn:E; cbn.
  - apply find_some in E. destruct E as [Hin Hact]. apply String.eqb_eq in Hact.
    repeat split; try discriminate; try tauto.
    intros H. decompose [and] H. exfalso. eapply H6; eassumption.
  - repeat split; try tauto; try discriminate.
    intros s Hs Hact. pose proof (find_none _ _ E s Hs) as Hno. cbv beta in Hno.
    apply String.eqb_neq in Hno. contradiction.
Qed.

Lemma sliceLast_sliceLast {A} (m n : nat) (l : list A) :
  (m <= n)%nat ->
  StatusTracker.sliceLast m (StatusTracker.sliceLast n l) = StatusTracker.sliceLast m l.
Proof.
  intros Hmn. unfold StatusTracker.sliceLast. rewrite skipn_skipn, length_skipn.
  f_equal. lia.
Qed.

(** X23. After ten or more [phase_generating] messages in a row, whatever
    was logged before, the activity panel shows exactly ten rows: the
    entries of the last ten messages, the newest first. *)
Theorem recent_rows_after_messages
    (evs : list (Z * StatusTracker.Readings * string)) (s : StatusTracker.State) :
  (10 <= length evs)%nat ->
  let rows :=
    StatusBar.recentActivityRows
      (StatusTracker.activities (StatusTracker.feed (map phaseEvent evs) s)) in
  rows = rev (map phaseEntry (skipn (length evs - 10) evs))
  /\ length rows = 10%nat.
Proof.
  intros Hlen rows.
  assert (Hrows : rows = rev (map phaseEntry (skipn (length evs - 10) evs))).
  { unfold rows, StatusBar.recentActivityRows.
    rewrite feed_phase_activities by (intros ->; simpl in Hlen; lia).
    rewrite sliceLast_sliceLast by (unfold StatusTracker.MAX_ACTIVITIES; lia).
    unfold StatusTracker.sliceLast. rewrite length_app, length_map, skipn_app.
    rewrite (skipn_all2 (StatusTracker.activities s)) by lia.
    replace (length (StatusTracker.activities s) + length evs - 10
             - length (StatusTracker.activities s))%nat
      with (length evs - 10)%nat by lia.
    now rewrite skipn_map. }
  split; [exact Hrows|].
  rewrite Hrows, length_rev, length_map, length_skipn. lia.
Qed.

(** X24. Handling one message never changes the connection flag and never
    touches the entries already logged other than by dropping the oldest:
    either no entry is added and the last-message time is the time read on
    entry, or one entry, stamped with the time read for it, is appended
    and the log cut to its last 50, the last-message time being the time
    read after that.  The kinds cf_agent_state and file_chunk_generated, a
    conversation_response without tool, and an unlisted type longer than
    50 characters add no entry. *)
Theorem trackWebSocketMessage_effect now r msg s :
  let s' := StatusTracker.trackWebSocketMessage now r msg s in
  StatusTracker.websocketConnected s' = StatusTracker.websocketConnected s
  /\ ((StatusTracker.activities s' = StatusTracker.activities s
       /\ StatusTracker.lastMessageTimestamp s' = now)
      \/ (exists a,
            StatusTracker.activities s'
            = StatusTracker.sliceLast 50 (StatusTracker.activities s ++ [a])
            /\ StatusTracker.timestamp a = StatusTracker.timestampNow r
            /\ StatusTracker.lastMessageTimestamp s' = StatusTracker.lastNow r))
  /\ ((msg = StatusTracker.cf_agent_state \/ msg = StatusTracker.file_chunk_generated
       \/ msg = StatusTracker.conversation_response None
       \/ exists ty, msg = StatusTracker.other ty /\ (50 < String.length ty)%nat) ->
      StatusTracker.activities s' = StatusTracker.activities s
      /\ StatusTracker.lastMessageTimestamp s' = now).
Proof.
  intros s'. unfold s'. split; [|split].
  - destruct msg as [| | | | | | | | | | | | | | | | | | | | | | | | | [t|] | | | | | ty];
      cbn [StatusTracker.trackWebSocketMessage]; try reflexivity.
    + destruct (StatusTracker.toolStatus t =? "start")%string; [reflexivity|].
      destruct (StatusTracker.toolStatus t =? "success")%string; [reflexivity|].
      destruct (StatusTracker.toolStatus t =? "error")%string; reflexivity.
    + destruct (String.length ty <=? 50)%nat; reflexivity.
  - assert (Hadd : forall ty m st,
               exists a,
                 StatusTracker.activities
                   (StatusTracker.addActivity r ty m st
                      (StatusTracker.mkState (StatusTracker.activities s) now
                         (StatusTracker.websocketConnected s)))
                 = StatusTracker.sliceLast 50 (StatusTracker.activities s ++ [a])
                 /\ StatusTracker.timestamp a = StatusTracker.timestampNow r
                 /\ StatusTracker.lastMessageTimestamp
                      (StatusTracker.addActivity r ty m st
                         (StatusTracker.mkState (StatusTracker.activities s) now
                            (StatusTracker.websocketConnected s)))
                    = StatusTracker.lastNow r).
    { intros ty m st. eexists. rewrite addActivity_activities.
      cbn [StatusTracker.activities]. split; [reflexivity|]. split; reflexivity. }
    destruct msg as [| | | | | | | | | | | | | | | | | | | | | | | | | [t|] | | | | | ty];
      cbn [StatusTracker.trackWebSocketMessage];
      try (right; apply Hadd); try (left; split; reflexivity).
    + destruct (StatusTracker.toolStatus t =? "start")%string; [right; apply Hadd|].
      destruct (StatusTracker.toolStatus t =? "success")%string; [right; apply Hadd|].
      destruct (StatusTracker.toolStatus t =? "error")%string;
        [right; apply Hadd|left; split; reflexivity].
    + destruct (String.length ty <=? 50)%nat; [right; apply Hadd|left; split; reflexivity].
  - intros [->|[->|[->|(ty & -> & Hlong)]]]; cbn [StatusTracker.trackWebSocketMessage];
      try (split; reflexivity).
    apply Nat.leb_gt in Hlong. rewrite Hlong. split; reflexivity.
Qed.

(** * Properties of the client calls *)

(** X25. When fetchFolders has run, loading is off in every case; the
    folder list is replaced, and the error cleared, exactly when the
    response is successful and carries data; in every other case the list
    is kept and the error is "Failed to fetch folders", followed by the
    message of an ApiError when that is what was thrown: the error message
    of an unsuccessful response is never shown. *)
Theorem fetchFolders_outcomes
    (api : UseFolders.Completion (UseFolders.ApiResponse (list FolderWithAppCount)))
    (s : UseFolders.FolderHookState) :
  let s' := UseFolders.fetchFolders api s in
  UseFolders.loading s' = false
  /\ ((UseFolders.hookError s' = None
       /\ exists response fetched,
            api = UseFolders.returned response
            /\ UseFolders.success response = true
            /\ UseFolders.data response = Some fetched
            /\ UseFolders.folders s' = fetched)
      \/ (UseFolders.folders s' = UseFolders.folders s
          /\ ((UseFolders.hookError s' = Some "Failed to fetch folders"
               /\ forall m, api <> UseFolders.threw (UseFolders.ApiError m))
              \/ exists m, api = UseFolders.threw (UseFolders.ApiError m)
                           /\ UseFolders.hookError s'
                              = Some ("Failed to fetch folders: " ++ m)%string))).
Proof.
  intros s'. unfold s', UseFolders.fetchFolders.
  destruct api as [[ok d e]|[m|m|]]; cbn [UseFolders.success UseFolders.data].
  - destruct ok, d as [fetched|]; cbn; split; try reflexivity.
    + left. split; [reflexivity|]. eexists _, fetched. repeat split.
    + right. split; [reflexivity|]. left. split; [reflexivity|]. discriminate.
    + right. split; [reflexivity|]. left. split; [reflexivity|]. discriminate.
    + right. split; [reflexivity|]. left. split; [reflexivity|]. discriminate.
  - cbn. split; [reflexivity|]. right. split; [reflexivity|]. right. now exists m.
  - cbn. split; [reflexivity|]. right. split; [reflexivity|]. left.
    split; [reflexivity|]. discriminate.
  - cbn. split; [reflexivity|]. right. split; [reflexivity|]. left.
    split; [reflexivity|]. discriminate.
Qed.

(** X26. An edit submitted through the dropdown's dialog, for a name that
    passes the validation: when the API client answers with success and
    the folder, the dialog closes without error and the handler closes the
    edit dialog, shows the success toast and calls onFolderUpdated; when
    the API client throws an ApiError, the dialog stays open and shows
    "Failed to update folder: " followed by the message, and no success
    toast is shown; when the response is unsuccessful, the dialog stays
    open and shows the message of the response. *)
Theorem edit_through_dialog
    (api : FolderDialog.FolderFormData ->
           UseFolders.Completion (UseFolders.ApiResponse FolderWithAppCount))
    (s : FolderActionsDropdown.State)
    (formData : FolderDialog.FolderFormData)
    (prevError : option string) (prevLoading : bool) :
  allWhiteSpace (FolderDialog.name formData) = false ->
  (String.length (FolderDialog.name formData) <= 50)%nat ->
  let edit data := FolderActionsDropdown.handleEditFolder (api data) s in
  let r := FolderDialog.handleSave (fun data => snd (edit data)) prevError prevLoading formData in
  exists data,
    FolderDialog.saved r = Some data
    /\ (forall response fw,
          api data = UseFolders.returned response ->
          UseFolders.success response = true ->
          UseFolders.data response = Some fw ->
          FolderDialog.closed r = true /\ FolderDialog.error r = None
          /\ FolderActionsDropdown.isEditDialogOpen (fst (fst (edit data))) = false
          /\ snd (fst (edit data))
             = [FolderActionsDropdown.toastSuccess "Folder updated successfully";
                FolderActionsDropdown.onFolderUpdated])
    /\ (forall m,
          api data = UseFolders.threw (UseFolders.ApiError m) ->
          FolderDialog.closed r = false
          /\ FolderDialog.error r = Some ("Failed to update folder: " ++ m)%string
          /\ fst (fst (edit data)) = s
          /\ forall t, ~ In (FolderActionsDropdown.toastSuccess t) (snd (fst (edit data))))
    /\ (forall response m,
          api data = UseFolders.returned response ->
          UseFolders.success response = false ->
          UseFolders.error response = Some m -> m <> "" ->
          FolderDialog.closed r = false /\ FolderDialog.error r = Some m).
Proof.
  intros Hb Hlen edit r. unfold r, FolderDialog.handleSave.
  destruct (trim_not_blank _ Hb) as (_ & _ & ->).
  apply Nat.ltb_ge in Hlen. rewrite Hlen.
  set (data := FolderDialog.mkFolderFormData _ _ _ _).
  exists data. split; [destruct (snd (edit data)); reflexivity|].
  unfold edit, FolderActionsDropdown.handleEditFolder. split; [|split].
  - intros response fw -> Hok Hd. unfold UseFolders.updateFolder.
    rewrite Hok, Hd. cbn. auto.
  - intros m ->. cbn. repeat split. intros t [H|[]]. discriminate.
  - intros response m -> Hok He Hne. unfold UseFolders.updateFolder.
    rewrite Hok, He. unfold UseFolders.orMessage.
    apply String.eqb_neq in Hne. rewrite Hne. cbn. auto.
Qed.

(** * The further properties on the sample data *)

Lemma moveAppToFolder_collision_unfiles_witness :
  exists db',
    FolderService.moveAppToFolder "l2" 300 "a1" (Some "f2") "alice" Sample.shared
    = (Thrown "moveAppToFolder", db')
    /\ associationsOf db' "a1" = []
    /\ FolderService.getAppFolder "a1" db' = (Returned None, db')
    /\ (forall other, other <> "a1" ->
                      associationsOf db' other = associationsOf Sample.shared other).
Proof.
  apply (moveAppToFolder_collision_unfiles "l2" 300 "a1" "f2" "alice" Sample.shared
           (AppFolder.mk "l2" "a3" "f1" (Some 140%Z))).
  - reflexivity.
  - reflexivity.
  - simpl. auto.
  - reflexivity.
  - discriminate.
Defined.

Lemma move_then_getAppFolder_witness :
  let db' := snd (FolderService.moveAppToFolder "l9" 300 "a2" (Some "f2") "alice" Sample.db) in
  FolderService.getAppFolder "a2" db' = (Returned (Some "f2"), db').
Proof.
  apply (move_then_getAppFolder "l9" 300 "a2" (Some "f2") "alice" Sample.db).
  - reflexivity.
  - discriminate.
Defined.

Lemma serviceRun_keeps_keys_and_single_folder_witness :
  let calls :=
    [callCreateFolder "f10" 200 "alice" (FolderService.mkFolderData "Games" None None None);
     callMoveAppToFolder "l9" 210 "a2" (Some "f10") "alice";
     callMoveAppToFolder "l1" 220 "a2" (Some "f2") "alice";
     callDeleteFolder "f1" "alice";
     callUpdateFolder 230 "f2" "alice" Sample.rename] in
  uniqueFolderIds (serviceRun calls Sample.db)
  /\ uniqueAppFolderIds (serviceRun calls Sample.db)
  /\ oneFolderPerApp (serviceRun calls Sample.db).
Proof.
  apply serviceRun_keeps_keys_and_single_folder.
  - unfold uniqueFolderIds. simpl. distinct_strings.
  - unfold uniqueAppFolderIds. simpl. distinct_strings.
  - intros a. unfold associationsOf, Sample.db. cbn [appFolders filter AppFolder.appId].
    destruct ("a1" =? a)%string; cbn [length]; lia.
Defined.

Lemma serviceRun_keeps_sameOwner_witness :
  sameOwner
    (serviceRun
       [callMoveAppToFolder "l9" 210 "a2" (Some "f2") "alice";
        callMoveAppToFolder "l8" 220 "a3" (Some "f1") "alice";
        callDeleteFolder "f1" "alice"]
       Sample.db).
Proof.
  apply serviceRun_keeps_sameOwner.
  intros r [<-|[]]. exists Sample.todo, Sample.work. simpl. auto 10.
Defined.

Lemma appCount_is_number_of_listed_apps_witness :
  exists fw listing,
    FolderService.getFolderById "f1" "alice" Sample.db = (Returned (Some fw), Sample.db)
    /\ FolderService.getAppsInFolder "f1" "alice" Sample.db = (Returned listing, Sample.db)
    /\ appCount fw = length listing.
Proof.
  apply (appCount_is_number_of_listed_apps Sample.db "f1" "alice").
  - unfold uniqueFolderIds. simpl. distinct_strings.
  - unfold uniqueAppIds. simpl. distinct_strings.
  - intros r [<-|[]]. exists Sample.todo, Sample.work. simpl. auto 10.
  - reflexivity.
Defined.

Lemma deleteFolder_then_lookups_witness :
  let db' := snd (FolderService.deleteFolder "f1" "alice" Sample.db) in
  fst (FolderService.deleteFolder "f1" "alice" Sample.db) = Returned true
  /\ FolderService.getFolderById "f1" "alice" db' = (Returned None, db')
  /\ FolderService.deleteFolder "f1" "alice" db' = (Returned false, db')
  /\ FolderService.getAppsInFolder "f1" "alice" db' = (Returned [], db')
  /\ (forall other user, other <> "f1" ->
        fst (FolderService.getFolderById other user db')
        = fst (FolderService.getFolderById other user Sample.db)).
Proof.
  apply (deleteFolder_then_lookups Sample.db "f1" "alice").
  - unfold uniqueFolderIds. simpl. distinct_strings.
  - reflexivity.
Defined.

Lemma createFolder_then_found_and_listed_first_witness :
  exists f db' rest,
    FolderService.createFolder "f10" 200 "alice"
      (FolderService.mkFolderData "Games" None (Some "#ff0000") None) Sample.db
    = (Returned (Some f), db')
    /\ Folder.id f = "f10"
    /\ Folder.userId f = "alice"
    /\ Folder.name f = "Games"
    /\ Folder.description f = None
    /\ Folder.color f = Some "#ff0000"
    /\ Folder.icon f = None
    /\ Folder.createdAt f = Some 200%Z
    /\ Folder.updatedAt f = Some 200%Z
    /\ FolderService.getFolderById "f10" "alice" db'
       = (Returned (Some (mkFolderWithAppCount f 0)), db')
    /\ FolderService.getUserFolders "alice" db'
       = (Returned (mkFolderWithAppCount f 0 :: rest), db').
Proof.
  apply (createFolder_then_found_and_listed_first "f10" 200 "alice"
           (FolderService.mkFolderData "Games" None (Some "#ff0000") None) Sample.db).
  - unfold uniqueFolderIds. simpl. distinct_strings.
  - simpl. intuition discriminate.
  - reflexivity.
Defined.

Lemma updateFolder_then_found_witness :
  exists before f' db',
    FolderService.getFolderById "f1" "alice" Sample.db = (Returned (Some before), Sample.db)
    /\ FolderService.updateFolder 400 "f1" "alice" Sample.rename Sample.db
       = (Returned (Some f'), db')
    /\ updatedRow Sample.rename 400 (folder before) f'
    /\ FolderService.getFolderById "f1" "alice" db'
       = (Returned (Some (mkFolderWithAppCount f' (appCount before))), db')
    /\ (forall other user, ownsFolder db' other user = ownsFolder Sample.db other user).
Proof.
  apply (updateFolder_then_found Sample.db 400 "f1" "alice" Sample.rename).
  - unfold uniqueFolderIds. simpl. distinct_strings.
  - reflexivity.
Defined.

Lemma getFolderById_agrees_with_getUserFolders_witness :
  exists listing,
    FolderService.getUserFolders "alice" Sample.db = (Returned listing, Sample.db)
    /\ (forall fw,
          In fw listing <->
          FolderService.getFolderById (Folder.id (folder fw)) "alice" Sample.db
          = (Returned (Some fw), Sample.db)).
Proof.
  apply (getFolderById_agrees_with_getUserFolders Sample.db "alice").
  unfold uniqueFolderIds. simpl. distinct_strings.
Defined.

Lemma controller_not_found_witness :
  FolderController.getFolder "alice" (Some "f3") Sample.db
  = (FolderController.createErrorResponse "Folder not found" 404, Sample.db)
  /\ FolderController.updateFolder 400 "alice" (Some "f3")
       (Some (FolderController.mkUpdateFolderRequest (Some "Office") None None None None))
       Sample.db
     = (FolderController.createErrorResponse "Folder not found" 404, Sample.db)
  /\ FolderController.deleteFolder "alice" (Some "f3") Sample.db
     = (FolderController.createErrorResponse "Folder not found" 404, Sample.db)
  /\ FolderController.getAppsInFolder "alice" (Some "f3") Sample.db
     = (FolderController.createSuccessResponse [], Sample.db).
Proof.
  apply (controller_not_found Sample.db "alice" "f3" 400 "Office" None None None None).
  - discriminate.
  - reflexivity.
  - reflexivity.
  - simpl. lia.
Defined.

Lemma controller_delete_then_not_found_witness :
  let db' := snd (FolderController.deleteFolder "alice" (Some "f1") Sample.db) in
  (exists fw, FolderController.getFolder "alice" (Some "f1") Sample.db
              = (FolderController.createSuccessResponse (Some fw), Sample.db)
              /\ Folder.id (folder fw) = "f1"
              /\ Folder.userId (folder fw) = "alice")
  /\ fst (FolderController.deleteFolder "alice" (Some "f1") Sample.db)
     = FolderController.createSuccessResponse
         (FolderController.mkFolderDeleteData true "Folder deleted successfully")
  /\ FolderController.getFolder "alice" (Some "f1") db'
     = (FolderController.createErrorResponse "Folder not found" 404, db')
  /\ FolderController.deleteFolder "alice" (Some "f1") db'
     = (FolderController.createErrorResponse "Folder not found" 404, db').
Proof.
  apply (controller_delete_then_not_found Sample.db "alice" "f1").
  - discriminate.
  - reflexivity.
Defined.

Lemma controller_move_requests_witness :
  let move a f :=
    FolderController.moveAppToFolder "l9" 300 "alice"
      (Some (FolderController.mkMoveToFolderRequest a f)) Sample.db in
  move (Some "a1") None
  = (FolderController.createSuccessResponse
       (FolderController.mkFolderDeleteData true "App removed from folder"),
     withoutApp Sample.db "a1")
  /\ move (Some "a1") (Some "")
     = (FolderController.createErrorResponse "App or folder not found" 404, Sample.db)
  /\ (exists m, move None (Some "f1")
                = (FolderController.createErrorResponse m 400, Sample.db))
  /\ (exists m, move (Some "") (Some "f1")
                = (FolderController.createErrorResponse m 400, Sample.db)).
Proof.
  apply (controller_move_requests Sample.db "alice" "a1" "l9" 300 (Some "f1")).
  - discriminate.
  - reflexivity.
  - simpl. intuition discriminate.
Defined.

Lemma controller_create_id_collision_witness :
  FolderController.createFolder "f1" 200 "alice"
    (Some (FolderController.mkCreateFolderRequest (Some "Games") None None None)) Sample.db
  = (FolderController.createErrorResponse "Failed to create folder" 500, Sample.db).
Proof.
  apply (controller_create_id_collision Sample.db "f1" 200 "alice" "Games" None None None).
  - reflexivity.
  - simpl. lia.
  - simpl. auto.
Defined.

Lemma controller_keeps_names_normalised_witness :
  namesNormalised
    (snd (FolderController.createFolder "f10" 200 "alice"
            (Some (FolderController.mkCreateFolderRequest (Some "  Games ") None None None))
            Sample.db))
  /\ namesNormalised
       (snd (FolderController.updateFolder 200 "alice" (Some "f1")
               (Some (FolderController.mkUpdateFolderRequest (Some " Office  ") None None None
                        None)) Sample.db))
  /\ namesNormalised (snd (FolderController.deleteFolder "alice" (Some "f1") Sample.db))
  /\ namesNormalised
       (snd (FolderController.moveAppToFolder "f10" 200 "alice"
               (Some (FolderController.mkMoveToFolderRequest (Some "a2") (Some "f2")))
               Sample.db)).
Proof.
  apply (controller_keeps_names_normalised Sample.db "f10" 200 "alice" (Some "f1")).
  intros f [<-|[<-|[<-|[]]]]; unfold normalisedName; simpl;
    (split; [reflexivity|split; [discriminate|lia]]).
Defined.

Lemma dialog_and_controller_accept_the_same_names_witness :
  let submitted :=
    FolderDialog.saved
      (FolderDialog.handleSave (fun _ => FolderDialog.resolved) None false
         (FolderDialog.mkFolderFormData Sample.name51 None None None)) in
  (submitted = None <->
   FolderController.statusCode
     (fst (FolderController.createFolder "f10" 200 "alice"
             (Some (FolderController.mkCreateFolderRequest (Some Sample.name51) None None None))
             Sample.db)) = 400%nat)
  /\ (submitted = None <->
      FolderController.statusCode
        (fst (FolderController.updateFolder 200 "alice" (Some "f1")
                (Some (FolderController.mkUpdateFolderRequest (Some Sample.name51) None None
                         None None)) Sample.db)) = 400%nat).
Proof.
  apply (dialog_and_controller_accept_the_same_names Sample.name51 None None None None
           "f10" "alice" "f1" 200 Sample.db (fun _ => FolderDialog.resolved) None false).
  discriminate.
Defined.

Lemma openEffect_then_handleSave_witness :
  let fw := mkFolderWithAppCount Sample.work 1 in
  let blankForm := FolderDialog.mkFolderFormData "x" None None None in
  let opened := FolderDialog.openEffect true FolderDialog.edit (Some fw) blankForm (Some "old") in
  let created :=
    FolderDialog.openEffect true FolderDialog.create (Some fw) blankForm (Some "old") in
  snd opened = None
  /\ (exists data,
        FolderDialog.saved
          (FolderDialog.handleSave (fun _ => FolderDialog.resolved) (snd opened) false
             (fst opened)) = Some data
        /\ FolderDialog.name data = "Work"
        /\ FolderDialog.description data
           = FolderDialog.orUndefined (option_map trim (Folder.description Sample.work))
        /\ FolderDialog.color data = FolderDialog.orUndefined (Folder.color Sample.work)
        /\ FolderDialog.icon data = FolderDialog.orUndefined (Folder.icon Sample.work))
  /\ fst created = FolderDialog.mkFolderFormData "" (Some "") (Some "") (Some "")
  /\ FolderDialog.saved
       (FolderDialog.handleSave (fun _ => FolderDialog.resolved) (snd created) false
          (fst created)) = None
  /\ FolderDialog.openEffect false FolderDialog.edit (Some fw) blankForm (Some "old")
     = (blankForm, Some "old").
Proof.
  apply (openEffect_then_handleSave (fun _ => FolderDialog.resolved)
           (mkFolderWithAppCount Sample.work 1)
           (FolderDialog.mkFolderFormData "x" None None None) (Some "old") false).
  unfold normalisedName. simpl. split; [reflexivity|split; [discriminate|lia]].
Defined.

Lemma timeSinceLastActivity_units_witness :
  let elapsed := (76000 - 1000)%Z in
  let label := StatusBar.timeSinceLastActivity 76000 1000 in
  StatusBar.timeSinceLastActivity 76000 0 = "N/A"
  /\ ((elapsed < 60000)%Z ->
      label = (StatusTracker.showZ (elapsed / 1000) ++ "s ago")%string
      /\ (0 <= elapsed / 1000 < 60)%Z)
  /\ ((60000 <= elapsed < 3600000)%Z ->
      label = (StatusTracker.showZ (elapsed / 60000) ++ "m ago")%string
      /\ (1 <= elapsed / 60000 < 60)%Z)
  /\ ((3600000 <= elapsed)%Z ->
      label = (StatusTracker.showZ (elapsed / 3600000) ++ "h ago")%string
      /\ (1 <= elapsed / 3600000)%Z).
Proof.
  apply (timeSinceLastActivity_units 76000 1000); lia.
Defined.

Lemma recent_rows_after_messages_witness :
  let rows :=
    StatusBar.recentActivityRows
      (StatusTracker.activities
         (StatusTracker.feed (map phaseEvent Sample.sixty) Sample.idle)) in
  rows = rev (map phaseEntry (skipn (length Sample.sixty - 10) Sample.sixty))
  /\ length rows = 10%nat.
Proof.
  apply (recent_rows_after_messages Sample.sixty Sample.idle).
  apply Nat.leb_le. reflexivity.
Defined.

Lemma edit_through_dialog_witness :
  let api (data : FolderDialog.FolderFormData) :=
    @UseFolders.threw (UseFolders.ApiResponse FolderWithAppCount)
      (UseFolders.ApiError "Network error") in
  let s := FolderActionsDropdown.mkState true false false in
  let formData := FolderDialog.mkFolderFormData "Office" None None None in
  let edit data := FolderActionsDropdown.handleEditFolder (api data) s in
  let r := FolderDialog.handleSave (fun data => snd (edit data)) None false formData in
  FolderDialog.closed r = false
  /\ FolderDialog.error r = Some "Failed to update folder: Network error".
Proof.
  destruct (edit_through_dialog
              (fun _ => UseFolders.threw (UseFolders.ApiError "Network error"))
              (FolderActionsDropdown.mkState true false false)
              (FolderDialog.mkFolderFormData "Office" None None None) None false)
    as (data & _ & _ & Herr & _); [reflexivity|simpl; lia|].
  destruct (Herr "Network error" eq_refl) as (Hc & He & _).
  split; [exact Hc|exact He].
Defined.

(** The time label at 75 s is in minutes. *)
Example timeSinceLastActivity_75s : StatusBar.timeSinceLastActivity 76000 1000 = "1m ago".
Proof. reflexivity. Qed.
